(** * Measurement authoring: the mode state machine and the client-side
      reconciliation of shared measurements

    A shallow embedding of [MeasureMenuController.ts] and
    [MeasurementPlateObject.ts].

    - A JavaScript [number] holding a coordinate or a distance is an IEEE 754
      binary64 value: Rocq's primitive [float].
    - A measurement id is an integer on the wire; it is a [Z].
    - A [Map<number, MeasurementPlateObject>] is a [gmap Z Ref]: the map holds
      references, and the objects live in a heap, so that the two maps of the
      controller, [selectedPlateObject] and the collider metadata can alias
      one object, as they do in the source.
    - Meshes of the 3D engine are plain values carrying the properties the
      controller reads or writes (points, colour, rendering group).
    - [console] output and [SocketHandler.SendData] calls are recorded in two
      traces carried by the state.
    - A handler is a function from states to states; the one handler that
      can end with an uncaught exception returns a [Completion].

    - What the program cannot decide is a field of the state that no handler
      writes: whether the transport raises, and for which lines the engine's
      [MeshBuilder.CreateDashedLines] returns a mesh.

    Left to the 3D engine and the GUI toolkit, and not modelled: the layout
    and styling of widgets, the formatting of the label text, and the
    framing of socket messages. A mesh that is disposed and whose field is
    set to [null] is one the state no longer holds; a line or a label that
    is disposed and still referenced is marked as disposed. *)

From Stdlib Require Import ZArith Bool Floats.PrimFloat.
From stdpp Require Import gmap list strings.

Local Open Scope Z_scope.

(** ** Values of the 3D engine *)

Record Vector3 := mkVector3 { vx : float; vy : float; vz : float }.

Module Vector3.

Definition Zero : Vector3 := mkVector3 0%float 0%float 0%float.

Definition clone (v : Vector3) : Vector3 := mkVector3 (vx v) (vy v) (vz v).

Definition add (a b : Vector3) : Vector3 :=
  mkVector3 (vx a + vx b)%float (vy a + vy b)%float (vz a + vz b)%float.

Definition scale (a : Vector3) (k : float) : Vector3 :=
  mkVector3 (vx a * k)%float (vy a * k)%float (vz a * k)%float.

Definition DistanceSquared (a b : Vector3) : float :=
  let x := (vx a - vx b)%float in
  let y := (vy a - vy b)%float in
  let z := (vz a - vz b)%float in
  (x * x + y * y + z * z)%float.

(** [Vector3.Distance] of Babylon.js: the square root of the sum of the
    squared coordinate differences, in binary64 arithmetic. *)
Definition Distance (a b : Vector3) : float :=
  PrimFloat.sqrt (DistanceSquared a b).

End Vector3.

(** The colours the code takes from [MeasurementConfig]; [EngineDefault] is
    the colour of a mesh nobody has coloured yet. *)
Inductive Color :=
  | EngineDefault
  | colors_default
  | colors_hover
  | colors_delete
  | colors_point_default.

(** [RenderConfig.worldSpace] and [RenderConfig.highlights]. *)
Inductive RenderGroup := worldSpace | highlights.

Inductive PointType := PStart | PEnd.

(** A reference to a [MeasurementPlateObject]: its index in the heap. *)
Abbreviation Ref := nat (only parsing).

Record LinesMesh := mkLinesMesh {
  line_from : Vector3;
  line_to : Vector3;
  line_color : Color;
  line_renderingGroupId : RenderGroup;
  line_isPickable : bool;
  line_dashed : bool;
  line_isDisposed : bool
}.

(** The billboard label: the distance it prints (with [toFixed(2)] and the
    unit) and the point it is anchored at. *)
Record TextMesh := mkTextMesh {
  text_distance : float;
  text_anchor : Vector3;
  text_isDisposed : bool
}.

(** [mesh.dispose()] on a mesh that stays referenced. *)
Definition dispose_line (l : LinesMesh) : LinesMesh :=
  mkLinesMesh (line_from l) (line_to l) (line_color l) (line_renderingGroupId l)
    (line_isPickable l) (line_dashed l) true.

Definition dispose_text (t : TextMesh) : TextMesh :=
  mkTextMesh (text_distance t) (text_anchor t) true.

(** The metadata a collider carries: the plate that owns it, which endpoint
    it is, and the id of the measurement. *)
Record ColliderMetadata := mkColliderMetadata {
  cm_measurementPlate : Ref;
  cm_pointType : PointType;
  cm_measurementId : Z
}.

(** An endpoint sphere. Its material is assigned when the sphere is created
    and never removed, so the emissive colour is a field of the sphere. *)
Record Collider := mkCollider {
  col_position : Vector3;
  col_isPickable : bool;
  col_renderingGroupId : RenderGroup;
  col_emissiveColor : Color;
  col_metadata : ColliderMetadata
}.

#[global] Instance Color_eq_dec : EqDecision Color.
Proof. solve_decision. Defined.
#[global] Instance RenderGroup_eq_dec : EqDecision RenderGroup.
Proof. solve_decision. Defined.
#[global] Instance PointType_eq_dec : EqDecision PointType.
Proof. solve_decision. Defined.

Definition midPoint (a b : Vector3) : Vector3 :=
  Vector3.scale (Vector3.add a b) 0.5%float.

(** ** MeasurementPlateObject.ts *)

Module MeasurementPlateObject.

Record t := mk {
  measurement_instance_id : Z;
  startPoint : Vector3;
  endPoint : Vector3;
  distanceMeasured : float;
  line : option LinesMesh;
  textMesh : option TextMesh;
  startPointCollider : option Collider;
  endPointCollider : option Collider
}.

(** [MeasurementPlateObject.ts], lines 49-61. *)
Definition constructor (id : Z) (sp ep : Vector3) (d : float) : t :=
  mk id sp ep d None None None None.

(** [MeasurementPlateObject.ts], lines 128-171. *)
Definition Create3DText (d : float) (position : Vector3) : TextMesh :=
  mkTextMesh d position false.

(** [MeasurementPlateObject.ts], lines 76-90.
    The dashed line between the endpoints and the label at their middle.
    The label prints the stored [distanceMeasured].

    The method is [async] and no caller awaits it. Its body runs at once,
    up to the end or to the first exception; an exception only rejects the
    promise nobody looks at, and the caller goes on. The first statement,
    [MeshBuilder.CreateDashedLines], is given the two points and a number
    of dashes taken from [distanceMeasured]; [dashedLines] says whether it
    returns a mesh for them. When it raises, [line] and [textMesh] are not
    assigned: they keep what they held. *)
Definition CreatePlate (dashedLines : Vector3 → Vector3 → float → bool) (o : t) : t :=
  if dashedLines (startPoint o) (endPoint o) (distanceMeasured o)
  then
    mk (measurement_instance_id o) (startPoint o) (endPoint o) (distanceMeasured o)
       (Some (mkLinesMesh (startPoint o) (endPoint o) EngineDefault worldSpace false true false))
       (Some (Create3DText (distanceMeasured o) (midPoint (startPoint o) (endPoint o))))
       (startPointCollider o) (endPointCollider o)
  else o.

(** [MeasurementPlateObject.ts], lines 177-197. *)
Definition CreateStartSphere (this : Ref) (o : t) : t :=
  mk (measurement_instance_id o) (startPoint o) (endPoint o) (distanceMeasured o)
     (line o) (textMesh o)
     (Some (mkCollider (startPoint o) true worldSpace colors_point_default
              (mkColliderMetadata this PStart (measurement_instance_id o))))
     (endPointCollider o).

(** [MeasurementPlateObject.ts], lines 199-220. *)
Definition CreateEndSphere (this : Ref) (o : t) : t :=
  mk (measurement_instance_id o) (startPoint o) (endPoint o) (distanceMeasured o)
     (line o) (textMesh o) (startPointCollider o)
     (Some (mkCollider (endPoint o) true worldSpace colors_point_default
              (mkColliderMetadata this PEnd (measurement_instance_id o)))).

(** [MeasurementPlateObject.ts], lines 66-71.
    [async] too, and not awaited either; it awaits nothing itself, so the
    three calls run one after the other whatever [CreatePlate] did. *)
Definition InitPlate (dashedLines : Vector3 → Vector3 → float → bool) (this : Ref) (o : t) : t :=
  CreateEndSphere this (CreateStartSphere this (CreatePlate dashedLines o)).

(** [MeasurementPlateObject.ts], lines 97-120.
    Stores the new points, recomputes the distance from them, disposes the
    old visuals without clearing their fields, and builds new ones. The two
    spheres are always replaced; the line and the label are replaced when
    [CreatePlate] gets its line, and stay the old, disposed ones when it
    does not. *)
Definition UpdateMeasurement (dashedLines : Vector3 → Vector3 → float → bool) (this : Ref)
    (sp ep : Vector3) (o : t) : t :=
  let o1 := mk (measurement_instance_id o) sp ep (Vector3.Distance sp ep)
               (dispose_line <$> line o) (dispose_text <$> textMesh o)
               (startPointCollider o) (endPointCollider o) in
  CreateEndSphere this (CreateStartSphere this (CreatePlate dashedLines o1)).

Definition set_emissive (c : Color) (k : Collider) : Collider :=
  mkCollider (col_position k) (col_isPickable k) (col_renderingGroupId k) c (col_metadata k).

Definition set_group (g : RenderGroup) (k : Collider) : Collider :=
  mkCollider (col_position k) (col_isPickable k) g (col_emissiveColor k) (col_metadata k).

Definition set_metadata_id (id : Z) (k : Collider) : Collider :=
  mkCollider (col_position k) (col_isPickable k) (col_renderingGroupId k) (col_emissiveColor k)
    (mkColliderMetadata (cm_measurementPlate (col_metadata k)) (cm_pointType (col_metadata k)) id).

Definition set_line_color (c : Color) (l : LinesMesh) : LinesMesh :=
  mkLinesMesh (line_from l) (line_to l) c (line_renderingGroupId l) (line_isPickable l)
    (line_dashed l) (line_isDisposed l).

Definition set_line_group (g : RenderGroup) (l : LinesMesh) : LinesMesh :=
  mkLinesMesh (line_from l) (line_to l) (line_color l) g (line_isPickable l)
    (line_dashed l) (line_isDisposed l).

(** [MeasurementPlateObject.ts], lines 226-240. *)
Definition SetColor (c : Color) (o : t) : t :=
  mk (measurement_instance_id o) (startPoint o) (endPoint o) (distanceMeasured o)
     (set_line_color c <$> line o) (textMesh o)
     (set_emissive c <$> startPointCollider o) (set_emissive c <$> endPointCollider o).

(** [MeasurementPlateObject.ts], lines 245-251. *)
Definition SetPointColor (pointType : PointType) (c : Color) (o : t) : t :=
  match pointType with
  | PStart =>
      mk (measurement_instance_id o) (startPoint o) (endPoint o) (distanceMeasured o)
         (line o) (textMesh o) (set_emissive c <$> startPointCollider o) (endPointCollider o)
  | PEnd =>
      mk (measurement_instance_id o) (startPoint o) (endPoint o) (distanceMeasured o)
         (line o) (textMesh o) (startPointCollider o) (set_emissive c <$> endPointCollider o)
  end.

(** [MeasurementPlateObject.ts], lines 256-267. *)
Definition SetRenderingGroup (g : RenderGroup) (o : t) : t :=
  mk (measurement_instance_id o) (startPoint o) (endPoint o) (distanceMeasured o)
     (set_line_group g <$> line o) (textMesh o)
     (set_group g <$> startPointCollider o) (set_group g <$> endPointCollider o).

(** [MeasurementPlateObject.ts], lines 309-334. *)
Definition ClearGUI (o : t) : t :=
  mk (measurement_instance_id o) (startPoint o) (endPoint o) (distanceMeasured o)
     None None None None.

(** The assignments of the controller to the data fields of a plate. *)
Definition set_data (sp ep : Vector3) (d : float) (o : t) : t :=
  mk (measurement_instance_id o) sp ep d
     (line o) (textMesh o) (startPointCollider o) (endPointCollider o).

(** [collider.metadata.measurementId = id] on both colliders, where they
    exist. *)
Definition set_collider_ids (id : Z) (o : t) : t :=
  mk (measurement_instance_id o) (startPoint o) (endPoint o) (distanceMeasured o)
     (line o) (textMesh o)
     (set_metadata_id id <$> startPointCollider o) (set_metadata_id id <$> endPointCollider o).

(** [line.color = c] only, as the hover code of the controller does. *)
Definition set_line_color_only (c : Color) (o : t) : t :=
  mk (measurement_instance_id o) (startPoint o) (endPoint o) (distanceMeasured o)
     (set_line_color c <$> line o) (textMesh o)
     (startPointCollider o) (endPointCollider o).

End MeasurementPlateObject.

(** ** Inputs and outputs of the controller *)

(** [ActionStates] of [utilities/enums]: the primary mode. *)
Module ActionStates.
Inductive t := None | Add | Remove.
End ActionStates.

#[global] Instance ActionStates_eq_dec : EqDecision ActionStates.t.
Proof. solve_decision. Defined.

(** What [SocketHandler.SendData] is called with. *)
Record MeasurementPayload := mkSendData {
  sd_measurement_instance_id : Z;
  sd_startPoint : Vector3;
  sd_endPoint : Vector3;
  sd_distanceMeasured : float
}.

Inductive Outbound :=
  | EditServer_ClientRequest_CreateMeasurementObject (d : MeasurementPayload)
  | EditServer_ClientRequest_UpdateMeasurementObject (d : MeasurementPayload)
  | EditServer_ClientRequest_DeleteMeasurementObject (measurement_instance_id : Z).

Inductive Level := LLog | LWarn | LError.

(** One constructor per [console] call of the modelled functions. *)
Inductive Message :=
  | ActionStateChangedTo (a : ActionStates.t)
  | DeleteModeEnabled
  | AddModeEnabled
  | ActionModeDisabled
  | NoMeasurementToDelete
  | SentRequestForDeleting (id : Z)
  | DeletionSentToServer (id : Z)
  | ErrorSendingDeletion
  | DeleteForUnknownMeasurement (id : Z)
  | DeletedFromServerRequest (id : Z)
  | StartedMovingPoint (p : PointType) (id : Z)
  | InstanceNotInitialized
  | MeasurementAlreadyExists (id : Z)
  | ErrorAddingMeasurementObject
  | NewMeasurementRequestSent (id : Z)
  | ErrorSendingMeasurement
  | InvalidMeasurementDataFormat
  | ReceivedMeasurements (n : nat)
  | InvalidMeasurementDataEntry
  | MeasurementNotFound (id : Z)
  | UpdateSentToServer (id : Z)
  | ErrorSendingUpdate
  | UpdateForUnknownMeasurement (id : Z)
  | UpdatedFromServer (id : Z).

Definition LogEntry : Type := Level * Message.

(** A point as it arrives in a message: a [Vector3] instance, a record whose
    coordinates sit under [_x]/[x], [_y]/[y], [_z]/[z] (each possibly
    absent), or [undefined]/[null], on which a property access raises. *)
Record LoosePoint := mkLoosePoint {
  lp__x : option float; lp_x : option float;
  lp__y : option float; lp_y : option float;
  lp__z : option float; lp_z : option float
}.

Inductive PointPayload :=
  | IsVector3 (v : Vector3)
  | IsRecord (p : LoosePoint)
  | IsNullish.

(** The payload of a create or of an update broadcast. *)
Record MeasurementJson := mkMeasurementJson {
  measurement_instance_id : Z;
  json_startPoint : PointPayload;
  json_endPoint : PointPayload;
  distanceMeasured : float
}.

(** The [measurement_instance_id] property of an entry of the create array,
    before it is known to be a number. *)
Inductive IdField := IdMissing | IdNull | IdNumber (n : Z).

(** An entry of the create array: [undefined]/[null], or an object. *)
Inductive CreateEntry :=
  | EntryNullish
  | EntryObject (id : IdField) (sp ep : PointPayload) (d : float).

(** The argument of the create handler: an array, or anything else. *)
Inductive CreateArgument :=
  | NotAnArray
  | IsArray (entries : list CreateEntry).

(** The metadata of a picked mesh, as the controller probes it. *)
Record PickMetadata := mkPickMetadata {
  measurementPlate : option Ref;
  pointType : option PointType;
  measurementId : option Z
}.

(** The result of [scene.pick]; a picked mesh has metadata or none. *)
Record PickingInfo := mkPickingInfo {
  hit : bool;
  pickedPoint : option Vector3;
  pickedMesh : option (option PickMetadata)
}.

(** [pointerInfo.event]: the pointer type and the button. *)
Record IPointerEvent := mkIPointerEvent {
  pointerType : string;
  button : Z
}.

(** ** MeasureMenuController.ts *)

Module MeasureMenuController.

(** The fields of the controller, and with them what the controller acts
    on.
    - [heap]: the plate objects the maps, the selection and the sphere
      metadata refer to.
    - [pointerObserver], [beforeRenderObserver]: whether the field holds an
      observer. [onPointerObservable], [onBeforeRenderObservable]: how
      many observers this controller has on the two observables of the
      scene. [EnableMeasuring] adds one to each and overwrites the field;
      [DisableMeasuring] removes the one the field holds, so the numbers
      can exceed one and can stay positive when the fields are empty.
    - [keydownListeners]: the [keydown] listeners on the window.
    - [scene], [instance]: whether [this.scene] and the static instance are
      set. [measurementCreateButton], [measurementDeleteButton]: the button
      when it was found, with its highlighting.
    - [socketThrows], [dashedLines]: the environment. Whether
      [SocketHandler.SendData] raises, and whether
      [MeshBuilder.CreateDashedLines] returns a mesh for two points and a
      measured distance. No handler writes them.
    - [sent], [console]: the calls of [SocketHandler.SendData] and of
      [console], in order. *)
Record State := mkState {
  heap : list MeasurementPlateObject.t;
  measurementsList : gmap Z Ref;
  plateObjects : gmap Z Ref;
  currentActionState : ActionStates.t;
  startPoint : option Vector3;
  currentLine : option LinesMesh;
  isDraggingMeasurement : bool;
  lastValidPickedPoint : option Vector3;
  dynamicTextMesh : option TextMesh;
  isMovingPoint : bool;
  selectedMeasurementId : Z;
  selectedPointType : option PointType;
  selectedPlateObject : option Ref;
  fixedPoint : option Vector3;
  movePreviewLine : option LinesMesh;
  movePreviewText : option TextMesh;
  hoveredMeasurementId : Z;
  hoveredPointType : option PointType;
  scene : bool;
  pointerObserver : bool;
  beforeRenderObserver : bool;
  keydownListeners : nat;
  measurementCreateButton : option bool;
  measurementDeleteButton : option bool;
  instance : bool;
  socketThrows : bool;
  sent : list Outbound;
  console : list LogEntry;
  onPointerObservable : nat;
  onBeforeRenderObservable : nat;
  dashedLines : Vector3 → Vector3 → float → bool
}.

Definition set_heap (v : list MeasurementPlateObject.t) (s : State) : State :=
  let '(mkState f0 f1 f2 f3 f4 f5 f6 f7 f8 f9 f10 f11 f12 f13 f14 f15 f16 f17 f18 f19 f20 f21
  f22 f23 f24 f25 f26 f27 f28 f29 f30) := s in
  mkState v f1 f2 f3 f4 f5 f6 f7 f8 f9 f10 f11 f12 f13 f14 f15 f16 f17 f18 f19 f20 f21 f22 f23
  f24 f25 f26 f27 f28 f29 f30.

Definition set_measurementsList (v : gmap Z Ref) (s : State) : State :=
  let '(mkState f0 f1 f2 f3 f4 f5 f6 f7 f8 f9 f10 f11 f12 f13 f14 f15 f16 f17 f18 f19 f20 f21
  f22 f23 f24 f25 f26 f27 f28 f29 f30) := s in
  mkState f0 v f2 f3 f4 f5 f6 f7 f8 f9 f10 f11 f12 f13 f14 f15 f16 f17 f18 f19 f20 f21 f22 f23
  f24 f25 f26 f27 f28 f29 f30.

Definition set_plateObjects (v : gmap Z Ref) (s : State) : State :=
  let '(mkState f0 f1 f2 f3 f4 f5 f6 f7 f8 f9 f10 f11 f12 f13 f14 f15 f16 f17 f18 f19 f20 f21
  f22 f23 f24 f25 f26 f27 f28 f29 f30) := s in
  mkState f0 f1 v f3 f4 f5 f6 f7 f8 f9 f10 f11 f12 f13 f14 f15 f16 f17 f18 f19 f20 f21 f22 f23
  f24 f25 f26 f27 f28 f29 f30.

Definition set_currentActionState (v : ActionStates.t) (s : State) : State :=
  let '(mkState f0 f1 f2 f3 f4 f5 f6 f7 f8 f9 f10 f11 f12 f13 f14 f15 f16 f17 f18 f19 f20 f21
  f22 f23 f24 f25 f26 f27 f28 f29 f30) := s in
  mkState f0 f1 f2 v f4 f5 f6 f7 f8 f9 f10 f11 f12 f13 f14 f15 f16 f17 f18 f19 f20 f21 f22 f23
  f24 f25 f26 f27 f28 f29 f30.

Definition set_startPoint (v : option Vector3) (s : State) : State :=
  let '(mkState f0 f1 f2 f3 f4 f5 f6 f7 f8 f9 f10 f11 f12 f13 f14 f15 f16 f17 f18 f19 f20 f21
  f22 f23 f24 f25 f26 f27 f28 f29 f30) := s in
  mkState f0 f1 f2 f3 v f5 f6 f7 f8 f9 f10 f11 f12 f13 f14 f15 f16 f17 f18 f19 f20 f21 f22 f23
  f24 f25 f26 f27 f28 f29 f30.

Definition set_currentLine (v : option LinesMesh) (s : State) : State :=
  let '(mkState f0 f1 f2 f3 f4 f5 f6 f7 f8 f9 f10 f11 f12 f13 f14 f15 f16 f17 f18 f19 f20 f21
  f22 f23 f24 f25 f26 f27 f28 f29 f30) := s in
  mkState f0 f1 f2 f3 f4 v f6 f7 f8 f9 f10 f11 f12 f13 f14 f15 f16 f17 f18 f19 f20 f21 f22 f23
  f24 f25 f26 f27 f28 f29 f30.

Definition set_isDraggingMeasurement (v : bool) (s : State) : State :=
  let '(mkState f0 f1 f2 f3 f4 f5 f6 f7 f8 f9 f10 f11 f12 f13 f14 f15 f16 f17 f18 f19 f20 f21
  f22 f23 f24 f25 f26 f27 f28 f29 f30) := s in
  mkState f0 f1 f2 f3 f4 f5 v f7 f8 f9 f10 f11 f12 f13 f14 f15 f16 f17 f18 f19 f20 f21 f22 f23
  f24 f25 f26 f27 f28 f29 f30.

Definition set_lastValidPickedPoint (v : option Vector3) (s : State) : State :=
  let '(mkState f0 f1 f2 f3 f4 f5 f6 f7 f8 f9 f10 f11 f12 f13 f14 f15 f16 f17 f18 f19 f20 f21
  f22 f23 f24 f25 f26 f27 f28 f29 f30) := s in
  mkState f0 f1 f2 f3 f4 f5 f6 v f8 f9 f10 f11 f12 f13 f14 f15 f16 f17 f18 f19 f20 f21 f22 f23
  f24 f25 f26 f27 f28 f29 f30.

Definition set_dynamicTextMesh (v : option TextMesh) (s : State) : State :=
  let '(mkState f0 f1 f2 f3 f4 f5 f6 f7 f8 f9 f10 f11 f12 f13 f14 f15 f16 f17 f18 f19 f20 f21
  f22 f23 f24 f25 f26 f27 f28 f29 f30) := s in
  mkState f0 f1 f2 f3 f4 f5 f6 f7 v f9 f10 f11 f12 f13 f14 f15 f16 f17 f18 f19 f20 f21 f22 f23
  f24 f25 f26 f27 f28 f29 f30.

Definition set_isMovingPoint (v : bool) (s : State) : State :=
  let '(mkState f0 f1 f2 f3 f4 f5 f6 f7 f8 f9 f10 f11 f12 f13 f14 f15 f16 f17 f18 f19 f20 f21
  f22 f23 f24 f25 f26 f27 f28 f29 f30) := s in
  mkState f0 f1 f2 f3 f4 f5 f6 f7 f8 v f10 f11 f12 f13 f14 f15 f16 f17 f18 f19 f20 f21 f22 f23
  f24 f25 f26 f27 f28 f29 f30.

Definition set_selectedMeasurementId (v : Z) (s : State) : State :=
  let '(mkState f0 f1 f2 f3 f4 f5 f6 f7 f8 f9 f10 f11 f12 f13 f14 f15 f16 f17 f18 f19 f20 f21
  f22 f23 f24 f25 f26 f27 f28 f29 f30) := s in
  mkState f0 f1 f2 f3 f4 f5 f6 f7 f8 f9 v f11 f12 f13 f14 f15 f16 f17 f18 f19 f20 f21 f22 f23
  f24 f25 f26 f27 f28 f29 f30.

Definition set_selectedPointType (v : option PointType) (s : State) : State :=
  let '(mkState f0 f1 f2 f3 f4 f5 f6 f7 f8 f9 f10 f11 f12 f13 f14 f15 f16 f17 f18 f19 f20 f21
  f22 f23 f24 f25 f26 f27 f28 f29 f30) := s in
  mkState f0 f1 f2 f3 f4 f5 f6 f7 f8 f9 f10 v f12 f13 f14 f15 f16 f17 f18 f19 f20 f21 f22 f23
  f24 f25 f26 f27 f28 f29 f30.

Definition set_selectedPlateObject (v : option Ref) (s : State) : State :=
  let '(mkState f0 f1 f2 f3 f4 f5 f6 f7 f8 f9 f10 f11 f12 f13 f14 f15 f16 f17 f18 f19 f20 f21
  f22 f23 f24 f25 f26 f27 f28 f29 f30) := s in
  mkState f0 f1 f2 f3 f4 f5 f6 f7 f8 f9 f10 f11 v f13 f14 f15 f16 f17 f18 f19 f20 f21 f22 f23
  f24 f25 f26 f27 f28 f29 f30.

Definition set_fixedPoint (v : option Vector3) (s : State) : State :=
  let '(mkState f0 f1 f2 f3 f4 f5 f6 f7 f8 f9 f10 f11 f12 f13 f14 f15 f16 f17 f18 f19 f20 f21
  f22 f23 f24 f25 f26 f27 f28 f29 f30) := s in
  mkState f0 f1 f2 f3 f4 f5 f6 f7 f8 f9 f10 f11 f12 v f14 f15 f16 f17 f18 f19 f20 f21 f22 f23
  f24 f25 f26 f27 f28 f29 f30.

Definition set_movePreviewLine (v : option LinesMesh) (s : State) : State :=
  let '(mkState f0 f1 f2 f3 f4 f5 f6 f7 f8 f9 f10 f11 f12 f13 f14 f15 f16 f17 f18 f19 f20 f21
  f22 f23 f24 f25 f26 f27 f28 f29 f30) := s in
  mkState f0 f1 f2 f3 f4 f5 f6 f7 f8 f9 f10 f11 f12 f13 v f15 f16 f17 f18 f19 f20 f21 f22 f23
  f24 f25 f26 f27 f28 f29 f30.

Definition set_movePreviewText (v : option TextMesh) (s : State) : State :=
  let '(mkState f0 f1 f2 f3 f4 f5 f6 f7 f8 f9 f10 f11 f12 f13 f14 f15 f16 f17 f18 f19 f20 f21
  f22 f23 f24 f25 f26 f27 f28 f29 f30) := s in
  mkState f0 f1 f2 f3 f4 f5 f6 f7 f8 f9 f10 f11 f12 f13 f14 v f16 f17 f18 f19 f20 f21 f22 f23
  f24 f25 f26 f27 f28 f29 f30.

Definition set_hoveredMeasurementId (v : Z) (s : State) : State :=
  let '(mkState f0 f1 f2 f3 f4 f5 f6 f7 f8 f9 f10 f11 f12 f13 f14 f15 f16 f17 f18 f19 f20 f21
  f22 f23 f24 f25 f26 f27 f28 f29 f30) := s in
  mkState f0 f1 f2 f3 f4 f5 f6 f7 f8 f9 f10 f11 f12 f13 f14 f15 v f17 f18 f19 f20 f21 f22 f23
  f24 f25 f26 f27 f28 f29 f30.

Definition set_hoveredPointType (v : option PointType) (s : State) : State :=
  let '(mkState f0 f1 f2 f3 f4 f5 f6 f7 f8 f9 f10 f11 f12 f13 f14 f15 f16 f17 f18 f19 f20 f21
  f22 f23 f24 f25 f26 f27 f28 f29 f30) := s in
  mkState f0 f1 f2 f3 f4 f5 f6 f7 f8 f9 f10 f11 f12 f13 f14 f15 f16 v f18 f19 f20 f21 f22 f23
  f24 f25 f26 f27 f28 f29 f30.

Definition set_scene (v : bool) (s : State) : State :=
  let '(mkState f0 f1 f2 f3 f4 f5 f6 f7 f8 f9 f10 f11 f12 f13 f14 f15 f16 f17 f18 f19 f20 f21
  f22 f23 f24 f25 f26 f27 f28 f29 f30) := s in
  mkState f0 f1 f2 f3 f4 f5 f6 f7 f8 f9 f10 f11 f12 f13 f14 f15 f16 f17 v f19 f20 f21 f22 f23
  f24 f25 f26 f27 f28 f29 f30.

Definition set_pointerObserver (v : bool) (s : State) : State :=
  let '(mkState f0 f1 f2 f3 f4 f5 f6 f7 f8 f9 f10 f11 f12 f13 f14 f15 f16 f17 f18 f19 f20 f21
  f22 f23 f24 f25 f26 f27 f28 f29 f30) := s in
  mkState f0 f1 f2 f3 f4 f5 f6 f7 f8 f9 f10 f11 f12 f13 f14 f15 f16 f17 f18 v f20 f21 f22 f23
  f24 f25 f26 f27 f28 f29 f30.

Definition set_beforeRenderObserver (v : bool) (s : State) : State :=
  let '(mkState f0 f1 f2 f3 f4 f5 f6 f7 f8 f9 f10 f11 f12 f13 f14 f15 f16 f17 f18 f19 f20 f21
  f22 f23 f24 f25 f26 f27 f28 f29 f30) := s in
  mkState f0 f1 f2 f3 f4 f5 f6 f7 f8 f9 f10 f11 f12 f13 f14 f15 f16 f17 f18 f19 v f21 f22 f23
  f24 f25 f26 f27 f28 f29 f30.

Definition set_keydownListeners (v : nat) (s : State) : State :=
  let '(mkState f0 f1 f2 f3 f4 f5 f6 f7 f8 f9 f10 f11 f12 f13 f14 f15 f16 f17 f18 f19 f20 f21
  f22 f23 f24 f25 f26 f27 f28 f29 f30) := s in
  mkState f0 f1 f2 f3 f4 f5 f6 f7 f8 f9 f10 f11 f12 f13 f14 f15 f16 f17 f18 f19 f20 v f22 f23
  f24 f25 f26 f27 f28 f29 f30.

Definition set_measurementCreateButton (v : option bool) (s : State) : State :=
  let '(mkState f0 f1 f2 f3 f4 f5 f6 f7 f8 f9 f10 f11 f12 f13 f14 f15 f16 f17 f18 f19 f20 f21
  f22 f23 f24 f25 f26 f27 f28 f29 f30) := s in
  mkState f0 f1 f2 f3 f4 f5 f6 f7 f8 f9 f10 f11 f12 f13 f14 f15 f16 f17 f18 f19 f20 f21 v f23
  f24 f25 f26 f27 f28 f29 f30.

Definition set_measurementDeleteButton (v : option bool) (s : State) : State :=
  let '(mkState f0 f1 f2 f3 f4 f5 f6 f7 f8 f9 f10 f11 f12 f13 f14 f15 f16 f17 f18 f19 f20 f21
  f22 f23 f24 f25 f26 f27 f28 f29 f30) := s in
  mkState f0 f1 f2 f3 f4 f5 f6 f7 f8 f9 f10 f11 f12 f13 f14 f15 f16 f17 f18 f19 f20 f21 f22 v
  f24 f25 f26 f27 f28 f29 f30.

Definition set_instance (v : bool) (s : State) : State :=
  let '(mkState f0 f1 f2 f3 f4 f5 f6 f7 f8 f9 f10 f11 f12 f13 f14 f15 f16 f17 f18 f19 f20 f21
  f22 f23 f24 f25 f26 f27 f28 f29 f30) := s in
  mkState f0 f1 f2 f3 f4 f5 f6 f7 f8 f9 f10 f11 f12 f13 f14 f15 f16 f17 f18 f19 f20 f21 f22
  f23 v f25 f26 f27 f28 f29 f30.

Definition set_socketThrows (v : bool) (s : State) : State :=
  let '(mkState f0 f1 f2 f3 f4 f5 f6 f7 f8 f9 f10 f11 f12 f13 f14 f15 f16 f17 f18 f19 f20 f21
  f22 f23 f24 f25 f26 f27 f28 f29 f30) := s in
  mkState f0 f1 f2 f3 f4 f5 f6 f7 f8 f9 f10 f11 f12 f13 f14 f15 f16 f17 f18 f19 f20 f21 f22
  f23 f24 v f26 f27 f28 f29 f30.

Definition set_sent (v : list Outbound) (s : State) : State :=
  let '(mkState f0 f1 f2 f3 f4 f5 f6 f7 f8 f9 f10 f11 f12 f13 f14 f15 f16 f17 f18 f19 f20 f21
  f22 f23 f24 f25 f26 f27 f28 f29 f30) := s in
  mkState f0 f1 f2 f3 f4 f5 f6 f7 f8 f9 f10 f11 f12 f13 f14 f15 f16 f17 f18 f19 f20 f21 f22
  f23 f24 f25 v f27 f28 f29 f30.

Definition set_console (v : list LogEntry) (s : State) : State :=
  let '(mkState f0 f1 f2 f3 f4 f5 f6 f7 f8 f9 f10 f11 f12 f13 f14 f15 f16 f17 f18 f19 f20 f21
  f22 f23 f24 f25 f26 f27 f28 f29 f30) := s in
  mkState f0 f1 f2 f3 f4 f5 f6 f7 f8 f9 f10 f11 f12 f13 f14 f15 f16 f17 f18 f19 f20 f21 f22
  f23 f24 f25 f26 v f28 f29 f30.

Definition set_onPointerObservable (v : nat) (s : State) : State :=
  let '(mkState f0 f1 f2 f3 f4 f5 f6 f7 f8 f9 f10 f11 f12 f13 f14 f15 f16 f17 f18 f19 f20 f21
  f22 f23 f24 f25 f26 f27 f28 f29 f30) := s in
  mkState f0 f1 f2 f3 f4 f5 f6 f7 f8 f9 f10 f11 f12 f13 f14 f15 f16 f17 f18 f19 f20 f21 f22
  f23 f24 f25 f26 f27 v f29 f30.

Definition set_onBeforeRenderObservable (v : nat) (s : State) : State :=
  let '(mkState f0 f1 f2 f3 f4 f5 f6 f7 f8 f9 f10 f11 f12 f13 f14 f15 f16 f17 f18 f19 f20 f21
  f22 f23 f24 f25 f26 f27 f28 f29 f30) := s in
  mkState f0 f1 f2 f3 f4 f5 f6 f7 f8 f9 f10 f11 f12 f13 f14 f15 f16 f17 f18 f19 f20 f21 f22
  f23 f24 f25 f26 f27 f28 v f30.

Definition set_dashedLines (v : Vector3 → Vector3 → float → bool) (s : State) : State :=
  let '(mkState f0 f1 f2 f3 f4 f5 f6 f7 f8 f9 f10 f11 f12 f13 f14 f15 f16 f17 f18 f19 f20 f21
  f22 f23 f24 f25 f26 f27 f28 f29 f30) := s in
  mkState f0 f1 f2 f3 f4 f5 f6 f7 f8 f9 f10 f11 f12 f13 f14 f15 f16 f17 f18 f19 f20 f21 f22
  f23 f24 f25 f26 f27 f28 f29 v.

(** [MeasureMenuController.ts], lines 31-80.
    The constructor and the field initialisers of the class. *)
Definition constructor : State :=
  mkState [] ∅ ∅ ActionStates.None None None false None None
    false (-1) None None None None None (-1) None
    false false false 0%nat None None true false [] []
    0%nat 0%nat (λ _ _ _, true).

(** Statements run one after the other: [s |> f |> g] is [f] then [g]. *)
Notation "s '|>' f" := (f s) (at level 45, left associativity, only parsing).

Definition log (m : Message) (s : State) : State :=
  set_console (console s ++ [(LLog, m)]) s.
Definition warn (m : Message) (s : State) : State :=
  set_console (console s ++ [(LWarn, m)]) s.
Definition error (m : Message) (s : State) : State :=
  set_console (console s ++ [(LError, m)]) s.

(** A method call or a field assignment on the object a reference denotes. *)
Definition modify_plate (r : Ref) (f : MeasurementPlateObject.t → MeasurementPlateObject.t)
    (s : State) : State :=
  set_heap (alter f r (heap s)) s.

(** [try { SocketHandler.SendData(code, data); console.log(..) }
     catch { console.error(..) }]: the call is recorded; whether the
    transport raised decides which line is printed. *)
Definition SendData (m : Outbound) (ok err : Message) (s : State) : State :=
  let s1 := set_sent (sent s ++ [m]) s in
  if socketThrows s then error err s1 else log ok s1.

(** [MeasureMenuController.ts], lines 306-324.
    The body colours the line and both colliders, as
    [MeasurementPlateObject.SetColor] does. *)
Definition SetMeasurementColor (measurementId : Z) (c : Color) (s : State) : State :=
  match plateObjects s !! measurementId with
  | Some r => modify_plate r (MeasurementPlateObject.SetColor c) s
  | None => s
  end.

(** [MeasureMenuController.ts], lines 249-275. *)
Definition UpdateActionButtonStates (action : ActionStates.t) (s : State) : State :=
  match measurementCreateButton s, measurementDeleteButton s with
  | Some _, Some _ =>
      let s1 :=
        match action with
        | ActionStates.None =>
            s |> set_measurementCreateButton (Some false)
              |> set_measurementDeleteButton (Some false)
        | ActionStates.Add =>
            s |> set_measurementCreateButton (Some true)
              |> set_measurementDeleteButton (Some false)
        | ActionStates.Remove =>
            s |> set_measurementCreateButton (Some false)
              |> set_measurementDeleteButton (Some true)
        end in
      log (ActionStateChangedTo action) s1
  | _, _ => s
  end.

(** [MeasureMenuController.ts], lines 219-243. *)
Definition SetActionState (state : ActionStates.t) (s : State) : State :=
  let s1 := s |> set_currentActionState state |> UpdateActionButtonStates state in
  let s2 :=
    if bool_decide (currentActionState s1 ≠ ActionStates.Remove)
       && bool_decide (hoveredMeasurementId s1 ≠ -1)
    then s1 |> SetMeasurementColor (hoveredMeasurementId s1) colors_default
            |> set_hoveredMeasurementId (-1)
    else s1 in
  match state with
  | ActionStates.Remove => log DeleteModeEnabled s2
  | ActionStates.Add => log AddModeEnabled s2
  | ActionStates.None => log ActionModeDisabled s2
  end.

(** [MeasureMenuController.ts], lines 280-284. *)
Definition ToggleDeleteMode (s : State) : State :=
  let newState :=
    if bool_decide (currentActionState s = ActionStates.Remove)
    then ActionStates.None else ActionStates.Remove in
  SetActionState newState s.

(** [MeasureMenuController.ts], lines 329-341. *)
Definition SendDeleteMeasurementRequestToServer (measurementId : Z) (s : State) : State :=
  SendData (EditServer_ClientRequest_DeleteMeasurementObject measurementId)
    (DeletionSentToServer measurementId) ErrorSendingDeletion s.

(** [MeasureMenuController.ts], lines 289-299. *)
Definition DeleteMeasurement (measurementId : Z) (s : State) : State :=
  if bool_decide (measurementId = -1) then warn NoMeasurementToDelete s
  else s |> SendDeleteMeasurementRequestToServer measurementId
         |> log (SentRequestForDeleting measurementId).

(** [MeasureMenuController.ts], lines 709-721. *)
Definition ClearMovePreview (s : State) : State :=
  s |> set_movePreviewLine None |> set_movePreviewText None.

(** [MeasureMenuController.ts], lines 346-375. *)
Definition ReceiveDeleteMeasurementRequestFromServer (measurementId : Z) (s : State) : State :=
  match plateObjects s !! measurementId with
  | None => warn (DeleteForUnknownMeasurement measurementId) s
  | Some r =>
      let s1 := s |> modify_plate r MeasurementPlateObject.ClearGUI
                  |> (λ s, set_plateObjects (delete measurementId (plateObjects s)) s)
                  |> (λ s, set_measurementsList (delete measurementId (measurementsList s)) s) in
      let s2 :=
        if bool_decide (selectedMeasurementId s1 = measurementId)
        then s1 |> ClearMovePreview
                |> set_isMovingPoint false
                |> set_selectedPlateObject None
                |> set_selectedPointType None
                |> set_selectedMeasurementId (-1)
                |> set_fixedPoint None
        else s1 in
      log (DeletedFromServerRequest measurementId) s2
  end.

(** [MeasureMenuController.ts], lines 901-937.
    Each observable loses the observer the field holds, if it holds one;
    an observer of an earlier [EnableMeasuring] that the field no longer
    holds stays on the scene. *)
Definition DisableMeasuring (s : State) : State :=
  if negb (scene s) then s
  else
    let s0 :=
      if pointerObserver s
      then s |> set_onPointerObservable (Nat.pred (onPointerObservable s))
             |> set_pointerObserver false
      else s in
    let s1 :=
      if beforeRenderObserver s0
      then s0 |> set_onBeforeRenderObservable (Nat.pred (onBeforeRenderObservable s0))
              |> set_beforeRenderObserver false
      else s0 in
    let s2 :=
      if bool_decide (currentActionState s1 ≠ ActionStates.None)
      then SetActionState ActionStates.None s1 else s1 in
    s2 |> set_startPoint None
       |> set_isDraggingMeasurement false
       |> set_currentLine None
       |> set_dynamicTextMesh None.

(** [MeasureMenuController.ts], lines 386-418.
    The [keydown] listener that [EnableMeasuring] registers. The two [if]
    statements on the key run one after the other. *)
Definition onKeyDown (key : string) (s : State) : State :=
  let s1 :=
    if bool_decide (key = "Escape")
    then
      if bool_decide (currentActionState s ≠ ActionStates.None)
      then SetActionState ActionStates.None s
      else DisableMeasuring s
    else s in
  if bool_decide (key = "x") || bool_decide (key = "X")
  then
    if isMovingPoint s1 && bool_decide (selectedMeasurementId s1 ≠ -1)
    then s1 |> ClearMovePreview
            |> set_isMovingPoint false
            |> set_selectedPlateObject None
            |> set_selectedPointType None
            |> set_fixedPoint None
            |> DeleteMeasurement (selectedMeasurementId s1)
            |> set_selectedMeasurementId (-1)
    else ToggleDeleteMode s1
  else s1.

(** [MeasureMenuController.ts], lines 382-441.
    Every call registers one more [keydown] listener on the window, one
    more observer on the pointer observable and one more on the per-frame
    observable of the scene; the two fields are overwritten with the new
    observers. [DisableMeasuring] removes the two observers the fields hold
    and leaves the listener; the listeners are removed when the scene is
    disposed, which is not an event here. *)
Definition EnableMeasuring (s : State) : State :=
  if negb (scene s) then s
  else s |> (λ s, set_keydownListeners (S (keydownListeners s)) s)
         |> (λ s, set_onPointerObservable (S (onPointerObservable s)) s)
         |> set_pointerObserver true
         |> (λ s, set_onBeforeRenderObservable (S (onBeforeRenderObservable s)) s)
         |> set_beforeRenderObserver true.

(** [MeasureMenuController.ts], lines 660-677. *)
Definition StartMovingPoint (plateObject : Ref) (pointType : PointType) (measurementId : Z)
    (s : State) : State :=
  let fixed :=
    o ← heap s !! plateObject;
    Some (match pointType with
          | PStart => MeasurementPlateObject.endPoint o
          | PEnd => MeasurementPlateObject.startPoint o
          end) in
  s |> set_isMovingPoint true
    |> set_selectedPlateObject (Some plateObject)
    |> set_selectedPointType (Some pointType)
    |> set_selectedMeasurementId measurementId
    |> set_fixedPoint fixed
    |> modify_plate plateObject (MeasurementPlateObject.SetColor colors_hover)
    |> modify_plate plateObject MeasurementPlateObject.ClearGUI
    |> log (StartedMovingPoint pointType measurementId).

(** [MeasureMenuController.ts], lines 884-895.
    Builds a throw-away plate object only to call its [Create3DText]. *)
Definition CreateMeasurementText (d : float) (position : Vector3) : TextMesh :=
  MeasurementPlateObject.Create3DText d position.

(** [MeasureMenuController.ts], lines 682-704. *)
Definition UpdateMovePreview (newPosition : Vector3) (s : State) : State :=
  match fixedPoint s with
  | None => s
  | Some fp =>
      let distance := Vector3.Distance fp newPosition in
      s |> ClearMovePreview
        |> set_movePreviewLine
             (Some (mkLinesMesh fp newPosition colors_hover worldSpace false false false))
        |> set_movePreviewText
             (Some (CreateMeasurementText distance (midPoint fp newPosition)))
  end.

(** [MeasureMenuController.ts], lines 1154-1173. *)
Definition SendUpdateMeasurementRequestToServer (d : MeasurementPayload) (s : State) : State :=
  SendData (EditServer_ClientRequest_UpdateMeasurementObject d)
    (UpdateSentToServer (sd_measurement_instance_id d)) ErrorSendingUpdate s.

(** [MeasureMenuController.ts], lines 1027-1050. *)
Definition SendCreateNewMeasurementRequestToServer (d : MeasurementPayload) (s : State) : State :=
  SendData (EditServer_ClientRequest_CreateMeasurementObject d)
    (NewMeasurementRequestSent (sd_measurement_instance_id d)) ErrorSendingMeasurement s.

(** [MeasureMenuController.ts], lines 1112-1149. *)
Definition UpdateExistingMeasurement (measurementId : Z) (newStartPoint newEndPoint : Vector3)
    (s : State) : State :=
  match plateObjects s !! measurementId, measurementsList s !! measurementId with
  | Some plateObject, Some measurementData =>
      let distance := Vector3.Distance newStartPoint newEndPoint in
      s |> modify_plate measurementData
             (MeasurementPlateObject.set_data newStartPoint newEndPoint distance)
        |> modify_plate plateObject
             (MeasurementPlateObject.UpdateMeasurement (dashedLines s) plateObject
                newStartPoint newEndPoint)
        |> modify_plate plateObject (MeasurementPlateObject.set_collider_ids measurementId)
        |> SendUpdateMeasurementRequestToServer
             (mkSendData measurementId newStartPoint newEndPoint distance)
  | _, _ => error (MeasurementNotFound measurementId) s
  end.

(** [MeasureMenuController.ts], lines 726-752. *)
Definition CompleteMove (finalPosition : Vector3) (s : State) : State :=
  match selectedPlateObject s, selectedPointType s, fixedPoint s with
  | Some _, Some pt, Some fp =>
      let '(newStartPoint, newEndPoint) :=
        match pt with
        | PStart => (finalPosition, fp)
        | PEnd => (fp, finalPosition)
        end in
      s |> UpdateExistingMeasurement (selectedMeasurementId s) newStartPoint newEndPoint
        |> ClearMovePreview
        |> set_isMovingPoint false
        |> set_selectedPlateObject None
        |> set_selectedPointType None
        |> set_selectedMeasurementId (-1)
        |> set_fixedPoint None
  | _, _, _ => s
  end.

(** [MeasureMenuController.ts], lines 757-771. *)
Definition CancelMoveOperation (s : State) : State :=
  match selectedPlateObject s with
  | None => s
  | Some r =>
      s |> modify_plate r (MeasurementPlateObject.InitPlate (dashedLines s) r)
        |> ClearMovePreview
        |> set_isMovingPoint false
        |> set_selectedPlateObject None
        |> set_selectedPointType None
        |> set_selectedMeasurementId (-1)
        |> set_fixedPoint None
  end.

(** [MeasureMenuController.ts], lines 776-793. *)
Definition CancelMeasurementCreation (s : State) : State :=
  s |> set_currentLine None |> set_dynamicTextMesh None |> set_startPoint None.

(** [MeasureMenuController.ts], lines 799-809. *)
Definition StartNewMeasurement (pickedPoint : Vector3) (s : State) : State :=
  let sp := Vector3.clone pickedPoint in
  s |> set_startPoint (Some sp)
    |> set_currentLine
         (Some (mkLinesMesh sp (Vector3.clone sp) EngineDefault worldSpace false false false)).

(** [MeasureMenuController.ts], lines 815-849.
    The request carries the placeholder id [-1]; nothing is put in the
    maps. The only caller checks [this.startPoint] first; called with it
    null, [Vector3.Distance] raises before anything is changed. *)
Definition CompleteMeasurement (endPoint : Vector3) (s : State) : State :=
  match startPoint s with
  | None => s
  | Some sp =>
      let distance := Vector3.Distance sp endPoint in
      let measurementId := -1 in
      s |> SendCreateNewMeasurementRequestToServer
             (mkSendData measurementId sp endPoint distance)
        |> set_selectedMeasurementId measurementId
        |> set_dynamicTextMesh None
        |> set_startPoint None
        |> set_currentLine None
  end.

(** [MeasureMenuController.ts], lines 855-876. *)
Definition UpdateMeasuringDisplay (pickedPoint : Vector3) (s : State) : State :=
  match startPoint s with
  | None => s
  | Some sp =>
      let l :=
        match currentLine s with
        | Some l =>
            mkLinesMesh sp pickedPoint (line_color l) (line_renderingGroupId l)
              (line_isPickable l) (line_dashed l) (line_isDisposed l)
        | None => mkLinesMesh sp pickedPoint EngineDefault worldSpace true false false
        end in
      let distance := Vector3.Distance sp pickedPoint in
      s |> set_currentLine (Some l)
        |> set_dynamicTextMesh (Some (CreateMeasurementText distance (midPoint sp pickedPoint)))
  end.

(** [metadata.measurementPlate && metadata.pointType && metadata.measurementId]:
    all three present, and the id not [0] (a falsy number). *)
Definition endpoint_metadata (m : PickMetadata) : option (Ref * PointType * Z) :=
  match measurementPlate m, pointType m, measurementId m with
  | Some r, Some pt, Some id => if bool_decide (id ≠ 0) then Some (r, pt, id) else None
  | _, _, _ => None
  end.

(** [pickResult.pickedMesh && pickResult.pickedMesh.metadata]. *)
Definition picked_metadata (pick : PickingInfo) : option PickMetadata :=
  match pickedMesh pick with
  | Some (Some m) => Some m
  | _ => None
  end.

(** [(pickResult.hit && pickResult.pickedPoint) ? pickResult.pickedPoint
     : this.lastValidPickedPoint]. *)
Definition pointToUse (pick : PickingInfo) (s : State) : option Vector3 :=
  match hit pick, pickedPoint pick with
  | true, Some p => Some p
  | _, _ => lastValidPickedPoint s
  end.

Definition non_left_mouse (e : IPointerEvent) : bool :=
  bool_decide (pointerType e = "mouse") && bool_decide (button e ≠ 0).

(** [MeasureMenuController.ts], lines 448-491. *)
Definition HandlePointerDown (e : IPointerEvent) (pick : PickingInfo) (s : State) : State :=
  if negb (scene s) then s
  else if non_left_mouse e then s
  else
    match hit pick, pickedPoint pick with
    | true, Some picked =>
        if bool_decide (currentActionState s = ActionStates.Remove)
           && bool_decide (hoveredMeasurementId s ≠ -1)
        then DeleteMeasurement (hoveredMeasurementId s) s
        else if bool_decide (currentActionState s = ActionStates.Remove) then s
        else
          match picked_metadata pick ≫= endpoint_metadata with
          | Some (r, pt, id) => StartMovingPoint r pt id s
          | None =>
              if bool_decide (currentActionState s = ActionStates.Add)
                 && negb (isDraggingMeasurement s) && negb (isMovingPoint s)
              then s |> StartNewMeasurement picked |> set_isDraggingMeasurement true
              else s
          end
    | _, _ => s
    end.

(** [MeasureMenuController.ts], lines 497-534. *)
Definition HandlePointerUp (e : IPointerEvent) (pick : PickingInfo) (s : State) : State :=
  if negb (scene s) then s
  else if non_left_mouse e then s
  else
    match isMovingPoint s, selectedPlateObject s, selectedPointType s with
    | true, Some _, Some _ =>
        match pointToUse pick s with
        | Some p => CompleteMove p s
        | None => CancelMoveOperation s
        end
    | _, _, _ =>
        match isDraggingMeasurement s, startPoint s with
        | true, Some _ =>
            (match pointToUse pick s with
             | Some p => CompleteMeasurement p s
             | None => CancelMeasurementCreation s
             end) |> set_isDraggingMeasurement false
        | _, _ => s
        end
    end.

(** [MeasureMenuController.ts], lines 547-580.
    Delete mode: whole-measurement hover, in the delete colour. *)
Definition hover_in_delete_mode (pick : PickingInfo) (s : State) : State :=
  let newHoveredId :=
    if hit pick
    then match picked_metadata pick ≫= measurementId with
         | Some id => id
         | None => -1
         end
    else -1 in
  if bool_decide (newHoveredId ≠ hoveredMeasurementId s)
  then
    let s1 :=
      if bool_decide (hoveredMeasurementId s ≠ -1)
      then SetMeasurementColor (hoveredMeasurementId s) colors_default s else s in
    let s2 :=
      if bool_decide (newHoveredId ≠ -1)
      then SetMeasurementColor newHoveredId colors_delete s1 else s1 in
    set_hoveredMeasurementId newHoveredId s2
  else s.

(** [MeasureMenuController.ts], lines 582-634.
    Other modes, no drag and no move going on: endpoint hover. *)
Definition hover_endpoint (pick : PickingInfo) (s : State) : State :=
  let target := if hit pick then picked_metadata pick ≫= endpoint_metadata else None in
  let newHoveredId := match target with Some (_, _, id) => id | None => -1 end in
  let newHoveredPointType := match target with Some (_, pt, _) => Some pt | None => None end in
  if bool_decide (newHoveredId ≠ hoveredMeasurementId s)
     || bool_decide (newHoveredPointType ≠ hoveredPointType s)
  then
    let s1 :=
      if bool_decide (hoveredMeasurementId s ≠ -1)
      then
        match plateObjects s !! hoveredMeasurementId s with
        | Some prev =>
            s |> modify_plate prev (MeasurementPlateObject.set_line_color_only colors_default)
              |> (match hoveredPointType s with
                  | Some pt =>
                      modify_plate prev
                        (MeasurementPlateObject.SetPointColor pt colors_point_default)
                  | None => λ s, s
                  end)
              |> modify_plate prev (MeasurementPlateObject.SetRenderingGroup worldSpace)
        | None => s
        end
      else s in
    let s2 :=
      match newHoveredPointType with
      | Some pt =>
          if bool_decide (newHoveredId ≠ -1)
          then
            match plateObjects s1 !! newHoveredId with
            | Some r =>
                s1 |> modify_plate r (MeasurementPlateObject.set_line_color_only colors_hover)
                   |> modify_plate r (MeasurementPlateObject.SetPointColor pt colors_hover)
                   |> modify_plate r (MeasurementPlateObject.SetRenderingGroup highlights)
            | None => s1
            end
          else s1
      | None => s1
      end in
    s2 |> set_hoveredMeasurementId newHoveredId |> set_hoveredPointType newHoveredPointType
  else s.

(** [MeasureMenuController.ts], lines 541-654.
    Runs before every frame, with the pick under the pointer. *)
Definition HandlePointerMove (pick : PickingInfo) (s : State) : State :=
  if negb (scene s) then s
  else if bool_decide (currentActionState s = ActionStates.Remove)
  then hover_in_delete_mode pick s
  else
    let s1 :=
      if negb (isMovingPoint s) && negb (isDraggingMeasurement s)
      then hover_endpoint pick s else s in
    let s2 :=
      match hit pick, pickedPoint pick with
      | true, Some p => set_lastValidPickedPoint (Some (Vector3.clone p)) s1
      | _, _ => s1
      end in
    match pointToUse pick s2 with
    | None => s2
    | Some p =>
        match isMovingPoint s2, selectedPlateObject s2, selectedPointType s2 with
        | true, Some _, Some _ => UpdateMovePreview p s2
        | _, _, _ =>
            match isDraggingMeasurement s2, startPoint s2, currentLine s2 with
            | true, Some _, Some _ => UpdateMeasuringDisplay p s2
            | _, _, _ => s2
            end
        end
    end.

(** [c._x !== undefined ? c._x : (c.x !== undefined ? c.x : 0)]. *)
Definition coordinate (underscored plain : option float) : float :=
  match underscored, plain with
  | Some v, _ => v
  | None, Some v => v
  | None, None => 0%float
  end.

(** The decoding both inbound handlers spell out for each point: a
    [Vector3] instance is taken as it is, anything else is read field by
    field. [None] when the read raises a [TypeError] (the point is
    [undefined] or [null]). *)
Definition decodePoint (p : PointPayload) : option Vector3 :=
  match p with
  | IsVector3 v => Some v
  | IsRecord r =>
      Some (mkVector3 (coordinate (lp__x r) (lp_x r))
                      (coordinate (lp__y r) (lp_y r))
                      (coordinate (lp__z r) (lp_z r)))
  | IsNullish => None
  end.

(** [new MeasurementPlateObject(..)] followed by [InitPlate()], and the
    reference of the new object. *)
Definition new_plate (id : Z) (sp ep : Vector3) (d : float) (s : State) : Ref * State :=
  let r := length (heap s) in
  (r, set_heap (heap s ++ [MeasurementPlateObject.InitPlate (dashedLines s) r
                             (MeasurementPlateObject.constructor id sp ep d)]) s).

(** [MeasureMenuController.ts], lines 943-1015.
    The inbound create handler for one measurement. The received
    [distanceMeasured] goes to the constructor as it is. A [TypeError] of
    the decoding is caught: nothing has been stored by then. *)
Definition TryAddMeasurementObject (jsonData : MeasurementJson) (s : State) : State :=
  if negb (instance s) then error InstanceNotInitialized s
  else if bool_decide (is_Some (measurementsList s !! measurement_instance_id jsonData))
  then log (MeasurementAlreadyExists (measurement_instance_id jsonData)) s
  else
    match decodePoint (json_startPoint jsonData), decodePoint (json_endPoint jsonData) with
    | Some startPoint, Some endPoint =>
        let distance := distanceMeasured jsonData in
        let '(newMeasurementPlate, s1) :=
          new_plate (measurement_instance_id jsonData) startPoint endPoint distance s in
        s1 |> (λ s, set_measurementsList
                      (<[measurement_instance_id jsonData := newMeasurementPlate]>
                         (measurementsList s)) s)
           |> (λ s, set_plateObjects
                      (<[measurement_instance_id jsonData := newMeasurementPlate]>
                         (plateObjects s)) s)
    | _, _ => error ErrorAddingMeasurementObject s
    end.

(** [dataEntry && dataEntry.measurement_instance_id]: the entry is an
    object and its id is a number other than [0]. *)
Definition valid_entry (e : CreateEntry) : option MeasurementJson :=
  match e with
  | EntryObject (IdNumber n) sp ep d =>
      if bool_decide (n ≠ 0) then Some (mkMeasurementJson n sp ep d) else None
  | _ => None
  end.

Definition process_entry (s : State) (e : CreateEntry) : State :=
  match valid_entry e with
  | Some jsonData => TryAddMeasurementObject jsonData s
  | None => warn InvalidMeasurementDataEntry s
  end.

(** [MeasureMenuController.ts], lines 1057-1080. *)
Definition ReceiveCreateNewMeasurementRequestFromServer (measureDataArray : CreateArgument)
    (s : State) : State :=
  match measureDataArray with
  | NotAnArray => error InvalidMeasurementDataFormat s
  | IsArray entries =>
      foldl process_entry (log (ReceivedMeasurements (length entries)) s) entries
  end.

(** [MeasureMenuController.ts], lines 1085-1088. *)
Definition ClearMeasurementData (s : State) : State :=
  set_measurementsList ∅ s.

(** [MeasureMenuController.ts], lines 1093-1104. *)
Definition ClearGUIObjects (s : State) : State :=
  let cleared :=
    foldl (λ h r, alter MeasurementPlateObject.ClearGUI r h) (heap s)
          ((map_to_list (plateObjects s)).*2) in
  s |> set_heap cleared |> set_plateObjects ∅.

(** How a handler that has no [try] of its own ends: normally, or with an
    exception raised in the state reached so far. *)
Inductive Completion :=
  | Normal (s : State)
  | Throws (s : State).

Definition state_of (c : Completion) : State :=
  match c with Normal s | Throws s => s end.

(** [MeasureMenuController.ts], lines 1178-1238.
    The inbound update handler. It assigns the received
    [distanceMeasured] to the entry of [measurementsList], then calls
    [UpdateMeasurement] on the entry of [plateObjects]. *)
Definition ReceiveUpdateMeasurementRequestFromServer (updateData : MeasurementJson)
    (s : State) : Completion :=
  match plateObjects s !! measurement_instance_id updateData,
        measurementsList s !! measurement_instance_id updateData with
  | Some plateObject, Some measurementData =>
      match decodePoint (json_startPoint updateData) with
      | None => Throws s
      | Some startPoint =>
          match decodePoint (json_endPoint updateData) with
          | None => Throws s
          | Some endPoint =>
              Normal
                (s |> modify_plate measurementData
                        (MeasurementPlateObject.set_data startPoint endPoint
                           (distanceMeasured updateData))
                   |> modify_plate plateObject
                        (MeasurementPlateObject.UpdateMeasurement (dashedLines s) plateObject
                           startPoint endPoint)
                   |> modify_plate plateObject
                        (MeasurementPlateObject.set_collider_ids
                           (measurement_instance_id updateData))
                   |> log (UpdatedFromServer (measurement_instance_id updateData)))
          end
      end
  | _, _ =>
      Normal (warn (UpdateForUnknownMeasurement (measurement_instance_id updateData)) s)
  end.

(** [MeasureMenuController.ts], lines 87-213.
    [Init]: the scene is stored and the two action buttons are looked up;
    either may be missing from the GUI. *)
Definition Init (createFound deleteFound : bool) (s : State) : State :=
  s |> set_scene true
    |> set_measurementCreateButton (if createFound then Some false else None)
    |> set_measurementDeleteButton (if deleteFound then Some false else None).

(** ** The event loop

    Everything reaches the controller as a callback on one loop. An event
    is one such callback.
    - [KeyDown] is a key press: the window calls every registered listener,
      one after the other.
    - [PointerDown], [PointerUp] and [BeforeRender] are the call of one
      observer by its observable, with the result of the [scene.pick] its
      handler makes. An observable calls every observer it has, so with [n]
      observers of this controller a press of the user is [n] events
      [PointerDown] in a row, a frame is [n] events [BeforeRender]; the
      picks of the successive handlers need not agree, since a handler can
      dispose the mesh under the pointer. With no observer on the
      observable there is no call.
    - The other events are the callbacks of the menu and of the three
      buttons, the messages of the server, and the two resets the session
      calls. *)
Inductive Event :=
  | MenuEnabled
  | MenuDisabled
  | ToggleButtonDown
  | CreateButtonDown
  | DeleteButtonDown
  | KeyDown (key : string)
  | PointerDown (e : IPointerEvent) (pick : PickingInfo)
  | PointerUp (e : IPointerEvent) (pick : PickingInfo)
  | BeforeRender (pick : PickingInfo)
  | ServerCreate (a : CreateArgument)
  | ServerUpdate (d : MeasurementJson)
  | ServerDelete (measurement_instance_id : Z)
  | ClearData
  | ClearGUI.

Definition step (s : State) (ev : Event) : State :=
  match ev with
  | MenuEnabled => EnableMeasuring s
  | MenuDisabled => DisableMeasuring s
  | ToggleButtonDown => SetActionState ActionStates.None s
  | CreateButtonDown =>
      SetActionState (if bool_decide (currentActionState s = ActionStates.Add)
                      then ActionStates.None else ActionStates.Add) s
  | DeleteButtonDown =>
      SetActionState (if bool_decide (currentActionState s = ActionStates.Remove)
                      then ActionStates.None else ActionStates.Remove) s
  | KeyDown key => Nat.iter (keydownListeners s) (onKeyDown key) s
  | PointerDown e pick =>
      match onPointerObservable s with
      | O => s
      | S _ => HandlePointerDown e pick s
      end
  | PointerUp e pick =>
      match onPointerObservable s with
      | O => s
      | S _ => HandlePointerUp e pick s
      end
  | BeforeRender pick =>
      match onBeforeRenderObservable s with
      | O => s
      | S _ => HandlePointerMove pick s
      end
  | ServerCreate a => ReceiveCreateNewMeasurementRequestFromServer a s
  | ServerUpdate d => state_of (ReceiveUpdateMeasurementRequestFromServer d s)
  | ServerDelete id => ReceiveDeleteMeasurementRequestFromServer id s
  | ClearData => ClearMeasurementData s
  | ClearGUI => ClearGUIObjects s
  end.

Definition run (s : State) (evs : list Event) : State := foldl step s evs.

End MeasureMenuController.

(** * Vocabulary of the properties *)

Import MeasureMenuController.

(** The data of an entity, as opposed to its visuals. *)
Definition entity (o : MeasurementPlateObject.t) : Z * Vector3 * Vector3 * float :=
  (MeasurementPlateObject.measurement_instance_id o,
   MeasurementPlateObject.startPoint o,
   MeasurementPlateObject.endPoint o,
   MeasurementPlateObject.distanceMeasured o).

(** The Registry as a whole: the two keyed maps and the data of every object
    they can refer to. Two states with the same [registry] hold the same
    measurements with the same points and distances. *)
Definition registry (s : State) : gmap Z Ref * gmap Z Ref * list (Z * Vector3 * Vector3 * float) :=
  (measurementsList s, plateObjects s, entity <$> heap s).

(** The keys and the number of allocated objects only. *)
Definition shape (s : State) : gmap Z Ref * gmap Z Ref * nat :=
  (measurementsList s, plateObjects s, length (heap s)).

(** The entity an id denotes, through a map and the heap. *)
Definition stored (m : State → gmap Z Ref) (s : State) (id : Z) : option MeasurementPlateObject.t :=
  r ← m s !! id; heap s !! r.


(** [k] is a key of one of the two maps. *)
Definition known (s : State) (k : Z) : Prop :=
  is_Some (measurementsList s !! k) ∨ is_Some (plateObjects s !! k).

(** Well-formed states: every reference held by a map denotes an allocated
    object, and where both maps have an id they hold the same object. The
    constructor establishes this and every event keeps it ([wf_step]). *)
Definition wf (s : State) : Prop :=
  (∀ k r, measurementsList s !! k = Some r → (r < length (heap s))%nat)
  ∧ (∀ k r, plateObjects s !! k = Some r → (r < length (heap s))%nat)
  ∧ (∀ k r1 r2, measurementsList s !! k = Some r1 → plateObjects s !! k = Some r2 → r1 = r2).

(** The events that are not a message of the server nor a reset of the
    maps by the session: what the user does, and the frame tick. *)
Definition local_event (ev : Event) : bool :=
  match ev with
  | ServerCreate _ | ServerUpdate _ | ServerDelete _ | ClearData | ClearGUI => false
  | _ => true
  end.

(** The id an entry of the create array carries, when it is a number. *)
Definition entry_id (e : CreateEntry) : option Z :=
  match e with
  | EntryObject (IdNumber n) _ _ _ => Some n
  | _ => None
  end.

(** The event is a create broadcast with an entry of id [k]. *)
Definition creates_id (k : Z) (ev : Event) : bool :=
  match ev with
  | ServerCreate (IsArray entries) => bool_decide (Some k ∈ entry_id <$> entries)
  | _ => false
  end.

(** ** Concrete states used in the examples *)

Definition origin : Vector3 := mkVector3 0 0 0.
Definition east1 : Vector3 := mkVector3 1 0 0.
Definition p340 : Vector3 := mkVector3 3 4 0.
Definition far : Vector3 := mkVector3 0x1p+1000 0 0.
Definition leftButton : IPointerEvent := mkIPointerEvent "mouse" 0.

(** The pointer is over a mesh without metadata, at the origin and at
    (3,4,0). *)
Definition overOrigin : PickingInfo := mkPickingInfo true (Some origin) (Some None).
Definition overGround : PickingInfo := mkPickingInfo true (Some p340) (Some None).

(** The pointer is over the end point of measurement 3, whose plate object
    is the first one allocated. *)
Definition overEndOf3 : PickingInfo :=
  mkPickingInfo true (Some east1) (Some (Some (mkPickMetadata (Some 0%nat) (Some PEnd) (Some 3)))).

(** The tool is open, with both action buttons in the GUI. *)
Definition opened : State := EnableMeasuring (Init true true constructor).

(** The server has broadcast measurement 3, from the origin to (1,0,0). *)
Definition with3 : State :=
  step opened (ServerCreate (IsArray [EntryObject (IdNumber 3) (IsVector3 origin)
                                        (IsVector3 east1) 1%float])).

(** The server has then broadcast measurement 5, from the origin to
    (3,4,0). *)
Definition with3and5 : State :=
  step with3 (ServerCreate (IsArray [EntryObject (IdNumber 5) (IsVector3 origin)
                                       (IsVector3 p340) 5%float])).

(** Measurement 3 is hovered, then its end point is grabbed. *)
Definition hovering3 : State := step with3 (BeforeRender overEndOf3).
Definition moving3 : State := step hovering3 (PointerDown leftButton overEndOf3).

(** Create mode, and a drag started at the origin. *)
Definition dragging : State :=
  run opened [CreateButtonDown; PointerDown leftButton overOrigin].

(** An engine that builds the dashed lines of measured distance up to 1000,
    and the tool opened over it: measurement 3 is broadcast, from the origin
    to (1,0,0), and then an update broadcast moves its end point to
    (2^1000,0,0). *)
Definition limited : Vector3 → Vector3 → float → bool := λ _ _ dist, PrimFloat.leb dist 1000.
Definition opened_limited : State :=
  EnableMeasuring (Init true true (set_dashedLines limited constructor)).
Definition with3_limited : State :=
  step opened_limited (ServerCreate (IsArray [EntryObject (IdNumber 3) (IsVector3 origin)
                                                (IsVector3 east1) 1%float])).
Definition stretched3 : State :=
  step with3_limited (ServerUpdate (mkMeasurementJson 3 (IsVector3 origin) (IsVector3 far) 1%float)).

(** The pointer is over a mesh without metadata at (2^1000,0,0), and over
    the end point of measurement 3 there. *)
Definition overFar : PickingInfo := mkPickingInfo true (Some far) (Some None).
Definition overFarEndOf3 : PickingInfo :=
  mkPickingInfo true (Some far) (Some (Some (mkPickMetadata (Some 0%nat) (Some PEnd) (Some 3)))).

(** A create batch with every kind of entry. *)
Definition mixed_batch : list CreateEntry :=
  [EntryNullish;
   EntryObject IdMissing (IsVector3 origin) (IsVector3 east1) 1%float;
   EntryObject (IdNumber 0) (IsVector3 origin) (IsVector3 east1) 1%float;
   EntryObject (IdNumber (-1)) (IsVector3 origin) (IsVector3 east1) 1%float;
   EntryObject (IdNumber 5) (IsVector3 origin) (IsVector3 p340) 5%float].

(** * Further vocabulary *)

(** ** The pointer triggers of a collider

    [MeasurementPlateObject.ts], lines 272-307 ([SetupColliderActionManager]).
    Each endpoint sphere gets two actions: when the pointer enters it the
    whole plate goes to the highlights rendering group, when the pointer
    leaves it the plate goes back to the world-space group.
    [onHoverCallback] is never assigned in the sources, so the callback
    branch of both actions does nothing. *)
Definition OnPointerOverTrigger (o : MeasurementPlateObject.t) : MeasurementPlateObject.t :=
  MeasurementPlateObject.SetRenderingGroup highlights o.

Definition OnPointerOutTrigger (o : MeasurementPlateObject.t) : MeasurementPlateObject.t :=
  MeasurementPlateObject.SetRenderingGroup worldSpace o.

(** The endpoint sphere of a plate, by its role. *)
Definition collider_of (pt : PointType) (o : MeasurementPlateObject.t) : option Collider :=
  match pt with
  | PStart => MeasurementPlateObject.startPointCollider o
  | PEnd => MeasurementPlateObject.endPointCollider o
  end.

(** An action of the sphere [pt] of the object [r] runs only while that
    sphere exists: a disposed sphere has no action manager left. *)
Definition fire_trigger (f : MeasurementPlateObject.t → MeasurementPlateObject.t)
    (r : Ref) (pt : PointType) (s : State) : State :=
  match heap s !! r ≫= collider_of pt with
  | Some _ => modify_plate r f s
  | None => s
  end.

(** Everything that runs on the loop: the events of the controller and the
    two triggers of every sphere. *)
Inductive SceneEvent :=
  | Controller (ev : Event)
  | PointerOverCollider (r : Ref) (pt : PointType)
  | PointerOutCollider (r : Ref) (pt : PointType).

Definition scene_step (s : State) (ev : SceneEvent) : State :=
  match ev with
  | Controller ev => step s ev
  | PointerOverCollider r pt => fire_trigger OnPointerOverTrigger r pt s
  | PointerOutCollider r pt => fire_trigger OnPointerOutTrigger r pt s
  end.

Definition scene_run (s : State) (evs : list SceneEvent) : State := foldl scene_step s evs.

(** ** Invariants of the heap and of the traces *)

(** The visuals of a plate that are on show are what its data says: the
    dashed line, unless it is a disposed one, joins its two points; the
    label, unless it is a disposed one, prints its distance at the middle;
    and each sphere sits on its point and names the plate, the endpoint and
    the id in its metadata. *)
Definition visuals_ok (r : Ref) (o : MeasurementPlateObject.t) : Prop :=
  (∀ l, MeasurementPlateObject.line o = Some l → line_isDisposed l = false →
        line_from l = MeasurementPlateObject.startPoint o
        ∧ line_to l = MeasurementPlateObject.endPoint o
        ∧ line_isPickable l = false ∧ line_dashed l = true)
  ∧ (∀ t, MeasurementPlateObject.textMesh o = Some t → text_isDisposed t = false →
          text_distance t = MeasurementPlateObject.distanceMeasured o
          ∧ text_anchor t = midPoint (MeasurementPlateObject.startPoint o)
                                     (MeasurementPlateObject.endPoint o))
  ∧ (∀ c, MeasurementPlateObject.startPointCollider o = Some c →
          col_position c = MeasurementPlateObject.startPoint o
          ∧ col_isPickable c = true
          ∧ col_metadata c
            = mkColliderMetadata r PStart (MeasurementPlateObject.measurement_instance_id o))
  ∧ (∀ c, MeasurementPlateObject.endPointCollider o = Some c →
          col_position c = MeasurementPlateObject.endPoint o
          ∧ col_isPickable c = true
          ∧ col_metadata c
            = mkColliderMetadata r PEnd (MeasurementPlateObject.measurement_instance_id o)).

(** The object a key leads to carries that key as its id. *)
Definition keys_are_ids (s : State) : Prop :=
  (∀ k r, measurementsList s !! k = Some r →
          MeasurementPlateObject.measurement_instance_id <$> heap s !! r = Some k)
  ∧ (∀ k r, plateObjects s !! k = Some r →
            MeasurementPlateObject.measurement_instance_id <$> heap s !! r = Some k).

(** The invariant of the Registry and of its visuals. *)
Definition consistent (s : State) : Prop :=
  wf s ∧ keys_are_ids s ∧ (∀ r o, heap s !! r = Some o → visuals_ok r o).

(** What the maps and the heap are; [consistent] depends on nothing else. *)
Definition core (s : State) : gmap Z Ref * gmap Z Ref * list MeasurementPlateObject.t :=
  (measurementsList s, plateObjects s, heap s).

(** A well-formed outbound request: a create request carries the
    placeholder id [-1], a create or update request carries the Euclidean
    distance of its two points, a delete request never names [-1]. *)
Definition request_ok (m : Outbound) : Prop :=
  match m with
  | EditServer_ClientRequest_CreateMeasurementObject d =>
      sd_measurement_instance_id d = -1
      ∧ sd_distanceMeasured d = Vector3.Distance (sd_startPoint d) (sd_endPoint d)
  | EditServer_ClientRequest_UpdateMeasurementObject d =>
      sd_distanceMeasured d = Vector3.Distance (sd_startPoint d) (sd_endPoint d)
  | EditServer_ClientRequest_DeleteMeasurementObject id => id ≠ -1
  end.

(** Going from [s] to [s'] appended at most one request, a well-formed one. *)
Definition sends_at_most_one (s s' : State) : Prop :=
  ∃ ms, sent s' = sent s ++ ms ∧ (length ms ≤ 1)%nat ∧ Forall request_ok ms.

(** The events on which the client is only told something or only redraws:
    messages of the server, resets by the session, frame ticks, sphere
    triggers, and the menu and mode buttons. *)
Definition passive (ev : SceneEvent) : bool :=
  match ev with
  | Controller (KeyDown _) | Controller (PointerDown _ _) | Controller (PointerUp _ _) => false
  | _ => true
  end.

(** The X key would delete the entity being moved. *)
Definition armed (key : string) (s : State) : bool :=
  (bool_decide (key = "x") || bool_decide (key = "X"))
  && isMovingPoint s && bool_decide (selectedMeasurementId s ≠ -1).


(** Whether a point is being moved, and of which measurement. *)
Definition move_target (s : State) : bool * Z := (isMovingPoint s, selectedMeasurementId s).

(** The mode and the highlighting of the two action buttons. *)
Definition mode_view (s : State) : ActionStates.t * option bool * option bool :=
  (currentActionState s, measurementCreateButton s, measurementDeleteButton s).

(** The events that can change the mode: the three buttons, a key press,
    and the menu closing the tool. *)
Definition mode_event (ev : SceneEvent) : bool :=
  match ev with
  | Controller ToggleButtonDown | Controller CreateButtonDown | Controller DeleteButtonDown
  | Controller (KeyDown _) | Controller MenuDisabled => true
  | _ => false
  end.

(** What is set up once and what the menu and the mode buttons control: the
    mode, the two buttons, the scene, the listeners and observers, the
    singleton, and the transport and the engine. *)
Definition settings (s : State)
    : ActionStates.t * option bool * option bool * bool * nat * bool * bool * bool * bool
      * nat * nat * (Vector3 → Vector3 → float → bool) :=
  (currentActionState s, measurementCreateButton s, measurementDeleteButton s,
   scene s, keydownListeners s, pointerObserver s, beforeRenderObserver s,
   instance s, socketThrows s,
   onPointerObservable s, onBeforeRenderObservable s, dashedLines s).

(** The state of the two pointer interactions: the move of a point and the
    drag that creates a measurement. *)
Definition interaction (s : State)
    : bool * Z * option Ref * option PointType * option Vector3
      * bool * option Vector3 * option LinesMesh :=
  (isMovingPoint s, selectedMeasurementId s, selectedPlateObject s, selectedPointType s,
   fixedPoint s, isDraggingMeasurement s, startPoint s, currentLine s).

(** The ways a point arrives in a message: a [Vector3] instance, a record
    with the coordinates under [x], [y], [z], or one with them under [_x],
    [_y], [_z] (how a serialised [Vector3] looks). *)
Definition plain_record (v : Vector3) : PointPayload :=
  IsRecord (mkLoosePoint None (Some (vx v)) None (Some (vy v)) None (Some (vz v))).

Definition underscored_record (v : Vector3) : PointPayload :=
  IsRecord (mkLoosePoint (Some (vx v)) None (Some (vy v)) None (Some (vz v)) None).

Definition spellings (v : Vector3) : list PointPayload :=
  [IsVector3 v; plain_record v; underscored_record v].

(** A measurement that [measurementsList] holds and [plateObjects] does
    not: its data is known and no visual of it is managed. *)
Definition hidden (k : Z) (r : Ref) (s : State) : Prop :=
  measurementsList s !! k = Some r ∧ plateObjects s !! k = None.

(** What the controller is attached to: the scene, the [keydown] listeners
    on the window, the observers, the session, the transport and the
    engine. *)
Definition wiring (s : State)
    : bool * nat * bool * bool * bool * bool
      * nat * nat * (Vector3 → Vector3 → float → bool) :=
  (scene s, keydownListeners s, pointerObserver s, beforeRenderObserver s,
   instance s, socketThrows s,
   onPointerObservable s, onBeforeRenderObservable s, dashedLines s).

(** The same without the observers, which [DisableMeasuring] removes. *)
Definition environment (s : State)
    : bool * nat * bool * bool * (Vector3 → Vector3 → float → bool) :=
  (scene s, keydownListeners s, instance s, socketThrows s, dashedLines s).

(** The menu opens the tool. *)
Definition opens (ev : SceneEvent) : bool :=
  match ev with
  | Controller MenuEnabled => true
  | _ => false
  end.

(** The tool is closed: no mode, no observer in the two fields, no drag. *)
Definition closed (s : State) : Prop :=
  currentActionState s = ActionStates.None
  ∧ pointerObserver s = false ∧ beforeRenderObserver s = false
  ∧ isDraggingMeasurement s = false ∧ startPoint s = None
  ∧ currentLine s = None ∧ dynamicTextMesh s = None.

(** The observers of the controller: whether each of its two fields holds
    one, and how many it has on the pointer observable and on the per-frame
    observable. *)
Definition observers (s : State) : bool * bool * nat * nat :=
  (pointerObserver s, beforeRenderObserver s,
   onPointerObservable s, onBeforeRenderObservable s).

(** The events that can add or remove an observer: the menu opening or
    closing the tool, and a key press, since Escape can close it. *)
Definition observer_event (ev : SceneEvent) : bool :=
  match ev with
  | Controller MenuEnabled | Controller MenuDisabled | Controller (KeyDown _) => true
  | _ => false
  end.

(** The move of a point in progress: whether there is one, of which
    measurement and plate, which endpoint stays fixed, and the preview. *)
Definition move_state (s : State)
    : bool * Z * option Ref * option PointType * option Vector3
      * option LinesMesh * option TextMesh :=
  (isMovingPoint s, selectedMeasurementId s, selectedPlateObject s, selectedPointType s,
   fixedPoint s, movePreviewLine s, movePreviewText s).

(** * Properties *)

(** ** Frame lemmas: what each handler leaves alone *)

Lemma shape_of_registry s s' : registry s' = registry s → shape s' = shape s.
Proof.
  unfold registry, shape. intros [= -> -> H]. f_equal.
  by rewrite <-(length_fmap entity (heap s')), H, length_fmap.
Qed.

Lemma entity_alter (f : MeasurementPlateObject.t → MeasurementPlateObject.t) (r : Ref)
    (h : list MeasurementPlateObject.t) :
  (∀ o, entity (f o) = entity o) → entity <$> alter f r h = entity <$> h.
Proof.
  intros Hf. revert r. induction h as [|o h IH]; intros [|r]; simpl; try done.
  - by rewrite Hf.
  - f_equal. apply IH.
Qed.

Lemma modify_plate_registry r f s :
  (∀ o, entity (f o) = entity o) → registry (modify_plate r f s) = registry s.
Proof.
  intros Hf. destruct s. unfold registry, modify_plate. cbn. by rewrite entity_alter.
Qed.

Lemma modify_plate_shape r f s : shape (modify_plate r f s) = shape s.
Proof. destruct s. unfold shape, modify_plate. cbn. by rewrite length_alter. Qed.

(** The two outcomes of [CreatePlate], one after the other. *)
Ltac plate_cases :=
  unfold MeasurementPlateObject.UpdateMeasurement, MeasurementPlateObject.InitPlate,
    MeasurementPlateObject.CreatePlate;
  simpl; repeat case_match; simpl.

Create HintDb frame discriminated.

(** A statement that touches neither the maps nor the heap. *)
Ltac frame_field :=
  match goal with
  | |- _ (_ ?t) = _ ?t =>
      generalize t; intros [];
      unfold registry, shape, log, warn, error, SendData; cbn;
      repeat case_match; reflexivity
  end.

Ltac frame_visual :=
  first
    [ apply modify_plate_shape
    | apply modify_plate_registry;
      let o := fresh in intros o; destruct o;
      unfold MeasurementPlateObject.SetPointColor, MeasurementPlateObject.InitPlate,
        MeasurementPlateObject.CreatePlate; cbn;
      repeat case_match; reflexivity ].

(** One statement at a time, from the last one back to the first. *)
Ltac frame_step :=
  match goal with
  | |- ?V ?s = ?V ?s => reflexivity
  | |- _ (if ?b then _ else _) = _ => destruct b
  | |- _ (match ?x with _ => _ end) = _ => destruct x
  | |- _ ((match ?x with _ => _ end) _) = _ => destruct x; cbv beta
  | |- ?V (?f ?t) = ?V ?s =>
      transitivity (V t);
      [ first [ solve [ auto with frame ]
              | solve [ apply shape_of_registry; auto with frame ]
              | frame_visual
              | frame_field ] | ]
  end.

Ltac frame_solve := intros; cbv zeta; repeat frame_step.

Lemma SetMeasurementColor_registry id c s : registry (SetMeasurementColor id c s) = registry s.
Proof. unfold SetMeasurementColor. frame_solve. Qed.
#[export] Hint Resolve SetMeasurementColor_registry : frame.

Lemma UpdateActionButtonStates_registry a s :
  registry (UpdateActionButtonStates a s) = registry s.
Proof. unfold UpdateActionButtonStates. frame_solve. Qed.
#[export] Hint Resolve UpdateActionButtonStates_registry : frame.

Lemma SetActionState_registry a s : registry (SetActionState a s) = registry s.
Proof. unfold SetActionState. frame_solve. Qed.
#[export] Hint Resolve SetActionState_registry : frame.

Lemma ToggleDeleteMode_registry s : registry (ToggleDeleteMode s) = registry s.
Proof. unfold ToggleDeleteMode. auto with frame. Qed.
#[export] Hint Resolve ToggleDeleteMode_registry : frame.

Lemma DeleteMeasurement_registry id s : registry (DeleteMeasurement id s) = registry s.
Proof. unfold DeleteMeasurement, SendDeleteMeasurementRequestToServer. frame_solve. Qed.
#[export] Hint Resolve DeleteMeasurement_registry : frame.

Lemma ClearMovePreview_registry s : registry (ClearMovePreview s) = registry s.
Proof. unfold ClearMovePreview. frame_solve. Qed.
#[export] Hint Resolve ClearMovePreview_registry : frame.

Lemma DisableMeasuring_registry s : registry (DisableMeasuring s) = registry s.
Proof. unfold DisableMeasuring. frame_solve. Qed.
#[export] Hint Resolve DisableMeasuring_registry : frame.

Lemma EnableMeasuring_registry s : registry (EnableMeasuring s) = registry s.
Proof. unfold EnableMeasuring. frame_solve. Qed.
#[export] Hint Resolve EnableMeasuring_registry : frame.

Lemma onKeyDown_registry key s : registry (onKeyDown key s) = registry s.
Proof. unfold onKeyDown. frame_solve. Qed.
#[export] Hint Resolve onKeyDown_registry : frame.

Lemma StartMovingPoint_registry r pt id s : registry (StartMovingPoint r pt id s) = registry s.
Proof. unfold StartMovingPoint. frame_solve. Qed.
#[export] Hint Resolve StartMovingPoint_registry : frame.

Lemma UpdateMovePreview_registry p s : registry (UpdateMovePreview p s) = registry s.
Proof. unfold UpdateMovePreview. frame_solve. Qed.
#[export] Hint Resolve UpdateMovePreview_registry : frame.

Lemma CancelMoveOperation_registry s : registry (CancelMoveOperation s) = registry s.
Proof. unfold CancelMoveOperation. frame_solve. Qed.
#[export] Hint Resolve CancelMoveOperation_registry : frame.

Lemma CancelMeasurementCreation_registry s :
  registry (CancelMeasurementCreation s) = registry s.
Proof. unfold CancelMeasurementCreation. frame_solve. Qed.
#[export] Hint Resolve CancelMeasurementCreation_registry : frame.

Lemma StartNewMeasurement_registry p s : registry (StartNewMeasurement p s) = registry s.
Proof. unfold StartNewMeasurement. frame_solve. Qed.
#[export] Hint Resolve StartNewMeasurement_registry : frame.

Lemma CompleteMeasurement_registry p s : registry (CompleteMeasurement p s) = registry s.
Proof.
  unfold CompleteMeasurement, SendCreateNewMeasurementRequestToServer. frame_solve.
Qed.
#[export] Hint Resolve CompleteMeasurement_registry : frame.

Lemma UpdateMeasuringDisplay_registry p s : registry (UpdateMeasuringDisplay p s) = registry s.
Proof. unfold UpdateMeasuringDisplay. frame_solve. Qed.
#[export] Hint Resolve UpdateMeasuringDisplay_registry : frame.

Lemma HandlePointerDown_registry e pick s : registry (HandlePointerDown e pick s) = registry s.
Proof. unfold HandlePointerDown. frame_solve. Qed.
#[export] Hint Resolve HandlePointerDown_registry : frame.

Lemma hover_in_delete_mode_registry pick s : registry (hover_in_delete_mode pick s) = registry s.
Proof. unfold hover_in_delete_mode. frame_solve. Qed.
#[export] Hint Resolve hover_in_delete_mode_registry : frame.

Lemma hover_endpoint_registry pick s : registry (hover_endpoint pick s) = registry s.
Proof. unfold hover_endpoint. frame_solve. Qed.
#[export] Hint Resolve hover_endpoint_registry : frame.

Lemma HandlePointerMove_registry pick s : registry (HandlePointerMove pick s) = registry s.
Proof. unfold HandlePointerMove. frame_solve. Qed.
#[export] Hint Resolve HandlePointerMove_registry : frame.

Lemma UpdateExistingMeasurement_shape id a b s :
  shape (UpdateExistingMeasurement id a b s) = shape s.
Proof.
  unfold UpdateExistingMeasurement, SendUpdateMeasurementRequestToServer. frame_solve.
Qed.
#[export] Hint Resolve UpdateExistingMeasurement_shape : frame.

Lemma CompleteMove_shape p s : shape (CompleteMove p s) = shape s.
Proof. unfold CompleteMove. frame_solve. Qed.
#[export] Hint Resolve CompleteMove_shape : frame.

Lemma HandlePointerUp_shape e pick s : shape (HandlePointerUp e pick s) = shape s.
Proof. unfold HandlePointerUp. frame_solve. Qed.
#[export] Hint Resolve HandlePointerUp_shape : frame.

Lemma ReceiveUpdate_shape d s :
  shape (state_of (ReceiveUpdateMeasurementRequestFromServer d s)) = shape s.
Proof.
  unfold ReceiveUpdateMeasurementRequestFromServer.
  repeat case_match; unfold state_of; frame_solve.
Qed.
#[export] Hint Resolve ReceiveUpdate_shape : frame.

Lemma iter_shape (f : State → State) n s :
  (∀ t, shape (f t) = shape t) → shape (Nat.iter n f s) = shape s.
Proof. intros Hf. induction n as [|n IH]; simpl; [done|]. by rewrite Hf. Qed.

(** ** The invariant is kept by every event *)

Lemma wf_shape s s' : shape s' = shape s → wf s → wf s'.
Proof. unfold shape, wf. intros [= -> -> ->]. done. Qed.

Lemma wf_constructor : wf constructor.
Proof. unfold wf, constructor; cbn. split_and!; intros *; by rewrite lookup_empty. Qed.

(** What the create handler does, case by case. *)
Lemma TryAddMeasurementObject_cases d s :
  let s' := TryAddMeasurementObject d s in
  (registry s' = registry s ∧ sent s' = sent s ∧ heap s' = heap s
   ∧ (instance s = false ∨ is_Some (measurementsList s !! measurement_instance_id d)
      ∨ decodePoint (json_startPoint d) = None ∨ decodePoint (json_endPoint d) = None))
  ∨ (∃ p1 p2,
       instance s = true
       ∧ measurementsList s !! measurement_instance_id d = None
       ∧ decodePoint (json_startPoint d) = Some p1
       ∧ decodePoint (json_endPoint d) = Some p2
       ∧ measurementsList s' = <[measurement_instance_id d := length (heap s)]> (measurementsList s)
       ∧ plateObjects s' = <[measurement_instance_id d := length (heap s)]> (plateObjects s)
       ∧ heap s' = heap s ++ [MeasurementPlateObject.InitPlate (dashedLines s) (length (heap s))
                                (MeasurementPlateObject.constructor
                                   (measurement_instance_id d) p1 p2 (distanceMeasured d))]
       ∧ sent s' = sent s ∧ console s' = console s).
Proof.
  unfold TryAddMeasurementObject. destruct s; cbn.
  destruct instance0; cbn; [|left; split_and!; auto].
  case_bool_decide as Hin; [left; split_and!; auto|].
  apply eq_None_not_Some in Hin.
  destruct (decodePoint (json_startPoint d)) as [p1|]; [|left; split_and!; auto].
  destruct (decodePoint (json_endPoint d)) as [p2|]; [|left; split_and!; auto].
  right. exists p1, p2. cbn. split_and!; done.
Qed.

Lemma wf_TryAddMeasurementObject d s : wf s → wf (TryAddMeasurementObject d s).
Proof.
  intros Hwf.
  destruct (TryAddMeasurementObject_cases d s)
    as [(Hreg & _)|(p1 & p2 & _ & _ & _ & _ & Hm & Hp & Hh & _)].
  - apply (wf_shape s); [by apply shape_of_registry|done].
  - destruct Hwf as (H1 & H2 & H3). unfold wf. rewrite Hm, Hp, Hh, length_app. cbn.
    split_and!.
    + intros k r Hk. apply lookup_insert_Some in Hk as [[_ <-]|[_ Hk]]; [lia|].
      apply H1 in Hk. lia.
    + intros k r Hk. apply lookup_insert_Some in Hk as [[_ <-]|[_ Hk]]; [lia|].
      apply H2 in Hk. lia.
    + intros k r1 r2 Ha Hb. apply lookup_insert_Some in Ha as [[Heq <-]|[Hne Ha]].
      * rewrite <-Heq, lookup_insert_eq in Hb. by injection Hb.
      * rewrite lookup_insert_ne in Hb by done. eauto.
Qed.

Lemma process_entry_wf s e : wf s → wf (process_entry s e).
Proof.
  unfold process_entry. destruct (valid_entry e).
  - apply wf_TryAddMeasurementObject.
  - apply wf_shape. frame_solve.
Qed.

Lemma wf_ReceiveCreate a s : wf s → wf (ReceiveCreateNewMeasurementRequestFromServer a s).
Proof.
  destruct a as [|entries]; cbn.
  - apply wf_shape. frame_solve.
  - intros Hwf.
    assert (wf (log (ReceivedMeasurements (length entries)) s)) as Hlog
      by (revert Hwf; apply wf_shape; frame_solve).
    revert Hlog. generalize (log (ReceivedMeasurements (length entries)) s).
    induction entries as [|e es IH]; intros t Ht; cbn; [done|].
    apply IH. by apply process_entry_wf.
Qed.

Lemma wf_ReceiveDelete id s : wf s → wf (ReceiveDeleteMeasurementRequestFromServer id s).
Proof.
  intros (H1 & H2 & H3). unfold ReceiveDeleteMeasurementRequestFromServer.
  destruct (plateObjects s !! id) as [r|] eqn:Hr.
  - destruct s. cbn in *. unfold wf. case_bool_decide; cbn; rewrite length_alter;
      (split_and!; intros k; intros *; rewrite ?lookup_delete; repeat case_decide; try done; eauto).
  - apply (wf_shape s); [frame_solve|done].
Qed.

Lemma foldl_alter_length (f : MeasurementPlateObject.t → MeasurementPlateObject.t)
    (rs : list Ref) (h : list MeasurementPlateObject.t) :
  length (foldl (λ h r, alter f r h) h rs) = length h.
Proof. revert h. induction rs as [|r rs IH]; intros h; cbn; [done|]. by rewrite IH, length_alter. Qed.

Lemma step_shape s ev :
  match ev with
  | ServerCreate _ | ServerDelete _ | ClearData | ClearGUI => True
  | _ => shape (step s ev) = shape s
  end.
Proof.
  destruct ev; cbn; try done; try (frame_solve; fail).
  - apply iter_shape. intros t. apply shape_of_registry. auto with frame.
  - auto with frame.
Qed.

Lemma wf_step s ev : wf s → wf (step s ev).
Proof.
  intros Hwf. pose proof (step_shape s ev) as Hshape.
  destruct ev; try (by apply (wf_shape s)); cbn.
  - by apply wf_ReceiveCreate.
  - by apply wf_ReceiveDelete.
  - destruct Hwf as (H1 & H2 & H3). destruct s; unfold wf; cbn in *.
    split_and!; intros *; rewrite ?lookup_empty; try done. eauto.
  - destruct Hwf as (H1 & H2 & H3). destruct s; unfold wf; cbn in *.
    rewrite foldl_alter_length.
    split_and!; intros *; rewrite ?lookup_empty; try done. eauto.
Qed.

Lemma wf_run s evs : wf s → wf (run s evs).
Proof.
  unfold run. revert s. induction evs as [|ev evs IH]; intros s Hwf; cbn; [done|].
  by apply IH, wf_step.
Qed.

Lemma float_differ (a b : float) : PrimFloat.eqb a b = false → PrimFloat.eqb b b = true → a ≠ b.
Proof. intros Hab Hbb ->. congruence. Qed.

Lemma wf_opened : wf opened.
Proof. apply (wf_shape constructor); [reflexivity|apply wf_constructor]. Qed.

Lemma wf_with3 : wf with3.
Proof. apply wf_step, wf_opened. Qed.

(** ** C1 *)

(** C1, counterexample. A create broadcast for id 7 from (0,0,0) to (3,4,0)
    that announces the distance 99 is stored with distance 99, while the
    Euclidean distance of its points is 5. *)
Lemma C1_create_keeps_received_distance :
  let s := TryAddMeasurementObject
             (mkMeasurementJson 7 (IsVector3 origin) (IsVector3 p340) 99%float) opened in
  ∃ o, stored measurementsList s 7 = Some o
       ∧ MeasurementPlateObject.distanceMeasured o = 99%float
       ∧ Vector3.Distance (MeasurementPlateObject.startPoint o)
                          (MeasurementPlateObject.endPoint o) = 5%float
       ∧ MeasurementPlateObject.distanceMeasured o
         ≠ Vector3.Distance (MeasurementPlateObject.startPoint o)
                            (MeasurementPlateObject.endPoint o).
Proof.
  eexists. split; [vm_compute; reflexivity|]. cbn.
  split_and!; [reflexivity|vm_compute; reflexivity|].
  apply float_differ; vm_compute; reflexivity.
Qed.

(** C1, as amended. The inbound update handler leaves the entity with the
    decoded received points and with the Euclidean distance between them:
    the received [distanceMeasured] it assigns first is overwritten when
    [UpdateMeasurement] recomputes the distance on the same object. The
    inbound create handler stores the decoded points and the received
    [distanceMeasured] as it is. *)
Theorem C1_update_recomputes_create_stores_received :
  (∀ s d p1 p2,
     wf s →
     is_Some (plateObjects s !! measurement_instance_id d) →
     is_Some (measurementsList s !! measurement_instance_id d) →
     decodePoint (json_startPoint d) = Some p1 →
     decodePoint (json_endPoint d) = Some p2 →
     ∃ s' o,
       ReceiveUpdateMeasurementRequestFromServer d s = Normal s'
       ∧ stored measurementsList s' (measurement_instance_id d) = Some o
       ∧ stored plateObjects s' (measurement_instance_id d) = Some o
       ∧ MeasurementPlateObject.startPoint o = p1
       ∧ MeasurementPlateObject.endPoint o = p2
       ∧ MeasurementPlateObject.distanceMeasured o = Vector3.Distance p1 p2)
  ∧ (∀ s d p1 p2,
       instance s = true →
       measurementsList s !! measurement_instance_id d = None →
       decodePoint (json_startPoint d) = Some p1 →
       decodePoint (json_endPoint d) = Some p2 →
       ∃ o,
         stored measurementsList (TryAddMeasurementObject d s) (measurement_instance_id d) = Some o
         ∧ stored plateObjects (TryAddMeasurementObject d s) (measurement_instance_id d) = Some o
         ∧ MeasurementPlateObject.startPoint o = p1
         ∧ MeasurementPlateObject.endPoint o = p2
         ∧ MeasurementPlateObject.distanceMeasured o = distanceMeasured d).
Proof.
  split.
  - intros s d p1 p2 (H1 & H2 & H3) [r Hp] [r' Hm] Hd1 Hd2.
    assert (r' = r) as -> by eauto.
    destruct (lookup_lt_is_Some_2 (heap s) r) as [o Ho]; [eauto|].
    unfold ReceiveUpdateMeasurementRequestFromServer. rewrite Hp, Hm, Hd1, Hd2.
    destruct s; simpl in *. eexists _, _. split; [reflexivity|].
    unfold stored; simpl. rewrite Hp, Hm. simpl.
    rewrite !list_lookup_alter_eq, Ho. simpl.
    split; [reflexivity|]. split; [reflexivity|].
    plate_cases; split_and!; reflexivity.
  - intros s d p1 p2 Hi Hm Hd1 Hd2.
    destruct (TryAddMeasurementObject_cases d s)
      as [(_ & _ & _ & [?|[[? ?]|[?|?]]])|(q1 & q2 & _ & _ & Hq1 & Hq2 & Hm' & Hp' & Hh' & _)];
      try congruence.
    assert (q1 = p1) as -> by congruence. assert (q2 = p2) as -> by congruence.
    unfold stored. rewrite Hm', Hp', Hh', !lookup_insert_eq. cbn.
    rewrite list_lookup_middle by done.
    eexists. split; [reflexivity|]. split; [reflexivity|].
    plate_cases; split_and!; reflexivity.
Qed.

(** C1, witness: measurement 3 is created from (0,0,0) to (1,0,0), then an
    update for it arrives with the end point (3,4,0) and the distance 99. *)
Lemma C1_update_recomputes_create_stores_received_witness :
  (∃ s' o,
     ReceiveUpdateMeasurementRequestFromServer
       (mkMeasurementJson 3 (IsVector3 origin) (IsVector3 p340) 99%float) with3 = Normal s'
     ∧ stored measurementsList s' 3 = Some o
     ∧ stored plateObjects s' 3 = Some o
     ∧ MeasurementPlateObject.startPoint o = origin
     ∧ MeasurementPlateObject.endPoint o = p340
     ∧ MeasurementPlateObject.distanceMeasured o = Vector3.Distance origin p340)
  ∧ (∃ o,
       stored measurementsList
         (TryAddMeasurementObject
            (mkMeasurementJson 7 (IsVector3 origin) (IsVector3 p340) 99%float) opened) 7 = Some o
       ∧ stored plateObjects
           (TryAddMeasurementObject
              (mkMeasurementJson 7 (IsVector3 origin) (IsVector3 p340) 99%float) opened) 7 = Some o
       ∧ MeasurementPlateObject.startPoint o = origin
       ∧ MeasurementPlateObject.endPoint o = p340
       ∧ MeasurementPlateObject.distanceMeasured o = 99%float).
Proof.
  split.
  - apply (proj1 C1_update_recomputes_create_stores_received with3
             (mkMeasurementJson 3 (IsVector3 origin) (IsVector3 p340) 99%float) origin p340).
    + exact wf_with3.
    + vm_compute. eexists. reflexivity.
    + vm_compute. eexists. reflexivity.
    + reflexivity.
    + reflexivity.
  - apply (proj2 C1_update_recomputes_create_stores_received opened
             (mkMeasurementJson 7 (IsVector3 origin) (IsVector3 p340) 99%float) origin p340).
    + reflexivity.
    + vm_compute. reflexivity.
    + reflexivity.
    + reflexivity.
Defined.

(** ** C2 *)

(** C2, counterexample. The end point of measurement 3 is being moved; the
    pointer is released over (3,4,0). No message of the server has arrived,
    and the stored entity already has the new end point and distance. *)
Lemma C2_completing_a_move_rewrites_the_entity :
  let s := step moving3 (PointerUp leftButton overGround) in
  ∃ o o',
    stored plateObjects moving3 3 = Some o
    ∧ stored plateObjects s 3 = Some o'
    ∧ stored measurementsList s 3 = Some o'
    ∧ MeasurementPlateObject.endPoint o = east1
    ∧ MeasurementPlateObject.endPoint o' = p340
    ∧ MeasurementPlateObject.distanceMeasured o = 1%float
    ∧ MeasurementPlateObject.distanceMeasured o' = 5%float
    ∧ MeasurementPlateObject.distanceMeasured o' ≠ MeasurementPlateObject.distanceMeasured o
    ∧ registry s ≠ registry moving3.
Proof.
  eexists _, _. split; [vm_compute; reflexivity|]. split; [vm_compute; reflexivity|].
  split; [vm_compute; reflexivity|]. cbn.
  split_and!; try reflexivity.
  - apply float_differ; vm_compute; reflexivity.
  - intros H.
    apply (f_equal (λ x, match x.2 with e :: _ => PrimFloat.eqb e.2 1 | [] => false end)) in H.
    vm_compute in H. discriminate H.
Qed.

(** C2, as amended. Sending a create or a delete request leaves the Registry
    as it is, and no local event adds or removes a key of either map.
    Sending an update request is different: when the id is in both maps,
    [UpdateExistingMeasurement] first rewrites the stored entity and then
    sends the request. The entity gets the new points and the distance
    recomputed from them; its two spheres are replaced by new ones on the
    new points; its line and label are replaced by new ones for the new
    points and distance when the engine builds the dashed line, and stay
    the old ones, disposed, when it does not. When the id is missing from a
    map it changes nothing and sends nothing. *)
Theorem C2_requests_and_the_registry :
  (∀ s p, registry (CompleteMeasurement p s) = registry s)
  ∧ (∀ s id, registry (DeleteMeasurement id s) = registry s)
  ∧ (∀ s ev, local_event ev = true →
       measurementsList (step s ev) = measurementsList s
       ∧ plateObjects (step s ev) = plateObjects s)
  ∧ (∀ s id a b r o,
       wf s → plateObjects s !! id = Some r → is_Some (measurementsList s !! id) →
       heap s !! r = Some o →
       let s' := UpdateExistingMeasurement id a b s in
       let d := Vector3.Distance a b in
       let built := dashedLines s a b d in
       let o' :=
         MeasurementPlateObject.mk (MeasurementPlateObject.measurement_instance_id o) a b d
           (if built then Some (mkLinesMesh a b EngineDefault worldSpace false true false)
            else dispose_line <$> MeasurementPlateObject.line o)
           (if built then Some (mkTextMesh d (midPoint a b) false)
            else dispose_text <$> MeasurementPlateObject.textMesh o)
           (Some (mkCollider a true worldSpace colors_point_default
                    (mkColliderMetadata r PStart id)))
           (Some (mkCollider b true worldSpace colors_point_default
                    (mkColliderMetadata r PEnd id))) in
       stored measurementsList s' id = Some o'
       ∧ stored plateObjects s' id = Some o'
       ∧ sent s' = sent s ++ [EditServer_ClientRequest_UpdateMeasurementObject
                                (mkSendData id a b d)])
  ∧ (∀ s id a b,
       plateObjects s !! id = None ∨ measurementsList s !! id = None →
       let s' := UpdateExistingMeasurement id a b s in
       registry s' = registry s ∧ sent s' = sent s).
Proof.
  split_and!.
  - auto with frame.
  - auto with frame.
  - intros s ev Hev. pose proof (step_shape s ev) as H.
    destruct ev; try discriminate Hev; by injection H.
  - intros s id a b r o (H1 & H2 & H3) Hp [r' Hm] Ho.
    assert (r' = r) as -> by eauto.
    unfold UpdateExistingMeasurement, SendUpdateMeasurementRequestToServer. rewrite Hp, Hm.
    destruct s; simpl in *. unfold stored, SendData; simpl.
    destruct socketThrows0; simpl; rewrite Hp, Hm; simpl;
      rewrite !list_lookup_alter_eq, Ho; simpl;
      plate_cases; split_and!; reflexivity.
  - intros s id a b Hnone. unfold UpdateExistingMeasurement.
    destruct (plateObjects s !! id), (measurementsList s !! id);
      try (by destruct Hnone); destruct s; done.
Qed.

(** C2, witness: the update request for measurement 3 of [with3], whose
    line the engine builds, and one for the unknown id 9. *)
Lemma C2_requests_and_the_registry_witness :
  (measurementsList (step with3 (PointerDown leftButton overGround)) = measurementsList with3
   ∧ plateObjects (step with3 (PointerDown leftButton overGround)) = plateObjects with3)
  ∧ (stored plateObjects (UpdateExistingMeasurement 3 origin p340 with3) 3
     = Some (MeasurementPlateObject.mk 3 origin p340 (Vector3.Distance origin p340)
               (Some (mkLinesMesh origin p340 EngineDefault worldSpace false true false))
               (Some (mkTextMesh (Vector3.Distance origin p340) (midPoint origin p340) false))
               (Some (mkCollider origin true worldSpace colors_point_default
                        (mkColliderMetadata 0%nat PStart 3)))
               (Some (mkCollider p340 true worldSpace colors_point_default
                        (mkColliderMetadata 0%nat PEnd 3))))
     ∧ sent (UpdateExistingMeasurement 3 origin p340 with3)
       = sent with3 ++ [EditServer_ClientRequest_UpdateMeasurementObject
                          (mkSendData 3 origin p340 (Vector3.Distance origin p340))])
  ∧ (registry (UpdateExistingMeasurement 9 origin p340 with3) = registry with3
     ∧ sent (UpdateExistingMeasurement 9 origin p340 with3) = sent with3).
Proof.
  destruct C2_requests_and_the_registry as (_ & _ & Hlocal & Hknown & Hunknown).
  assert (∃ o, heap with3 !! 0%nat = Some o
               ∧ MeasurementPlateObject.measurement_instance_id o = 3) as (o & Ho & Hid)
    by (eexists; split; vm_compute; reflexivity).
  destruct (Hknown with3 3 origin p340 0%nat o) as (_ & Hplate & Hsent).
  - exact wf_with3.
  - vm_compute. reflexivity.
  - vm_compute. eexists. reflexivity.
  - exact Ho.
  - split_and!.
    + apply (Hlocal with3 (PointerDown leftButton overGround)). reflexivity.
    + apply (Hlocal with3 (PointerDown leftButton overGround)). reflexivity.
    + rewrite Hplate, Hid. reflexivity.
    + exact Hsent.
    + apply (Hunknown with3 9 origin p340). left. vm_compute. reflexivity.
    + apply (Hunknown with3 9 origin p340). left. vm_compute. reflexivity.
Defined.

(** ** C3 *)

(** C3, counterexample. Measurement 3 was hovered and then grabbed, so it is
    both the hover target and the move target. After the delete broadcast
    for 3 it is gone from both maps, and [hoveredMeasurementId] is still 3. *)
Lemma C3_hover_still_names_the_deleted_entity :
  let s := step moving3 (ServerDelete 3) in
  isMovingPoint moving3 = true
  ∧ selectedMeasurementId moving3 = 3
  ∧ plateObjects s !! 3 = None
  ∧ measurementsList s !! 3 = None
  ∧ hoveredMeasurementId s = 3
  ∧ hoveredPointType s = Some PEnd.
Proof. vm_compute. split_and!; reflexivity. Qed.

(** C3, as amended. When a delete broadcast arrives for the entity whose
    point is being moved, the entity leaves both maps, the moving flag and
    the whole move selection (object, point type, id, fixed point) are
    cleared and the move preview is discarded. The hover bookkeeping is not
    touched: it keeps whatever id and point type it had. *)
Theorem C3_delete_during_move (s : State) (N : Z) :
  isMovingPoint s = true →
  selectedMeasurementId s = N →
  is_Some (plateObjects s !! N) →
  let s' := ReceiveDeleteMeasurementRequestFromServer N s in
  plateObjects s' = delete N (plateObjects s)
  ∧ measurementsList s' = delete N (measurementsList s)
  ∧ plateObjects s' !! N = None
  ∧ measurementsList s' !! N = None
  ∧ isMovingPoint s' = false
  ∧ selectedPlateObject s' = None
  ∧ selectedPointType s' = None
  ∧ selectedMeasurementId s' = -1
  ∧ fixedPoint s' = None
  ∧ movePreviewLine s' = None
  ∧ movePreviewText s' = None
  ∧ hoveredMeasurementId s' = hoveredMeasurementId s
  ∧ hoveredPointType s' = hoveredPointType s.
Proof.
  intros Hmove Hsel [r Hr]. unfold ReceiveDeleteMeasurementRequestFromServer. rewrite Hr.
  destruct s; simpl in *. subst. rewrite bool_decide_eq_true_2 by done. simpl.
  rewrite !lookup_delete_eq. split_and!; reflexivity.
Qed.

(** C3, witness: the delete broadcast for 3 while its end point is moved. *)
Lemma C3_delete_during_move_witness :
  let s' := ReceiveDeleteMeasurementRequestFromServer 3 moving3 in
  plateObjects s' = delete 3 (plateObjects moving3)
  ∧ measurementsList s' = delete 3 (measurementsList moving3)
  ∧ plateObjects s' !! 3 = None
  ∧ measurementsList s' !! 3 = None
  ∧ isMovingPoint s' = false
  ∧ selectedPlateObject s' = None
  ∧ selectedPointType s' = None
  ∧ selectedMeasurementId s' = -1
  ∧ fixedPoint s' = None
  ∧ movePreviewLine s' = None
  ∧ movePreviewText s' = None
  ∧ hoveredMeasurementId s' = hoveredMeasurementId moving3
  ∧ hoveredPointType s' = hoveredPointType moving3.
Proof.
  apply (C3_delete_during_move moving3 3).
  - reflexivity.
  - reflexivity.
  - vm_compute. eexists. reflexivity.
Defined.

(** ** C4 *)







(** The spec's scenario: two broadcasts for id 9 back to back leave one
    entity 9, from (0,0,0) to (3,4,0) with distance 5. *)
Example two_creates_for_9 :
  let d := mkMeasurementJson 9 (IsVector3 origin) (IsVector3 p340) 5%float in
  let s := step opened (ServerCreate (IsArray [EntryObject (IdNumber 9) (IsVector3 origin)
                                                 (IsVector3 p340) 5%float;
                                               EntryObject (IdNumber 9) (IsVector3 origin)
                                                 (IsVector3 p340) 5%float])) in
  map_to_list (measurementsList s) = [(9, 0%nat)]
  ∧ (entity <$> heap s) = [(9, origin, p340, 5%float)].
Proof. vm_compute. split; reflexivity. Qed.

(** ** C5 *)

(** C5. For an id that is not in [plateObjects], the inbound delete handler
    prints one warning and changes nothing else. For an id that is missing
    from [plateObjects] or from [measurementsList], the inbound update
    handler ends normally, prints one warning and changes nothing else. *)
Theorem C5_unknown_id_is_ignored :
  (∀ s id,
     plateObjects s !! id = None →
     let s' := ReceiveDeleteMeasurementRequestFromServer id s in
     s' = warn (DeleteForUnknownMeasurement id) s
     ∧ registry s' = registry s
     ∧ sent s' = sent s
     ∧ console s' = console s ++ [(LWarn, DeleteForUnknownMeasurement id)])
  ∧ (∀ s d,
       plateObjects s !! measurement_instance_id d = None
       ∨ measurementsList s !! measurement_instance_id d = None →
       ∃ s',
         ReceiveUpdateMeasurementRequestFromServer d s = Normal s'
         ∧ s' = warn (UpdateForUnknownMeasurement (measurement_instance_id d)) s
         ∧ registry s' = registry s
         ∧ sent s' = sent s
         ∧ console s'
           = console s ++ [(LWarn, UpdateForUnknownMeasurement (measurement_instance_id d))]).
Proof.
  split.
  - intros s id Hnone. unfold ReceiveDeleteMeasurementRequestFromServer. rewrite Hnone.
    destruct s. done.
  - intros s d Hnone. unfold ReceiveUpdateMeasurementRequestFromServer.
    destruct (plateObjects s !! measurement_instance_id d),
             (measurementsList s !! measurement_instance_id d);
      try (by destruct Hnone); eexists; (split; [reflexivity|]); destruct s; done.
Qed.

(** C5, witness: the spec's scenario, a delete and an update for id 42 while
    only measurement 3 is stored. *)
Lemma C5_unknown_id_is_ignored_witness :
  (let s' := ReceiveDeleteMeasurementRequestFromServer 42 with3 in
   s' = warn (DeleteForUnknownMeasurement 42) with3
   ∧ registry s' = registry with3
   ∧ sent s' = sent with3
   ∧ console s' = console with3 ++ [(LWarn, DeleteForUnknownMeasurement 42)])
  ∧ (∃ s',
       ReceiveUpdateMeasurementRequestFromServer
         (mkMeasurementJson 42 IsNullish IsNullish 1%float) with3 = Normal s'
       ∧ s' = warn (UpdateForUnknownMeasurement 42) with3
       ∧ registry s' = registry with3
       ∧ sent s' = sent with3
       ∧ console s' = console with3 ++ [(LWarn, UpdateForUnknownMeasurement 42)]).
Proof.
  split.
  - apply (proj1 C5_unknown_id_is_ignored with3 42). vm_compute. reflexivity.
  - apply (proj2 C5_unknown_id_is_ignored with3
             (mkMeasurementJson 42 IsNullish IsNullish 1%float)).
    left. vm_compute. reflexivity.
Defined.

(** ** C6 *)

(** C6, counterexample. A create-drag is in flight. Escape sets the mode to
    [None] and leaves the drag flag, the start point and the preview line as
    they were; releasing the pointer over (3,4,0) then sends a create
    request. *)
Lemma C6_escape_keeps_the_drag :
  let s := step dragging (KeyDown "Escape") in
  currentActionState dragging = ActionStates.Add
  ∧ isDraggingMeasurement dragging = true
  ∧ currentActionState s = ActionStates.None
  ∧ isDraggingMeasurement s = true
  ∧ startPoint s = Some origin
  ∧ is_Some (currentLine s)
  ∧ sent s = []
  ∧ sent (step s (PointerUp leftButton overGround))
    = [EditServer_ClientRequest_CreateMeasurementObject (mkSendData (-1) origin p340 5%float)].
Proof. vm_compute. split_and!; try reflexivity. eexists. reflexivity. Qed.

(** C6, as amended. With a mode other than [None], Escape sets the mode to
    [None] and resets the hovered id; it leaves the Registry, the requests
    sent, the drag flag, the remembered start point and the preview line as
    they are. A later pointer release leaves both maps as they are; if a
    create-drag was in flight, no move of a point is in progress and a
    point is available, a release of the left button sends a create request
    with the placeholder id [-1]. *)
Theorem C6_escape_leaves_the_drag (s : State) :
  currentActionState s ≠ ActionStates.None →
  let s' := onKeyDown "Escape" s in
  currentActionState s' = ActionStates.None
  ∧ hoveredMeasurementId s' = -1
  ∧ registry s' = registry s
  ∧ sent s' = sent s
  ∧ isDraggingMeasurement s' = isDraggingMeasurement s
  ∧ startPoint s' = startPoint s
  ∧ currentLine s' = currentLine s
  ∧ (∀ e pick,
       measurementsList (HandlePointerUp e pick s') = measurementsList s
       ∧ plateObjects (HandlePointerUp e pick s') = plateObjects s)
  ∧ (∀ e pick sp p,
       scene s = true → non_left_mouse e = false →
       isMovingPoint s = false → isDraggingMeasurement s = true →
       startPoint s = Some sp → pointToUse pick s = Some p →
       sent (HandlePointerUp e pick s')
       = sent s ++ [EditServer_ClientRequest_CreateMeasurementObject
                      (mkSendData (-1) sp p (Vector3.Distance sp p))]).
Proof.
  intros Hmode s'.
  assert (s' = SetActionState ActionStates.None s) as Hs'.
  { subst s'. unfold onKeyDown.
    rewrite (bool_decide_eq_true_2 ("Escape" = "Escape")) by done.
    rewrite (bool_decide_eq_true_2 _ Hmode).
    rewrite (bool_decide_eq_false_2 ("Escape" = "x")) by done.
    rewrite (bool_decide_eq_false_2 ("Escape" = "X")) by done. done. }
  assert (registry s' = registry s) as Hreg by (rewrite Hs'; auto with frame).
  assert (currentActionState s' = ActionStates.None
          ∧ hoveredMeasurementId s' = -1
          ∧ sent s' = sent s
          ∧ isDraggingMeasurement s' = isDraggingMeasurement s
          ∧ startPoint s' = startPoint s
          ∧ currentLine s' = currentLine s
          ∧ scene s' = scene s
          ∧ isMovingPoint s' = isMovingPoint s
          ∧ lastValidPickedPoint s' = lastValidPickedPoint s
          ∧ socketThrows s' = socketThrows s) as Hfields.
  { rewrite Hs'. clear. destruct s. unfold SetActionState, UpdateActionButtonStates,
      SetMeasurementColor, modify_plate, log. simpl.
    destruct measurementCreateButton0, measurementDeleteButton0; simpl;
      case_bool_decide; simpl; repeat case_match; simpl; split_and!; try done;
      by apply dec_stable. }
  destruct Hfields as (Hm & Hh & Hsent & Hdrag & Hsp & Hline & Hscene & Hmov & Hlast & Hsock).
  split_and!; try done.
  - intros e pick. pose proof (HandlePointerUp_shape e pick s') as Hshape.
    apply shape_of_registry in Hreg. unfold shape in *. split; congruence.
  - intros e pick sp p Hsc Hleft Hnomove Hd Hstart Hpoint.
    assert (pointToUse pick s' = Some p) as Hpoint'.
    { unfold pointToUse in *. by rewrite Hlast. }
    unfold HandlePointerUp, CompleteMeasurement, SendCreateNewMeasurementRequestToServer,
      SendData.
    rewrite Hscene, Hsc, Hleft, Hmov, Hnomove, Hdrag, Hd, Hsp, Hstart, Hpoint'. simpl.
    rewrite <-Hsent. destruct s'; simpl. destruct socketThrows0; reflexivity.
Qed.

(** C6, witness: the drag of the counterexample. *)
Lemma C6_escape_leaves_the_drag_witness :
  let s' := onKeyDown "Escape" dragging in
  currentActionState s' = ActionStates.None
  ∧ hoveredMeasurementId s' = -1
  ∧ registry s' = registry dragging
  ∧ sent s' = sent dragging
  ∧ isDraggingMeasurement s' = isDraggingMeasurement dragging
  ∧ startPoint s' = startPoint dragging
  ∧ currentLine s' = currentLine dragging
  ∧ (∀ e pick,
       measurementsList (HandlePointerUp e pick s') = measurementsList dragging
       ∧ plateObjects (HandlePointerUp e pick s') = plateObjects dragging)
  ∧ (∀ e pick sp p,
       scene dragging = true → non_left_mouse e = false →
       isMovingPoint dragging = false → isDraggingMeasurement dragging = true →
       startPoint dragging = Some sp → pointToUse pick dragging = Some p →
       sent (HandlePointerUp e pick s')
       = sent dragging ++ [EditServer_ClientRequest_CreateMeasurementObject
                             (mkSendData (-1) sp p (Vector3.Distance sp p))]).
Proof. apply (C6_escape_leaves_the_drag dragging). vm_compute. discriminate. Defined.

(** ** Keys of the Registry along a run *)

Lemma known_shape s s' k : shape s' = shape s → known s' k → known s k.
Proof. unfold shape, known. intros [= -> -> _]. done. Qed.

Lemma TryAddMeasurementObject_known d s k :
  known (TryAddMeasurementObject d s) k → known s k ∨ k = measurement_instance_id d.
Proof.
  destruct (TryAddMeasurementObject_cases d s)
    as [(Hreg & _)|(? & ? & _ & _ & _ & _ & Hm & Hp & _)].
  - intros Hk. left. revert Hk. by apply known_shape, shape_of_registry.
  - unfold known. rewrite Hm, Hp.
    destruct (decide (k = measurement_instance_id d)) as [->|Hne]; [by right|].
    rewrite !lookup_insert_ne by done. by left.
Qed.

Lemma valid_entry_id e d :
  valid_entry e = Some d → entry_id e = Some (measurement_instance_id d) ∧ measurement_instance_id d ≠ 0.
Proof.
  destruct e as [|[| |n] sp ep dist]; simpl; try done.
  case_bool_decide; [|done]. by intros [= <-].
Qed.

Lemma process_entry_known s e k :
  known (process_entry s e) k → known s k ∨ (k ≠ 0 ∧ entry_id e = Some k).
Proof.
  unfold process_entry. destruct (valid_entry e) as [d|] eqn:Hv.
  - intros Hk. apply TryAddMeasurementObject_known in Hk as [?| ->]; [by left|].
    right. apply valid_entry_id in Hv as [? ?]. done.
  - intros Hk. left. revert Hk. apply known_shape. frame_solve.
Qed.

Lemma foldl_process_entry_known entries s k :
  known (foldl process_entry s entries) k →
  known s k ∨ (k ≠ 0 ∧ Some k ∈ entry_id <$> entries).
Proof.
  revert s. induction entries as [|e es IH]; intros s; simpl; [by left|].
  intros Hk. apply IH in Hk as [Hk|[Hne Hin]].
  - apply process_entry_known in Hk as [?|[Hne Heq]]; [by left|].
    right. split; [done|]. rewrite <-Heq. apply elem_of_cons. by left.
  - right. split; [done|]. apply elem_of_cons. by right.
Qed.

Lemma ReceiveCreate_known a s k :
  known (ReceiveCreateNewMeasurementRequestFromServer a s) k →
  known s k ∨ (k ≠ 0 ∧ creates_id k (ServerCreate a) = true).
Proof.
  destruct a as [|entries]; simpl.
  - intros Hk. left. revert Hk. apply known_shape. frame_solve.
  - intros Hk. apply foldl_process_entry_known in Hk as [Hk|[Hne Hin]].
    + left. revert Hk. apply known_shape. frame_solve.
    + right. split; [done|]. by apply bool_decide_eq_true_2.
Qed.

Lemma ReceiveDelete_known id s k :
  known (ReceiveDeleteMeasurementRequestFromServer id s) k → known s k.
Proof.
  unfold ReceiveDeleteMeasurementRequestFromServer.
  destruct (plateObjects s !! id) as [r|].
  - destruct s; unfold known; simpl. case_bool_decide; simpl;
      rewrite !lookup_delete_is_Some; intros [[_ ?]|[_ ?]]; auto.
  - apply known_shape. frame_solve.
Qed.

Lemma step_known s ev k : known (step s ev) k → known s k ∨ creates_id k ev = true.
Proof.
  pose proof (step_shape s ev) as Hshape.
  destruct ev; try (intros Hk; left; revert Hk; by apply known_shape).
  - intros Hk. apply ReceiveCreate_known in Hk as [?|[_ ?]]; auto.
  - intros Hk. left. by apply ReceiveDelete_known in Hk.
  - destruct s; unfold known; simpl. rewrite lookup_empty. intros [[? [=]]|?]. left. by right.
  - destruct s; unfold known; simpl. rewrite lookup_empty. intros [?|[? [=]]]. left. by left.
Qed.

Lemma run_known s evs k :
  known (run s evs) k → known s k ∨ Exists (λ ev, creates_id k ev = true) evs.
Proof.
  unfold run. revert s. induction evs as [|ev evs IH]; intros s; simpl; [by left|].
  intros Hk. apply IH in Hk as [Hk|Hk].
  - apply step_known in Hk as [?|?]; [by left|]. right. by apply Exists_cons_hd.
  - right. by apply Exists_cons_tl.
Qed.

(** ** C7 *)

(** C7, counterexample. A create broadcast carrying the id [-1] is stored
    under the key [-1] in both maps. *)
Lemma C7_sentinel_broadcast_is_inserted :
  let s := step opened (ServerCreate (IsArray [EntryObject (IdNumber (-1)) (IsVector3 origin)
                                                 (IsVector3 p340) 5%float])) in
  measurementsList opened !! (-1) = None
  ∧ plateObjects opened !! (-1) = None
  ∧ measurementsList s !! (-1) = Some 0%nat
  ∧ plateObjects s !! (-1) = Some 0%nat
  ∧ entity <$> stored measurementsList s (-1) = Some (-1, origin, p340, 5%float).
Proof. vm_compute. split_and!; reflexivity. Qed.

(** C7, as amended. A locally created measurement is sent with the
    placeholder id [-1] and the Registry is left as it is. The inbound
    handlers have no guard for [-1]: the key [-1] stays out of both maps
    along every run in which no create broadcast carries the id [-1]. *)
Theorem C7_sentinel_stays_out_unless_broadcast :
  (∀ s p sp,
     startPoint s = Some sp →
     sent (CompleteMeasurement p s)
     = sent s ++ [EditServer_ClientRequest_CreateMeasurementObject
                    (mkSendData (-1) sp p (Vector3.Distance sp p))]
     ∧ registry (CompleteMeasurement p s) = registry s)
  ∧ (∀ s evs,
       measurementsList s !! (-1) = None →
       plateObjects s !! (-1) = None →
       Forall (λ ev, creates_id (-1) ev = false) evs →
       measurementsList (run s evs) !! (-1) = None
       ∧ plateObjects (run s evs) !! (-1) = None).
Proof.
  split.
  - intros s p sp Hsp. split; [|auto with frame].
    unfold CompleteMeasurement, SendCreateNewMeasurementRequestToServer, SendData.
    rewrite Hsp. destruct s; simpl. destruct socketThrows0; reflexivity.
  - intros s evs Hm Hp Hevs.
    assert (¬ known (run s evs) (-1)) as Hnot.
    { intros Hk. apply run_known in Hk as [[Hk|Hk]|Hk].
      - rewrite Hm in Hk. by destruct Hk.
      - rewrite Hp in Hk. by destruct Hk.
      - apply Exists_exists in Hk as (ev & Hin & Hev).
        rewrite Forall_forall in Hevs. specialize (Hevs ev Hin). congruence. }
    unfold known in Hnot.
    split; apply eq_None_not_Some; intros ?; apply Hnot; auto.
Qed.

(** C7, witness: a drag is completed, and a session with a create, a move
    and a delete in which the server never sends [-1]. *)
Lemma C7_sentinel_stays_out_unless_broadcast_witness :
  (sent (CompleteMeasurement p340 dragging)
   = sent dragging ++ [EditServer_ClientRequest_CreateMeasurementObject
                         (mkSendData (-1) origin p340 (Vector3.Distance origin p340))]
   ∧ registry (CompleteMeasurement p340 dragging) = registry dragging)
  ∧ (let evs := [BeforeRender overEndOf3; PointerDown leftButton overEndOf3;
                 PointerUp leftButton overGround;
                 ServerUpdate (mkMeasurementJson 3 (IsVector3 origin) (IsVector3 p340) 5%float);
                 ServerCreate (IsArray [EntryObject (IdNumber 4)
                                          (IsVector3 origin) (IsVector3 east1) 1%float]);
                 ServerDelete 3] in
     measurementsList (run with3 evs) !! (-1) = None
     ∧ plateObjects (run with3 evs) !! (-1) = None).
Proof.
  split.
  - apply (proj1 C7_sentinel_stays_out_unless_broadcast dragging p340 origin). reflexivity.
  - apply (proj2 C7_sentinel_stays_out_unless_broadcast with3).
    + vm_compute. reflexivity.
    + vm_compute. reflexivity.
    + repeat constructor.
Defined.

(** ** C8 *)

(** C8, counterexample. The end point of measurement 3 is being moved, so
    its visuals are cleared. After X, measurement 3 is still in the Registry
    and still has no line, no label and no colliders; cancelling the move
    through [CancelMoveOperation] would have rebuilt them. *)
Lemma C8_x_does_not_restore_the_visuals :
  let s := step moving3 (KeyDown "x") in
  is_Some (stored plateObjects with3 3 ≫= MeasurementPlateObject.line)
  ∧ is_Some (stored plateObjects (CancelMoveOperation moving3) 3 ≫= MeasurementPlateObject.line)
  ∧ isMovingPoint s = false
  ∧ sent s = [EditServer_ClientRequest_DeleteMeasurementObject 3]
  ∧ ∃ o, stored plateObjects s 3 = Some o
         ∧ MeasurementPlateObject.line o = None
         ∧ MeasurementPlateObject.textMesh o = None
         ∧ MeasurementPlateObject.startPointCollider o = None
         ∧ MeasurementPlateObject.endPointCollider o = None.
Proof.
  vm_compute. split_and!; try reflexivity; try (eexists; reflexivity).
  eexists. split_and!; reflexivity.
Qed.

(** C8, as amended. While a point of the entity [selectedMeasurementId] is
    being moved, the X key discards the move preview, clears the moving flag
    and the whole move selection, sends exactly one delete request for that
    id, and leaves the mode as it is. It leaves the Registry and every plate
    object as they are: it rebuilds no visuals, unlike
    [CancelMoveOperation]. *)
Theorem C8_x_while_moving (s : State) (key : string) :
  key = "x" ∨ key = "X" →
  isMovingPoint s = true →
  selectedMeasurementId s ≠ -1 →
  let s' := onKeyDown key s in
  movePreviewLine s' = None
  ∧ movePreviewText s' = None
  ∧ isMovingPoint s' = false
  ∧ selectedPlateObject s' = None
  ∧ selectedPointType s' = None
  ∧ fixedPoint s' = None
  ∧ selectedMeasurementId s' = -1
  ∧ sent s' = sent s ++ [EditServer_ClientRequest_DeleteMeasurementObject
                           (selectedMeasurementId s)]
  ∧ currentActionState s' = currentActionState s
  ∧ heap s' = heap s
  ∧ measurementsList s' = measurementsList s
  ∧ plateObjects s' = plateObjects s.
Proof.
  intros Hkey Hmove Hsel s'. subst s'. unfold onKeyDown.
  rewrite (bool_decide_eq_false_2 (key = "Escape")) by (by destruct Hkey as [-> | ->]).
  assert (bool_decide (key = "x") || bool_decide (key = "X") = true) as ->.
  { destruct Hkey as [-> | ->]; reflexivity. }
  rewrite Hmove, (bool_decide_eq_true_2 _ Hsel). simpl.
  unfold DeleteMeasurement, SendDeleteMeasurementRequestToServer, SendData.
  destruct s; simpl in *.
  rewrite (bool_decide_eq_false_2 _ Hsel).
  destruct socketThrows0; simpl; split_and!; reflexivity.
Qed.

(** C8, witness: X while the end point of measurement 3 is being moved. *)
Lemma C8_x_while_moving_witness :
  let s' := onKeyDown "X" moving3 in
  movePreviewLine s' = None
  ∧ movePreviewText s' = None
  ∧ isMovingPoint s' = false
  ∧ selectedPlateObject s' = None
  ∧ selectedPointType s' = None
  ∧ fixedPoint s' = None
  ∧ selectedMeasurementId s' = -1
  ∧ sent s' = sent moving3 ++ [EditServer_ClientRequest_DeleteMeasurementObject
                                 (selectedMeasurementId moving3)]
  ∧ currentActionState s' = currentActionState moving3
  ∧ heap s' = heap moving3
  ∧ measurementsList s' = measurementsList moving3
  ∧ plateObjects s' = plateObjects moving3.
Proof.
  apply (C8_x_while_moving moving3 "X").
  - right. reflexivity.
  - reflexivity.
  - vm_compute. discriminate.
Defined.

(** ** C9 *)

(** C9, counterexample. Measurement 3 is hover-highlighted in mode [None].
    Entering the delete mode, by its button or by the X key, leaves it in
    the hover colour and leaves [hoveredMeasurementId] at 3. *)
Lemma C9_entering_delete_keeps_the_highlight :
  let s := step hovering3 DeleteButtonDown in
  currentActionState hovering3 = ActionStates.None
  ∧ hoveredMeasurementId hovering3 = 3
  ∧ currentActionState s = ActionStates.Remove
  ∧ hoveredMeasurementId s = 3
  ∧ (line_color <$> (stored plateObjects s 3 ≫= MeasurementPlateObject.line)) = Some colors_hover
  ∧ step hovering3 (KeyDown "x") = s.
Proof. vm_compute. split_and!; reflexivity. Qed.

(** C9, as amended. A transition that sets the mode to [Add] or to [None]
    while an entity is hovered gives the line and both endpoint colliders of
    that entity the default colour and resets [hoveredMeasurementId] to
    [-1]; no other plate object changes. A transition that sets the mode to
    [Remove] leaves the hovered id and every plate object as they are. *)
Theorem C9_hover_highlight_on_mode_change :
  (∀ s a,
     a ≠ ActionStates.Remove →
     hoveredMeasurementId s ≠ -1 →
     let s' := SetActionState a s in
     currentActionState s' = a
     ∧ hoveredMeasurementId s' = -1
     ∧ heap s' = match plateObjects s !! hoveredMeasurementId s with
                 | Some r => alter (MeasurementPlateObject.SetColor colors_default) r (heap s)
                 | None => heap s
                 end
     ∧ (∀ r o, plateObjects s !! hoveredMeasurementId s = Some r → heap s !! r = Some o →
          ∃ o', stored plateObjects s' (hoveredMeasurementId s) = Some o'
                ∧ o' = MeasurementPlateObject.SetColor colors_default o
                ∧ line_color <$> MeasurementPlateObject.line o'
                  = (λ _, colors_default) <$> MeasurementPlateObject.line o
                ∧ col_emissiveColor <$> MeasurementPlateObject.startPointCollider o'
                  = (λ _, colors_default) <$> MeasurementPlateObject.startPointCollider o
                ∧ col_emissiveColor <$> MeasurementPlateObject.endPointCollider o'
                  = (λ _, colors_default) <$> MeasurementPlateObject.endPointCollider o))
  ∧ (∀ s,
       let s' := SetActionState ActionStates.Remove s in
       currentActionState s' = ActionStates.Remove
       ∧ hoveredMeasurementId s' = hoveredMeasurementId s
       ∧ hoveredPointType s' = hoveredPointType s
       ∧ heap s' = heap s).
Proof.
  split.
  - intros s a Ha Hh s'.
    assert (currentActionState s' = a
            ∧ hoveredMeasurementId s' = -1
            ∧ heap s' = match plateObjects s !! hoveredMeasurementId s with
                        | Some r => alter (MeasurementPlateObject.SetColor colors_default) r (heap s)
                        | None => heap s
                        end
            ∧ plateObjects s' = plateObjects s) as (Hmode & Hid & Hheap & Hmap).
    { subst s'. destruct s. unfold SetActionState, UpdateActionButtonStates,
        SetMeasurementColor, modify_plate, log. simpl in *.
      destruct measurementCreateButton0, measurementDeleteButton0, a; simpl;
        try (by destruct Ha);
        rewrite ?(bool_decide_eq_true_2 _ Hh); simpl;
        destruct (plateObjects0 !! hoveredMeasurementId0); simpl; done. }
    split_and!; try done.
    intros r o Hr Ho. unfold stored. rewrite Hmap, Hr, Hheap, Hr. simpl.
    rewrite list_lookup_alter_eq, Ho. simpl.
    eexists. split_and!; try reflexivity.
    + destruct o as [? ? ? ? [l|] ? ? ?]; reflexivity.
    + destruct o as [? ? ? ? ? ? [c|] ?]; reflexivity.
    + destruct o as [? ? ? ? ? ? ? [c|]]; reflexivity.
  - intros s s'. subst s'. destruct s. unfold SetActionState, UpdateActionButtonStates, log.
    simpl. destruct measurementCreateButton0, measurementDeleteButton0; simpl; done.
Qed.

(** C9, witness: the create button is pressed while measurement 3 is
    hover-highlighted. *)
Lemma C9_hover_highlight_on_mode_change_witness :
  let s' := SetActionState ActionStates.Add hovering3 in
  currentActionState s' = ActionStates.Add
  ∧ hoveredMeasurementId s' = -1
  ∧ heap s' = match plateObjects hovering3 !! hoveredMeasurementId hovering3 with
              | Some r => alter (MeasurementPlateObject.SetColor colors_default) r (heap hovering3)
              | None => heap hovering3
              end
  ∧ (∀ r o, plateObjects hovering3 !! hoveredMeasurementId hovering3 = Some r →
       heap hovering3 !! r = Some o →
       ∃ o', stored plateObjects s' (hoveredMeasurementId hovering3) = Some o'
             ∧ o' = MeasurementPlateObject.SetColor colors_default o
             ∧ line_color <$> MeasurementPlateObject.line o'
               = (λ _, colors_default) <$> MeasurementPlateObject.line o
             ∧ col_emissiveColor <$> MeasurementPlateObject.startPointCollider o'
               = (λ _, colors_default) <$> MeasurementPlateObject.startPointCollider o
             ∧ col_emissiveColor <$> MeasurementPlateObject.endPointCollider o'
               = (λ _, colors_default) <$> MeasurementPlateObject.endPointCollider o).
Proof.
  apply (proj1 C9_hover_highlight_on_mode_change hovering3 ActionStates.Add).
  - discriminate.
  - vm_compute. discriminate.
Defined.

(** ** C10 *)

Lemma TryAddMeasurementObject_instance d s :
  instance (TryAddMeasurementObject d s) = instance s.
Proof.
  unfold TryAddMeasurementObject. destruct s; simpl. repeat case_match; reflexivity.
Qed.

Lemma TryAddMeasurementObject_keeps d s k :
  is_Some (measurementsList s !! k) →
  is_Some (measurementsList (TryAddMeasurementObject d s) !! k).
Proof.
  destruct (TryAddMeasurementObject_cases d s)
    as [(Hreg & _)|(? & ? & _ & _ & _ & _ & Hm & _)].
  - apply shape_of_registry in Hreg. unfold shape in Hreg. by injection Hreg as -> _ _.
  - rewrite Hm. intros Hk. rewrite lookup_insert. by case_decide.
Qed.

Lemma TryAddMeasurementObject_inserts d s :
  instance s = true →
  is_Some (decodePoint (json_startPoint d)) → is_Some (decodePoint (json_endPoint d)) →
  is_Some (measurementsList (TryAddMeasurementObject d s) !! measurement_instance_id d).
Proof.
  intros Hi [p1 Hp1] [p2 Hp2].
  destruct (TryAddMeasurementObject_cases d s)
    as [(Hreg & _ & _ & [?|[?|[?|?]]])|(? & ? & _ & _ & _ & _ & Hm & _)]; try congruence.
  - apply shape_of_registry in Hreg. unfold shape in Hreg. by injection Hreg as -> _ _.
  - rewrite Hm, lookup_insert_eq. eauto.
Qed.

Lemma process_entry_instance s e : instance (process_entry s e) = instance s.
Proof.
  unfold process_entry. destruct (valid_entry e).
  - apply TryAddMeasurementObject_instance.
  - by destruct s.
Qed.

Lemma process_entry_keeps s e k :
  is_Some (measurementsList s !! k) → is_Some (measurementsList (process_entry s e) !! k).
Proof.
  unfold process_entry. destruct (valid_entry e).
  - apply TryAddMeasurementObject_keeps.
  - by destruct s.
Qed.

Lemma foldl_process_entry_keeps entries s k :
  is_Some (measurementsList s !! k) →
  is_Some (measurementsList (foldl process_entry s entries) !! k).
Proof.
  revert s. induction entries as [|e es IH]; intros s Hk; simpl; [done|].
  by apply IH, process_entry_keeps.
Qed.

Lemma foldl_process_entry_inserts entries s n sp ep d :
  instance s = true → n ≠ 0 →
  EntryObject (IdNumber n) sp ep d ∈ entries →
  is_Some (decodePoint sp) → is_Some (decodePoint ep) →
  is_Some (measurementsList (foldl process_entry s entries) !! n).
Proof.
  intros Hi Hn Hin Hsp Hep. revert s Hi Hin.
  induction entries as [|e es IH]; intros s Hi Hin; simpl.
  - by apply elem_of_nil in Hin.
  - apply elem_of_cons in Hin as [<-|Hin].
    + apply foldl_process_entry_keeps. unfold process_entry. simpl.
      rewrite (bool_decide_eq_true_2 _ Hn).
      by apply (TryAddMeasurementObject_inserts (mkMeasurementJson n sp ep d)).
    + apply IH; [|done]. by rewrite process_entry_instance.
Qed.

(** C10. A create argument that is not an array is refused with an error
    line and the Registry stays as it is. In an array, an entry that is
    [undefined] or [null], or whose id is missing, [null] or [0], gets a
    warning and changes nothing else; an entry with any other id, [-1]
    included, is handed to [TryAddMeasurementObject]. So after the batch
    every new key is a nonzero id of an entry, and every nonzero id whose
    entry has points that can be decoded is a key. *)
Theorem C10_create_batch_validation :
  (∀ s,
     ReceiveCreateNewMeasurementRequestFromServer NotAnArray s
     = error InvalidMeasurementDataFormat s
     ∧ registry (ReceiveCreateNewMeasurementRequestFromServer NotAnArray s) = registry s)
  ∧ (∀ s entries,
       ReceiveCreateNewMeasurementRequestFromServer (IsArray entries) s
       = foldl process_entry (log (ReceivedMeasurements (length entries)) s) entries)
  ∧ (∀ s e,
       entry_id e = None ∨ entry_id e = Some 0 →
       process_entry s e = warn InvalidMeasurementDataEntry s
       ∧ registry (process_entry s e) = registry s)
  ∧ (∀ s n sp ep d,
       n ≠ 0 →
       process_entry s (EntryObject (IdNumber n) sp ep d)
       = TryAddMeasurementObject (mkMeasurementJson n sp ep d) s)
  ∧ (∀ s entries k,
       known (ReceiveCreateNewMeasurementRequestFromServer (IsArray entries) s) k →
       known s k ∨ (k ≠ 0 ∧ Some k ∈ entry_id <$> entries))
  ∧ (∀ s entries n sp ep d,
       instance s = true → n ≠ 0 →
       EntryObject (IdNumber n) sp ep d ∈ entries →
       is_Some (decodePoint sp) → is_Some (decodePoint ep) →
       is_Some (measurementsList
                  (ReceiveCreateNewMeasurementRequestFromServer (IsArray entries) s) !! n)).
Proof.
  split_and!.
  - intros s. split; [reflexivity|]. simpl. frame_solve.
  - reflexivity.
  - intros s e He.
    assert (valid_entry e = None) as Hv.
    { destruct e as [|[| |n] sp ep d]; simpl in *; try done.
      destruct He as [[=]|[= ->]]. done. }
    unfold process_entry. rewrite Hv. split; [reflexivity|frame_solve].
  - intros s n sp ep d Hn. unfold process_entry. simpl.
    by rewrite (bool_decide_eq_true_2 _ Hn).
  - intros s entries k Hk. simpl in Hk.
    apply foldl_process_entry_known in Hk as [Hk|?]; [|by right].
    left. revert Hk. apply known_shape. frame_solve.
  - intros s entries n sp ep d Hi Hn Hin Hsp Hep. simpl.
    apply (foldl_process_entry_inserts entries _ n sp ep d); try done. by destruct s.
Qed.

(** On [mixed_batch] only the ids [-1] and [5] are stored, and the three
    refused entries give three warnings. *)
Example mixed_batch_result :
  let s := ReceiveCreateNewMeasurementRequestFromServer (IsArray mixed_batch) opened in
  map_to_list (measurementsList s) = [(-1, 0%nat); (5, 1%nat)]
  ∧ console s = [(LLog, ReceivedMeasurements 5);
                 (LWarn, InvalidMeasurementDataEntry);
                 (LWarn, InvalidMeasurementDataEntry);
                 (LWarn, InvalidMeasurementDataEntry)].
Proof. vm_compute. split; reflexivity. Qed.

(** C10, witness, on [mixed_batch]. *)
Lemma C10_create_batch_validation_witness :
  (process_entry opened (EntryObject (IdNumber 0) (IsVector3 origin) (IsVector3 east1) 1%float)
   = warn InvalidMeasurementDataEntry opened
   ∧ registry (process_entry opened
                 (EntryObject (IdNumber 0) (IsVector3 origin) (IsVector3 east1) 1%float))
     = registry opened)
  ∧ process_entry opened
      (EntryObject (IdNumber (-1)) (IsVector3 origin) (IsVector3 east1) 1%float)
    = TryAddMeasurementObject
        (mkMeasurementJson (-1) (IsVector3 origin) (IsVector3 east1) 1%float) opened
  ∧ (known opened (-1) ∨ (-1 ≠ 0 ∧ Some (-1) ∈ entry_id <$> mixed_batch))
  ∧ is_Some (measurementsList
               (ReceiveCreateNewMeasurementRequestFromServer (IsArray mixed_batch) opened)
             !! (-1)).
Proof.
  destruct C10_create_batch_validation as (_ & _ & Hbad & Hgood & Hkeys & Hin).
  split_and!.
  - apply (Hbad opened). right. reflexivity.
  - apply (Hbad opened). right. reflexivity.
  - apply (Hgood opened). discriminate.
  - apply (Hkeys opened mixed_batch (-1)). left. vm_compute. eexists. reflexivity.
  - apply (Hin opened mixed_batch (-1) (IsVector3 origin) (IsVector3 east1) 1%float).
    + reflexivity.
    + discriminate.
    + unfold mixed_batch. do 3 apply list_elem_of_further. apply list_elem_of_here.
    + eexists. reflexivity.
    + eexists. reflexivity.
Defined.

(** * Further properties *)

(** ** Keeping a property along a handler *)

Create HintDb keep discriminated.

(** [P] holds after the statements of a handler if it held before: the
    statements are peeled off from the last one back to the first; [field]
    deals with a statement for which no lemma is known. *)
Ltac keep_step P field :=
  match goal with
  | H : ?Q ?t |- ?Q ?t => constr_eq Q P; exact H
  | |- ?Q (if ?b then _ else _) => constr_eq Q P; destruct b
  | |- ?Q (match ?x with _ => _ end) => constr_eq Q P; destruct x
  | |- ?Q ((match ?x with _ => _ end) _) => constr_eq Q P; destruct x; cbv beta
  | |- ?Q (?f ?t) =>
      constr_eq Q P; first [ cut (P t); [ solve [ auto 2 with keep ] | ] | field ]
  end.

(** ** The Registry and its visuals stay consistent *)

Ltac visuals_tac :=
  let Hok := fresh "Hok" in
  intros Hok;
  match goal with o : MeasurementPlateObject.t |- _ =>
    destruct o as [? ? ? ? [[]|] [?|] [[]|] [[]|]] end;
  destruct Hok as (Hl & Ht & Hs & He); unfold visuals_ok in *; simpl in *;
  repeat match goal with
         | H : ∀ x, Some ?a = Some x → _ |- _ => specialize (H a eq_refl)
         | H : ∀ x, None = Some x → _ |- _ => clear H
         end;
  simpl in *; split_and!; intros ? [= <-]; simpl; intuition.

Lemma visuals_ok_SetColor r c o :
  visuals_ok r o → visuals_ok r (MeasurementPlateObject.SetColor c o).
Proof. visuals_tac. Qed.

Lemma visuals_ok_SetPointColor r pt c o :
  visuals_ok r o → visuals_ok r (MeasurementPlateObject.SetPointColor pt c o).
Proof. destruct pt; visuals_tac. Qed.

Lemma visuals_ok_SetRenderingGroup r g o :
  visuals_ok r o → visuals_ok r (MeasurementPlateObject.SetRenderingGroup g o).
Proof. visuals_tac. Qed.

Lemma visuals_ok_set_line_color_only r c o :
  visuals_ok r o → visuals_ok r (MeasurementPlateObject.set_line_color_only c o).
Proof. visuals_tac. Qed.

Lemma visuals_ok_ClearGUI r o : visuals_ok r (MeasurementPlateObject.ClearGUI o).
Proof. unfold visuals_ok. simpl. split_and!; intros ? [=]. Qed.

Lemma visuals_ok_constructor r k p q d :
  visuals_ok r (MeasurementPlateObject.constructor k p q d).
Proof. unfold visuals_ok. simpl. split_and!; intros ? [=]. Qed.

(** [InitPlate] on a plate whose line and label, if it has any on show,
    follow its data: they are replaced or left alone. *)
Lemma visuals_ok_InitPlate b r o :
  visuals_ok r o → visuals_ok r (MeasurementPlateObject.InitPlate b r o).
Proof.
  intros (Hl & Ht & _ & _). unfold visuals_ok. plate_cases;
    (split_and!; first [ assumption | intros ? [= <-]; intros; done ]).
Qed.

(** [UpdateMeasurement] on any plate: its old line and label are replaced
    or disposed. *)
Lemma visuals_ok_update b r k p q d o :
  MeasurementPlateObject.measurement_instance_id o = k →
  visuals_ok r (MeasurementPlateObject.set_collider_ids k
                  (MeasurementPlateObject.UpdateMeasurement b r p q
                     (MeasurementPlateObject.set_data p q d o))).
Proof.
  intros <-. unfold visuals_ok. plate_cases;
    (split_and!; intros ? Heq; try (injection Heq as <-); intros; try done).
  - destruct (MeasurementPlateObject.line o); simpl in *; by simplify_eq.
  - destruct (MeasurementPlateObject.textMesh o); simpl in *; by simplify_eq.
Qed.

Lemma consistent_core s s' : core s' = core s → consistent s → consistent s'.
Proof. unfold core, consistent, wf, keys_are_ids. intros [= -> -> ->]. done. Qed.

Lemma consistent_modify r f s :
  (∀ o, heap s !! r = Some o → visuals_ok r o →
        MeasurementPlateObject.measurement_instance_id (f o)
        = MeasurementPlateObject.measurement_instance_id o
        ∧ visuals_ok r (f o)) →
  consistent s → consistent (modify_plate r f s).
Proof.
  intros Hf (Hwf & [Hm Hp] & Hv).
  assert (∀ r', MeasurementPlateObject.measurement_instance_id <$> alter f r (heap s) !! r'
                = MeasurementPlateObject.measurement_instance_id <$> heap s !! r') as Hid.
  { intros r'. destruct (decide (r = r')) as [<-|Hne].
    - rewrite list_lookup_alter_eq. destruct (heap s !! r) as [o|] eqn:Ho; [|done].
      simpl. f_equal. by apply Hf; [|apply Hv].
    - by rewrite list_lookup_alter_ne. }
  unfold consistent, keys_are_ids. split_and!.
  - revert Hwf. apply wf_shape, modify_plate_shape.
  - destruct s; simpl in *. intros k r' Hk. rewrite Hid. by apply Hm.
  - destruct s; simpl in *. intros k r' Hk. rewrite Hid. by apply Hp.
  - destruct s; simpl in *. intros r' o'. destruct (decide (r = r')) as [<-|Hne].
    + rewrite list_lookup_alter_eq. destruct (heap0 !! r) as [o|] eqn:Ho; [|done].
      intros [= <-]. by apply Hf; [|apply Hv].
    + rewrite list_lookup_alter_ne by done. apply Hv.
Qed.

Lemma modify_plate_compose r f g s :
  modify_plate r g (modify_plate r f s) = modify_plate r (g ∘ f) s.
Proof. destruct s. unfold modify_plate. simpl. by rewrite list_alter_alter_eq. Qed.

(** A statement that changes neither map nor the heap, or that is a call of
    one of the visual methods of a plate. *)
Ltac consistent_field :=
  first
    [ apply consistent_modify;
      [ let o := fresh "o" in
        let Hvis := fresh "Hvis" in
        intros o _ Hvis; split;
        [ destruct o;
          unfold MeasurementPlateObject.SetPointColor, MeasurementPlateObject.InitPlate,
            MeasurementPlateObject.CreatePlate; cbn;
          repeat case_match; reflexivity
        | first [ by apply visuals_ok_SetColor | by apply visuals_ok_SetPointColor
                | by apply visuals_ok_SetRenderingGroup
                | by apply visuals_ok_set_line_color_only
                | apply visuals_ok_ClearGUI | by apply visuals_ok_InitPlate ] ]
      | ]
    | match goal with
      | |- consistent (?f ?t) =>
          apply (consistent_core t);
          [ generalize t; intros []; unfold core, log, warn, error, SendData; cbn;
            repeat case_match; reflexivity | ]
      end ].

Ltac consistent_solve :=
  intros; cbv zeta; repeat keep_step consistent consistent_field.

Lemma SetMeasurementColor_consistent id c s :
  consistent s → consistent (SetMeasurementColor id c s).
Proof. unfold SetMeasurementColor. consistent_solve. Qed.
#[export] Hint Resolve SetMeasurementColor_consistent : keep.

Lemma UpdateActionButtonStates_consistent a s :
  consistent s → consistent (UpdateActionButtonStates a s).
Proof. unfold UpdateActionButtonStates. consistent_solve. Qed.
#[export] Hint Resolve UpdateActionButtonStates_consistent : keep.

Lemma SetActionState_consistent a s : consistent s → consistent (SetActionState a s).
Proof. unfold SetActionState. consistent_solve. Qed.
#[export] Hint Resolve SetActionState_consistent : keep.

Lemma ToggleDeleteMode_consistent s : consistent s → consistent (ToggleDeleteMode s).
Proof. unfold ToggleDeleteMode. consistent_solve. Qed.
#[export] Hint Resolve ToggleDeleteMode_consistent : keep.

Lemma DeleteMeasurement_consistent id s : consistent s → consistent (DeleteMeasurement id s).
Proof. unfold DeleteMeasurement, SendDeleteMeasurementRequestToServer. consistent_solve. Qed.
#[export] Hint Resolve DeleteMeasurement_consistent : keep.

Lemma ClearMovePreview_consistent s : consistent s → consistent (ClearMovePreview s).
Proof. unfold ClearMovePreview. consistent_solve. Qed.
#[export] Hint Resolve ClearMovePreview_consistent : keep.

Lemma DisableMeasuring_consistent s : consistent s → consistent (DisableMeasuring s).
Proof. unfold DisableMeasuring. consistent_solve. Qed.
#[export] Hint Resolve DisableMeasuring_consistent : keep.

Lemma EnableMeasuring_consistent s : consistent s → consistent (EnableMeasuring s).
Proof. unfold EnableMeasuring. consistent_solve. Qed.
#[export] Hint Resolve EnableMeasuring_consistent : keep.

Lemma onKeyDown_consistent key s : consistent s → consistent (onKeyDown key s).
Proof. unfold onKeyDown. consistent_solve. Qed.
#[export] Hint Resolve onKeyDown_consistent : keep.

Lemma StartMovingPoint_consistent r pt id s : consistent s → consistent (StartMovingPoint r pt id s).
Proof. unfold StartMovingPoint. consistent_solve. Qed.
#[export] Hint Resolve StartMovingPoint_consistent : keep.

Lemma UpdateMovePreview_consistent p s : consistent s → consistent (UpdateMovePreview p s).
Proof. unfold UpdateMovePreview. consistent_solve. Qed.
#[export] Hint Resolve UpdateMovePreview_consistent : keep.

Lemma CancelMoveOperation_consistent s : consistent s → consistent (CancelMoveOperation s).
Proof. unfold CancelMoveOperation. consistent_solve. Qed.
#[export] Hint Resolve CancelMoveOperation_consistent : keep.

Lemma CancelMeasurementCreation_consistent s : consistent s → consistent (CancelMeasurementCreation s).
Proof. unfold CancelMeasurementCreation. consistent_solve. Qed.
#[export] Hint Resolve CancelMeasurementCreation_consistent : keep.

Lemma StartNewMeasurement_consistent p s : consistent s → consistent (StartNewMeasurement p s).
Proof. unfold StartNewMeasurement. consistent_solve. Qed.
#[export] Hint Resolve StartNewMeasurement_consistent : keep.

Lemma CompleteMeasurement_consistent p s : consistent s → consistent (CompleteMeasurement p s).
Proof. unfold CompleteMeasurement, SendCreateNewMeasurementRequestToServer. consistent_solve. Qed.
#[export] Hint Resolve CompleteMeasurement_consistent : keep.

Lemma UpdateMeasuringDisplay_consistent p s : consistent s → consistent (UpdateMeasuringDisplay p s).
Proof. unfold UpdateMeasuringDisplay. consistent_solve. Qed.
#[export] Hint Resolve UpdateMeasuringDisplay_consistent : keep.

Lemma HandlePointerDown_consistent e pick s : consistent s → consistent (HandlePointerDown e pick s).
Proof. unfold HandlePointerDown. consistent_solve. Qed.
#[export] Hint Resolve HandlePointerDown_consistent : keep.

Lemma hover_in_delete_mode_consistent pick s : consistent s → consistent (hover_in_delete_mode pick s).
Proof. unfold hover_in_delete_mode. consistent_solve. Qed.
#[export] Hint Resolve hover_in_delete_mode_consistent : keep.

Lemma hover_endpoint_consistent pick s : consistent s → consistent (hover_endpoint pick s).
Proof. unfold hover_endpoint. consistent_solve. Qed.
#[export] Hint Resolve hover_endpoint_consistent : keep.

Lemma HandlePointerMove_consistent pick s : consistent s → consistent (HandlePointerMove pick s).
Proof. unfold HandlePointerMove. consistent_solve. Qed.
#[export] Hint Resolve HandlePointerMove_consistent : keep.

(** The three assignments both update paths make, on the entry of
    [measurementsList] and on the entry of [plateObjects]. *)
Lemma consistent_update bl s k a b d rp rm :
  consistent s →
  plateObjects s !! k = Some rp → measurementsList s !! k = Some rm →
  consistent
    (modify_plate rp (MeasurementPlateObject.set_collider_ids k)
       (modify_plate rp (MeasurementPlateObject.UpdateMeasurement bl rp a b)
          (modify_plate rm (MeasurementPlateObject.set_data a b d) s))).
Proof.
  intros Hc Hp Hm.
  assert (rm = rp) as -> by (destruct Hc as ((_ & _ & Halias) & _); eauto).
  rewrite !modify_plate_compose. apply consistent_modify; [|done].
  intros o Ho _. destruct Hc as (_ & [_ Hids] & _).
  specialize (Hids k rp Hp). rewrite Ho in Hids. injection Hids as Hid.
  split; [destruct o; plate_cases; reflexivity|]. by apply visuals_ok_update.
Qed.

Lemma UpdateExistingMeasurement_consistent id a b s :
  consistent s → consistent (UpdateExistingMeasurement id a b s).
Proof.
  intros Hc. unfold UpdateExistingMeasurement, SendUpdateMeasurementRequestToServer.
  destruct (plateObjects s !! id) as [rp|] eqn:Hp;
    [destruct (measurementsList s !! id) as [rm|] eqn:Hm|].
  - pose proof (consistent_update (dashedLines s) s id a b (Vector3.Distance a b) rp rm
                  Hc Hp Hm) as Hu.
    consistent_solve.
  - consistent_solve.
  - consistent_solve.
Qed.
#[export] Hint Resolve UpdateExistingMeasurement_consistent : keep.

Lemma CompleteMove_consistent p s : consistent s → consistent (CompleteMove p s).
Proof. unfold CompleteMove. consistent_solve. Qed.
#[export] Hint Resolve CompleteMove_consistent : keep.

Lemma HandlePointerUp_consistent e pick s : consistent s → consistent (HandlePointerUp e pick s).
Proof. unfold HandlePointerUp. consistent_solve. Qed.
#[export] Hint Resolve HandlePointerUp_consistent : keep.

Lemma ReceiveUpdate_consistent d s :
  consistent s → consistent (state_of (ReceiveUpdateMeasurementRequestFromServer d s)).
Proof.
  intros Hc. unfold ReceiveUpdateMeasurementRequestFromServer.
  destruct (plateObjects s !! measurement_instance_id d) as [rp|] eqn:Hp;
    [destruct (measurementsList s !! measurement_instance_id d) as [rm|] eqn:Hm|].
  - destruct (decodePoint (json_startPoint d)) as [a|]; [|done].
    destruct (decodePoint (json_endPoint d)) as [b|]; [|done].
    pose proof (consistent_update (dashedLines s) s _ a b (distanceMeasured d) rp rm
                  Hc Hp Hm) as Hu.
    unfold state_of. consistent_solve.
  - unfold state_of. consistent_solve.
  - unfold state_of. consistent_solve.
Qed.

Lemma TryAddMeasurementObject_consistent d s :
  consistent s → consistent (TryAddMeasurementObject d s).
Proof.
  intros Hc. pose proof (wf_TryAddMeasurementObject d s (proj1 Hc)) as Hwf.
  destruct (TryAddMeasurementObject_cases d s)
    as [(Hreg & _ & Hheap & _)|(p1 & p2 & _ & _ & _ & _ & Hm & Hp & Hh & _)].
  - destruct Hc as (Hwf0 & [Hkm Hkp] & Hv).
    unfold registry in Hreg. injection Hreg as Hm Hp _.
    unfold consistent, keys_are_ids. rewrite Hm, Hp, Hheap. done.
  - destruct Hc as (Hwf0 & [Hkm Hkp] & Hv). destruct Hwf0 as (Hb1 & Hb2 & _).
    unfold consistent, keys_are_ids. rewrite Hm, Hp, Hh. split_and!; [done| | |].
    + intros k r Hk. apply lookup_insert_Some in Hk as [[<- <-]|[_ Hk]].
      * rewrite list_lookup_middle by done. plate_cases; reflexivity.
      * rewrite lookup_app_l by eauto. by apply Hkm.
    + intros k r Hk. apply lookup_insert_Some in Hk as [[<- <-]|[_ Hk]].
      * rewrite list_lookup_middle by done. plate_cases; reflexivity.
      * rewrite lookup_app_l by eauto. by apply Hkp.
    + intros r o Ho. apply lookup_app_Some in Ho as [Ho|[Hge Ho]]; [by apply Hv|].
      apply list_lookup_singleton_Some in Ho as [Hr <-].
      assert (r = length (heap s)) as -> by lia.
      apply visuals_ok_InitPlate, visuals_ok_constructor.
Qed.
#[export] Hint Resolve TryAddMeasurementObject_consistent : keep.

Lemma process_entry_consistent s e : consistent s → consistent (process_entry s e).
Proof. unfold process_entry. consistent_solve. Qed.

Lemma ReceiveCreate_consistent a s :
  consistent s → consistent (ReceiveCreateNewMeasurementRequestFromServer a s).
Proof.
  intros Hc. destruct a as [|entries]; simpl; [consistent_solve|].
  assert (consistent (log (ReceivedMeasurements (length entries)) s)) as Hlog
    by consistent_solve.
  revert Hlog. generalize (log (ReceivedMeasurements (length entries)) s).
  induction entries as [|e es IH]; intros t Ht; simpl; [done|].
  by apply IH, process_entry_consistent.
Qed.

Lemma consistent_delete id t :
  consistent t →
  consistent ((λ s, set_measurementsList (delete id (measurementsList s)) s)
                ((λ s, set_plateObjects (delete id (plateObjects s)) s) t)).
Proof.
  intros ((H1 & H2 & H3) & [Hkm Hkp] & Hv). destruct t; simpl in *.
  unfold consistent, wf, keys_are_ids; simpl.
  split_and!; intros *; rewrite ?lookup_delete_Some; intros; destruct_and?; eauto.
Qed.

Lemma ReceiveDelete_consistent id s :
  consistent s → consistent (ReceiveDeleteMeasurementRequestFromServer id s).
Proof.
  intros Hc. unfold ReceiveDeleteMeasurementRequestFromServer.
  destruct (plateObjects s !! id) as [r|] eqn:Hr; [|consistent_solve].
  assert (consistent
            ((λ s, set_measurementsList (delete id (measurementsList s)) s)
               ((λ s, set_plateObjects (delete id (plateObjects s)) s)
                  (modify_plate r MeasurementPlateObject.ClearGUI s)))) as Hdel.
  { apply consistent_delete. consistent_solve. }
  consistent_solve.
Qed.

Lemma ClearMeasurementData_consistent s : consistent s → consistent (ClearMeasurementData s).
Proof.
  intros ((H1 & H2 & H3) & [Hkm Hkp] & Hv). destruct s; simpl in *.
  unfold consistent, wf, keys_are_ids; simpl.
  split_and!; intros *; rewrite ?lookup_empty; intros; simplify_eq; eauto.
Qed.

Lemma clear_all_consistent (rs : list Ref) t :
  consistent t →
  consistent (set_heap (foldl (λ h r, alter MeasurementPlateObject.ClearGUI r h) (heap t) rs) t).
Proof.
  revert t. induction rs as [|r rs IH]; intros t Ht; simpl.
  - by destruct t.
  - assert (consistent (modify_plate r MeasurementPlateObject.ClearGUI t)) as Hr
      by consistent_solve.
    apply IH in Hr. by destruct t.
Qed.

Lemma ClearGUIObjects_consistent s : consistent s → consistent (ClearGUIObjects s).
Proof.
  intros Hc. unfold ClearGUIObjects.
  pose proof (clear_all_consistent ((map_to_list (plateObjects s)).*2) s Hc) as Hh.
  revert Hh. generalize (foldl (λ h r, alter MeasurementPlateObject.ClearGUI r h) (heap s)
                           ((map_to_list (plateObjects s)).*2)).
  intros h ((H1 & H2 & H3) & [Hkm Hkp] & Hv). destruct s; simpl in *.
  unfold consistent, wf, keys_are_ids; simpl.
  split_and!; intros *; rewrite ?lookup_empty; intros; simplify_eq; eauto.
Qed.

Lemma iter_keep (P : State → Prop) (f : State → State) n s :
  (∀ t, P t → P (f t)) → P s → P (Nat.iter n f s).
Proof. intros Hf Hs. induction n as [|n IH]; simpl; auto. Qed.

Lemma step_consistent s ev : consistent s → consistent (step s ev).
Proof.
  intros Hc. destruct ev; simpl; try (consistent_solve; fail).
  - apply iter_keep; [|done]. intros t. apply onKeyDown_consistent.
  - by apply ReceiveCreate_consistent.
  - by apply ReceiveUpdate_consistent.
  - by apply ReceiveDelete_consistent.
  - by apply ClearMeasurementData_consistent.
  - by apply ClearGUIObjects_consistent.
Qed.



Lemma consistent_constructor : consistent constructor.
Proof.
  split; [apply wf_constructor|]. unfold keys_are_ids, constructor; simpl.
  split_and!; intros *; rewrite ?lookup_empty; intros; simplify_eq.
Qed.


(** ** X1, X2: integrity of the Registry and of its visuals *)

Lemma consistent_Init c d : consistent (Init c d constructor).
Proof. apply (consistent_core constructor); [reflexivity|apply consistent_constructor]. Qed.


(** The controller after [Init], with any engine. *)
Lemma consistent_Init_engine c d b : consistent (Init c d (set_dashedLines b constructor)).
Proof. apply (consistent_core constructor); [reflexivity|apply consistent_constructor]. Qed.



(** ** What a handler leaves alone, field by field *)

Create HintDb quiet discriminated.

Ltac view_field :=
  match goal with
  | |- ?V (_ ?t) = ?V ?t =>
      generalize t; intros []; unfold modify_plate, log, warn, error, SendData; cbn;
      repeat case_match; reflexivity
  end.

Ltac view_step :=
  match goal with
  | |- ?V ?s = ?V ?s => reflexivity
  | |- _ (if ?b then _ else _) = _ => destruct b
  | |- _ (match ?x with _ => _ end) = _ => destruct x
  | |- _ ((match ?x with _ => _ end) _) = _ => destruct x; cbv beta
  | |- ?V (?f ?t) = ?V ?s =>
      transitivity (V t); [ first [ solve [ auto with quiet ] | view_field ] | ]
  end.

Ltac view_solve := intros; cbv zeta; repeat view_step.

Lemma SetMeasurementColor_sent id c s : sent (SetMeasurementColor id c s) = sent s.
Proof. unfold SetMeasurementColor. view_solve. Qed.
#[export] Hint Resolve SetMeasurementColor_sent : quiet.

Lemma UpdateActionButtonStates_sent a s : sent (UpdateActionButtonStates a s) = sent s.
Proof. unfold UpdateActionButtonStates. view_solve. Qed.
#[export] Hint Resolve UpdateActionButtonStates_sent : quiet.

Lemma SetActionState_sent a s : sent (SetActionState a s) = sent s.
Proof. unfold SetActionState. view_solve. Qed.
#[export] Hint Resolve SetActionState_sent : quiet.

Lemma ToggleDeleteMode_sent s : sent (ToggleDeleteMode s) = sent s.
Proof. unfold ToggleDeleteMode. view_solve. Qed.
#[export] Hint Resolve ToggleDeleteMode_sent : quiet.

Lemma ClearMovePreview_sent s : sent (ClearMovePreview s) = sent s.
Proof. unfold ClearMovePreview. view_solve. Qed.
#[export] Hint Resolve ClearMovePreview_sent : quiet.

Lemma DisableMeasuring_sent s : sent (DisableMeasuring s) = sent s.
Proof. unfold DisableMeasuring. view_solve. Qed.
#[export] Hint Resolve DisableMeasuring_sent : quiet.

Lemma EnableMeasuring_sent s : sent (EnableMeasuring s) = sent s.
Proof. unfold EnableMeasuring. view_solve. Qed.
#[export] Hint Resolve EnableMeasuring_sent : quiet.

Lemma StartMovingPoint_sent r pt id s : sent (StartMovingPoint r pt id s) = sent s.
Proof. unfold StartMovingPoint. view_solve. Qed.
#[export] Hint Resolve StartMovingPoint_sent : quiet.

Lemma UpdateMovePreview_sent p s : sent (UpdateMovePreview p s) = sent s.
Proof. unfold UpdateMovePreview. view_solve. Qed.
#[export] Hint Resolve UpdateMovePreview_sent : quiet.

Lemma CancelMoveOperation_sent s : sent (CancelMoveOperation s) = sent s.
Proof. unfold CancelMoveOperation. view_solve. Qed.
#[export] Hint Resolve CancelMoveOperation_sent : quiet.

Lemma CancelMeasurementCreation_sent s : sent (CancelMeasurementCreation s) = sent s.
Proof. unfold CancelMeasurementCreation. view_solve. Qed.
#[export] Hint Resolve CancelMeasurementCreation_sent : quiet.

Lemma StartNewMeasurement_sent p s : sent (StartNewMeasurement p s) = sent s.
Proof. unfold StartNewMeasurement. view_solve. Qed.
#[export] Hint Resolve StartNewMeasurement_sent : quiet.

Lemma UpdateMeasuringDisplay_sent p s : sent (UpdateMeasuringDisplay p s) = sent s.
Proof. unfold UpdateMeasuringDisplay. view_solve. Qed.
#[export] Hint Resolve UpdateMeasuringDisplay_sent : quiet.

Lemma hover_in_delete_mode_sent pick s : sent (hover_in_delete_mode pick s) = sent s.
Proof. unfold hover_in_delete_mode. view_solve. Qed.
#[export] Hint Resolve hover_in_delete_mode_sent : quiet.

Lemma hover_endpoint_sent pick s : sent (hover_endpoint pick s) = sent s.
Proof. unfold hover_endpoint. view_solve. Qed.
#[export] Hint Resolve hover_endpoint_sent : quiet.

Lemma HandlePointerMove_sent pick s : sent (HandlePointerMove pick s) = sent s.
Proof. unfold HandlePointerMove. view_solve. Qed.
#[export] Hint Resolve HandlePointerMove_sent : quiet.

Lemma ClearMeasurementData_sent s : sent (ClearMeasurementData s) = sent s.
Proof. unfold ClearMeasurementData. view_solve. Qed.
#[export] Hint Resolve ClearMeasurementData_sent : quiet.

Lemma ClearGUIObjects_sent s : sent (ClearGUIObjects s) = sent s.
Proof. unfold ClearGUIObjects. view_solve. Qed.
#[export] Hint Resolve ClearGUIObjects_sent : quiet.

Lemma ReceiveDeleteMeasurementRequestFromServer_sent id s : sent (ReceiveDeleteMeasurementRequestFromServer id s) = sent s.
Proof. unfold ReceiveDeleteMeasurementRequestFromServer. view_solve. Qed.
#[export] Hint Resolve ReceiveDeleteMeasurementRequestFromServer_sent : quiet.

Lemma fire_trigger_sent f r pt s : sent (fire_trigger f r pt s) = sent s.
Proof. unfold fire_trigger. view_solve. Qed.
#[export] Hint Resolve fire_trigger_sent : quiet.

Lemma TryAddMeasurementObject_sent d s : sent (TryAddMeasurementObject d s) = sent s.
Proof.
  destruct (TryAddMeasurementObject_cases d s)
    as [(_ & ? & _)|(? & ? & _ & _ & _ & _ & _ & _ & _ & ? & _)]; done.
Qed.
#[export] Hint Resolve TryAddMeasurementObject_sent : quiet.

Lemma process_entry_sent s e : sent (process_entry s e) = sent s.
Proof. unfold process_entry. view_solve. Qed.

Lemma ReceiveCreate_sent a s :
  sent (ReceiveCreateNewMeasurementRequestFromServer a s) = sent s.
Proof.
  destruct a as [|entries]; simpl; [view_solve|].
  transitivity (sent (log (ReceivedMeasurements (length entries)) s)); [|view_solve].
  generalize (log (ReceivedMeasurements (length entries)) s).
  induction entries as [|e es IH]; intros t; simpl; [done|].
  by rewrite IH, process_entry_sent.
Qed.
#[export] Hint Resolve ReceiveCreate_sent : quiet.

Lemma ReceiveUpdate_sent d s :
  sent (state_of (ReceiveUpdateMeasurementRequestFromServer d s)) = sent s.
Proof.
  unfold ReceiveUpdateMeasurementRequestFromServer.
  repeat case_match; unfold state_of; view_solve.
Qed.
#[export] Hint Resolve ReceiveUpdate_sent : quiet.

(** ** X3: what the client sends *)

Lemma sends_refl s : sends_at_most_one s s.
Proof. exists []. split_and!; [by rewrite app_nil_r|simpl; lia|constructor]. Qed.

Lemma sends_then_quiet s t t' :
  sends_at_most_one s t → sent t' = sent t → sends_at_most_one s t'.
Proof. intros (ms & Hms & ?) Heq. exists ms. by rewrite Heq. Qed.

Lemma quiet_then_sends s t t' :
  sent t = sent s → sends_at_most_one t t' → sends_at_most_one s t'.
Proof. intros Heq (ms & Hms & ?). exists ms. by rewrite <-Heq. Qed.

Lemma SendData_sends m ok err s :
  request_ok m → sends_at_most_one s (SendData m ok err s).
Proof.
  intros Hm. exists [m]. split_and!; [|simpl; lia|by repeat constructor].
  unfold SendData. destruct s; simpl. by destruct socketThrows0.
Qed.

Create HintDb sends discriminated.

(** Statements that send nothing are peeled off the end; what is left is a
    sending handler, run after statements that send nothing. *)
Ltac sends_step :=
  match goal with
  | |- sends_at_most_one ?s ?s => apply sends_refl
  | |- sends_at_most_one _ (if ?b then _ else _) => destruct b
  | |- sends_at_most_one _ (match ?x with _ => _ end) => destruct x
  | |- sends_at_most_one ?s (?f ?t) =>
      first
        [ apply (sends_then_quiet s t);
          [ | first [ solve [ auto with quiet ] | view_field ] ]
        | apply (quiet_then_sends s t); [ view_solve | solve [ auto with sends ] ] ]
  end.

Ltac sends_solve := intros; cbv zeta; repeat sends_step.

Lemma DeleteMeasurement_sends id s : sends_at_most_one s (DeleteMeasurement id s).
Proof.
  unfold DeleteMeasurement, SendDeleteMeasurementRequestToServer.
  case_bool_decide as Hid; [apply (sends_then_quiet s s); [apply sends_refl|view_field]|].
  apply (sends_then_quiet s
           (SendData (EditServer_ClientRequest_DeleteMeasurementObject id)
              (DeletionSentToServer id) ErrorSendingDeletion s));
    [apply SendData_sends; exact Hid|view_field].
Qed.
#[export] Hint Resolve DeleteMeasurement_sends : sends.

Lemma CompleteMeasurement_sends p s : sends_at_most_one s (CompleteMeasurement p s).
Proof.
  unfold CompleteMeasurement, SendCreateNewMeasurementRequestToServer.
  destruct (startPoint s) as [sp|]; [|apply sends_refl].
  assert (sends_at_most_one s
            (SendData (EditServer_ClientRequest_CreateMeasurementObject
                         (mkSendData (-1) sp p (Vector3.Distance sp p)))
               (NewMeasurementRequestSent (-1)) ErrorSendingMeasurement s)) as Hsend
    by (apply SendData_sends; split; reflexivity).
  cbv zeta. simpl sd_measurement_instance_id.
  repeat match goal with
         | |- sends_at_most_one ?s (?f ?t) => apply (sends_then_quiet s t); [|view_field]
         end.
  exact Hsend.
Qed.
#[export] Hint Resolve CompleteMeasurement_sends : sends.

Lemma UpdateExistingMeasurement_sends id a b s :
  sends_at_most_one s (UpdateExistingMeasurement id a b s).
Proof.
  unfold UpdateExistingMeasurement, SendUpdateMeasurementRequestToServer.
  destruct (plateObjects s !! id); [destruct (measurementsList s !! id)|].
  - match goal with |- sends_at_most_one _ (SendData ?m ?a ?b ?t) =>
      apply (quiet_then_sends s t); [view_solve|apply SendData_sends; reflexivity] end.
  - eapply sends_then_quiet; [apply sends_refl|view_field].
  - eapply sends_then_quiet; [apply sends_refl|view_field].
Qed.
#[export] Hint Resolve UpdateExistingMeasurement_sends : sends.

Lemma CompleteMove_sends p s : sends_at_most_one s (CompleteMove p s).
Proof. unfold CompleteMove. sends_solve. Qed.
#[export] Hint Resolve CompleteMove_sends : sends.

Lemma HandlePointerUp_sends e pick s : sends_at_most_one s (HandlePointerUp e pick s).
Proof. unfold HandlePointerUp. sends_solve. Qed.
#[export] Hint Resolve HandlePointerUp_sends : sends.

Lemma HandlePointerDown_sends e pick s : sends_at_most_one s (HandlePointerDown e pick s).
Proof. unfold HandlePointerDown. sends_solve. Qed.
#[export] Hint Resolve HandlePointerDown_sends : sends.

Lemma onKeyDown_sends key s : sends_at_most_one s (onKeyDown key s).
Proof. unfold onKeyDown. sends_solve. Qed.

#[export] Hint Resolve onKeyDown_sends : sends.

Lemma SetMeasurementColor_move_target id c s :
  move_target (SetMeasurementColor id c s) = move_target s.
Proof. unfold SetMeasurementColor. view_solve. Qed.
#[export] Hint Resolve SetMeasurementColor_move_target : quiet.

Lemma UpdateActionButtonStates_move_target a s :
  move_target (UpdateActionButtonStates a s) = move_target s.
Proof. unfold UpdateActionButtonStates. view_solve. Qed.
#[export] Hint Resolve UpdateActionButtonStates_move_target : quiet.

Lemma SetActionState_move_target a s : move_target (SetActionState a s) = move_target s.
Proof. unfold SetActionState. view_solve. Qed.
#[export] Hint Resolve SetActionState_move_target : quiet.

Lemma ToggleDeleteMode_move_target s : move_target (ToggleDeleteMode s) = move_target s.
Proof. unfold ToggleDeleteMode. view_solve. Qed.
#[export] Hint Resolve ToggleDeleteMode_move_target : quiet.

Lemma DisableMeasuring_move_target s : move_target (DisableMeasuring s) = move_target s.
Proof. unfold DisableMeasuring. view_solve. Qed.
#[export] Hint Resolve DisableMeasuring_move_target : quiet.

Lemma armed_move_target key s s' : move_target s' = move_target s → armed key s' = armed key s.
Proof. unfold move_target, armed. by intros [= -> ->]. Qed.

(** One run of the key handler: it sends the delete request exactly when the
    X key finds a move in progress, and whatever it did, a further run of
    the handler for the same key finds no move in progress. *)
Lemma onKeyDown_armed key s :
  sent (onKeyDown key s)
  = sent s ++ (if armed key s
               then [EditServer_ClientRequest_DeleteMeasurementObject (selectedMeasurementId s)]
               else [])
  ∧ armed key (onKeyDown key s) = false.
Proof.
  unfold onKeyDown. destruct (decide (key = "Escape")) as [->|Hesc].
  - rewrite (bool_decide_eq_true_2 ("Escape" = "Escape")) by done.
    rewrite (bool_decide_eq_false_2 ("Escape" = "x")) by done.
    rewrite (bool_decide_eq_false_2 ("Escape" = "X")) by done. cbn [orb].
    split; [|reflexivity]. change (armed "Escape" s) with false.
    rewrite app_nil_r. case_bool_decide; auto with quiet.
  - rewrite (bool_decide_eq_false_2 _ Hesc).
    destruct (bool_decide (key = "x") || bool_decide (key = "X")) eqn:Hx.
    + destruct (isMovingPoint s && bool_decide (selectedMeasurementId s ≠ -1)) eqn:Harm.
      * assert (armed key s = true) as -> by (unfold armed; by rewrite Hx, <-andb_assoc, Harm).
        apply andb_true_iff in Harm as [Hmv Hsel]. apply bool_decide_eq_true in Hsel.
        unfold armed, DeleteMeasurement, SendDeleteMeasurementRequestToServer, SendData.
        destruct s; simpl in *. rewrite (bool_decide_eq_false_2 _ Hsel).
        destruct socketThrows0; simpl; split; try reflexivity; by rewrite andb_false_r.
      * assert (armed key s = false) as Hna by (unfold armed; by rewrite Hx, <-andb_assoc, Harm).
        rewrite Hna, app_nil_r. split; [auto with quiet|].
        rewrite <-Hna. apply armed_move_target. auto with quiet.
    + assert (armed key s = false) as -> by (unfold armed; by rewrite Hx).
      by rewrite app_nil_r.
Qed.

Lemma iter_onKeyDown_quiet key n s :
  armed key s = false →
  sent (Nat.iter n (onKeyDown key) s) = sent s
  ∧ armed key (Nat.iter n (onKeyDown key) s) = false.
Proof.
  intros Hs. induction n as [|n [IH1 IH2]]; simpl; [done|].
  destruct (onKeyDown_armed key (Nat.iter n (onKeyDown key) s)) as [H1 H2].
  rewrite IH2, app_nil_r in H1. split; congruence.
Qed.

Lemma iter_onKeyDown_sends key n s :
  sends_at_most_one s (Nat.iter n (onKeyDown key) s).
Proof.
  destruct n as [|n]; [apply sends_refl|]. rewrite Nat.iter_succ_r.
  destruct (onKeyDown_armed key s) as [_ Hoff].
  apply (sends_then_quiet s (onKeyDown key s)); [auto with sends|].
  by apply iter_onKeyDown_quiet.
Qed.

(** What one event adds to the requests. *)
Lemma scene_step_requests (s : State) (ev : SceneEvent) :
  sends_at_most_one s (scene_step s ev)
  ∧ (passive ev = true → sent (scene_step s ev) = sent s).
Proof.
  assert (∀ t, sent t = sent s → sends_at_most_one s t) as Hquiet.
  { intros t Ht. by apply (sends_then_quiet s s); [apply sends_refl|]. }
  destruct ev as [ev|r pt|r pt]; simpl.
  - destruct ev; simpl;
      (split;
       [ first [ apply iter_onKeyDown_sends
               | destruct (onPointerObservable s); [apply sends_refl|solve [auto with sends]]
               | apply Hquiet; first [solve [auto with quiet]|view_solve] ]
       | intros Hp; first [discriminate Hp|solve [auto with quiet]|view_solve] ]).
  - split; [apply Hquiet|intros _]; auto with quiet.
  - split; [apply Hquiet|intros _]; auto with quiet.
Qed.

(** A press in delete mode while a measurement is hovered. *)
Lemma HandlePointerDown_deletes e pick s :
  currentActionState s = ActionStates.Remove → hoveredMeasurementId s ≠ -1 →
  scene s = true → non_left_mouse e = false →
  hit pick = true → is_Some (pickedPoint pick) →
  let s' := HandlePointerDown e pick s in
  sent s' = sent s ++ [EditServer_ClientRequest_DeleteMeasurementObject
                         (hoveredMeasurementId s)]
  ∧ currentActionState s' = currentActionState s
  ∧ hoveredMeasurementId s' = hoveredMeasurementId s
  ∧ scene s' = scene s
  ∧ onPointerObservable s' = onPointerObservable s.
Proof.
  intros Hmode Hhov Hscene Hleft Hhit [p Hp]. unfold HandlePointerDown.
  rewrite Hscene, Hleft, Hhit, Hp, Hmode. cbn [negb].
  rewrite (bool_decide_eq_true_2 (ActionStates.Remove = ActionStates.Remove)) by done.
  rewrite (bool_decide_eq_true_2 _ Hhov). cbn [andb].
  unfold DeleteMeasurement, SendDeleteMeasurementRequestToServer, SendData.
  rewrite (bool_decide_eq_false_2 _ Hhov).
  destruct s; simpl in *. by destruct socketThrows0.
Qed.

Lemma presses_in_delete_mode e picks s :
  currentActionState s = ActionStates.Remove → hoveredMeasurementId s ≠ -1 →
  scene s = true → non_left_mouse e = false →
  Forall (λ pick, hit pick = true ∧ is_Some (pickedPoint pick)) picks →
  (length picks ≤ onPointerObservable s)%nat →
  sent (run s (PointerDown e <$> picks))
  = sent s ++ replicate (length picks)
               (EditServer_ClientRequest_DeleteMeasurementObject (hoveredMeasurementId s)).
Proof.
  intros Hmode Hhov Hscene Hleft Hpicks. revert s Hmode Hhov Hscene.
  induction Hpicks as [|pick picks [Hhit Hpoint] _ IH]; intros s Hmode Hhov Hscene Hn.
  - simpl. by rewrite app_nil_r.
  - simpl in Hn. change (run s (PointerDown e <$> pick :: picks))
      with (run (step s (PointerDown e pick)) (PointerDown e <$> picks)).
    assert (step s (PointerDown e pick) = HandlePointerDown e pick s) as ->
      by (unfold step; destruct (onPointerObservable s); [lia|done]).
    destruct (HandlePointerDown_deletes e pick s Hmode Hhov Hscene Hleft Hhit Hpoint)
      as (Hsent & Hm & Hh & Hs & Hc).
    rewrite IH by (rewrite ?Hm, ?Hh, ?Hs, ?Hc; first [done|lia]).
    rewrite Hsent, Hh. simpl. by rewrite <-app_assoc.
Qed.

(** X3. One event makes the client send at most one request, and the
    request is well-formed: a create request carries the placeholder id
    [-1], a create or update request carries the Euclidean distance of its
    points, a delete request never names the id [-1]. A key press is one
    event, in which every registered key listener runs, and it still sends
    at most one request. Messages of the server, frames, sphere triggers
    and the menu and mode buttons send nothing. A pointer press of the user
    is not one event but one for every observer on the pointer observable,
    the call of that observer: in delete mode, over a hovered measurement,
    a press sends as many delete requests as there are observers. *)
Theorem X3_one_request_per_callback (s : State) (ev : SceneEvent) :
  sends_at_most_one s (scene_step s ev)
  ∧ (passive ev = true → sent (scene_step s ev) = sent s)
  ∧ (∀ e picks,
       currentActionState s = ActionStates.Remove → hoveredMeasurementId s ≠ -1 →
       scene s = true → non_left_mouse e = false →
       Forall (λ pick, hit pick = true ∧ is_Some (pickedPoint pick)) picks →
       length picks = onPointerObservable s →
       sent (run s (PointerDown e <$> picks))
       = sent s ++ replicate (onPointerObservable s)
                    (EditServer_ClientRequest_DeleteMeasurementObject
                       (hoveredMeasurementId s))).
Proof.
  destruct (scene_step_requests s ev) as [H1 H2]. split_and!; [done..|].
  intros e picks Hmode Hhov Hscene Hleft Hpicks Hn. rewrite <-Hn.
  apply presses_in_delete_mode; try done. lia.
Qed.

(** X3, witness: the tool has been opened twice in a row, so that two
    observers are on the pointer observable; measurement 3 is hovered in
    delete mode and the user presses once. Two delete requests leave. *)
Lemma X3_one_request_per_callback_witness :
  let s := run (Init true true constructor)
             [MenuEnabled; MenuEnabled;
              ServerCreate (IsArray [EntryObject (IdNumber 3) (IsVector3 origin)
                                       (IsVector3 east1) 1%float]);
              DeleteButtonDown; BeforeRender overEndOf3; BeforeRender overEndOf3] in
  onPointerObservable s = 2%nat
  ∧ sent (run s [PointerDown leftButton overEndOf3; PointerDown leftButton overEndOf3])
    = sent s ++ [EditServer_ClientRequest_DeleteMeasurementObject 3;
                 EditServer_ClientRequest_DeleteMeasurementObject 3].
Proof.
  intros s. split; [reflexivity|].
  refine (proj2 (proj2 (X3_one_request_per_callback s (Controller MenuEnabled)))
            leftButton [overEndOf3; overEndOf3] _ _ _ _ _ _).
  - reflexivity.
  - vm_compute. discriminate.
  - reflexivity.
  - reflexivity.
  - repeat constructor; eexists; reflexivity.
  - reflexivity.
Defined.

(** X4. Along every run, all the requests the client has sent are
    well-formed, and there are at most as many new ones as there were key
    presses and calls of a pointer observer for a press or a release. A
    press or a release of the user counts once for every observer it
    reaches, so twice once the tool has been opened twice in a row. *)
Theorem X4_requests_along_a_run (s : State) (evs : list SceneEvent) :
  Forall request_ok (sent s) →
  Forall request_ok (sent (scene_run s evs))
  ∧ (length (sent (scene_run s evs))
     ≤ length (sent s) + length (filter (λ ev, passive ev = false) evs))%nat.
Proof.
  unfold scene_run. revert s. induction evs as [|ev evs IH]; intros s Hok; simpl.
  - split; [done|lia].
  - destruct (scene_step_requests s ev) as [(ms & Hms & Hlen & Hall) Hpassive].
    destruct (IH (scene_step s ev)) as [IH1 IH2].
    { rewrite Hms. by apply Forall_app. }
    split; [done|]. etrans; [exact IH2|].
    destruct (passive ev) eqn:Hp.
    + rewrite (Hpassive eq_refl), filter_cons_False by (by rewrite Hp). lia.
    + rewrite Hms, length_app, filter_cons_True by done. simpl. lia.
Qed.

(** X4, witness: a session with a completed move and a delete click. *)
Lemma X4_requests_along_a_run_witness :
  let evs := [Controller (PointerUp leftButton overGround);
              Controller (ServerUpdate (mkMeasurementJson 3 (IsVector3 origin)
                                          (IsVector3 p340) 5%float));
              Controller DeleteButtonDown;
              Controller (BeforeRender overEndOf3);
              Controller (PointerDown leftButton overEndOf3)] in
  Forall request_ok (sent (scene_run moving3 evs))
  ∧ (length (sent (scene_run moving3 evs))
     ≤ length (sent moving3) + length (filter (λ ev, passive ev = false) evs))%nat.
Proof. apply (X4_requests_along_a_run moving3). vm_compute. constructor. Defined.

(** ** X5, X6: the mode and its buttons *)

Lemma HandlePointerDown_settings e pick s :
  settings (HandlePointerDown e pick s) = settings s.
Proof.
  unfold HandlePointerDown, DeleteMeasurement, SendDeleteMeasurementRequestToServer,
    StartMovingPoint, StartNewMeasurement. view_solve.
Qed.

Lemma HandlePointerUp_settings e pick s : settings (HandlePointerUp e pick s) = settings s.
Proof.
  unfold HandlePointerUp, CompleteMove, CancelMoveOperation, CompleteMeasurement,
    CancelMeasurementCreation, UpdateExistingMeasurement, ClearMovePreview,
    SendUpdateMeasurementRequestToServer, SendCreateNewMeasurementRequestToServer.
  view_solve.
Qed.

Lemma HandlePointerMove_settings pick s : settings (HandlePointerMove pick s) = settings s.
Proof.
  unfold HandlePointerMove, hover_in_delete_mode, hover_endpoint, SetMeasurementColor,
    UpdateMovePreview, UpdateMeasuringDisplay, ClearMovePreview. view_solve.
Qed.

Lemma TryAddMeasurementObject_settings d s :
  settings (TryAddMeasurementObject d s) = settings s.
Proof.
  unfold TryAddMeasurementObject, new_plate. destruct s; simpl.
  repeat case_match; reflexivity.
Qed.

Lemma ReceiveCreate_settings a s :
  settings (ReceiveCreateNewMeasurementRequestFromServer a s) = settings s.
Proof.
  destruct a as [|entries]; simpl; [view_solve|].
  transitivity (settings (log (ReceivedMeasurements (length entries)) s)); [|view_solve].
  generalize (log (ReceivedMeasurements (length entries)) s).
  induction entries as [|e es IH]; intros t; simpl; [done|]. rewrite IH.
  unfold process_entry. destruct (valid_entry e); [apply TryAddMeasurementObject_settings|].
  view_solve.
Qed.

Lemma ReceiveUpdate_settings d s :
  settings (state_of (ReceiveUpdateMeasurementRequestFromServer d s)) = settings s.
Proof.
  unfold ReceiveUpdateMeasurementRequestFromServer.
  repeat case_match; unfold state_of; view_solve.
Qed.

Lemma ReceiveDelete_settings id s :
  settings (ReceiveDeleteMeasurementRequestFromServer id s) = settings s.
Proof. unfold ReceiveDeleteMeasurementRequestFromServer, ClearMovePreview. view_solve. Qed.

Lemma settings_mode s s' : settings s' = settings s → mode_view s' = mode_view s.
Proof. unfold settings, mode_view. by intros [= -> -> ->]. Qed.

(** The events that are not mode events leave the mode and the buttons. *)
Lemma quiet_events_keep_the_mode (s : State) (ev : SceneEvent) :
  mode_event ev = false →
  currentActionState (scene_step s ev) = currentActionState s
  ∧ measurementCreateButton (scene_step s ev) = measurementCreateButton s
  ∧ measurementDeleteButton (scene_step s ev) = measurementDeleteButton s.
Proof.
  intros Hev.
  assert (mode_view (scene_step s ev) = mode_view s) as Hview.
  { destruct ev as [ev|r pt|r pt]; simpl; [|unfold fire_trigger; view_solve..].
    destruct ev; try discriminate Hev; simpl.
    - unfold EnableMeasuring. view_solve.
    - destruct (onPointerObservable s); [done|apply settings_mode, HandlePointerDown_settings].
    - destruct (onPointerObservable s); [done|apply settings_mode, HandlePointerUp_settings].
    - destruct (onBeforeRenderObservable s);
        [done|apply settings_mode, HandlePointerMove_settings].
    - apply settings_mode, ReceiveCreate_settings.
    - apply settings_mode, ReceiveUpdate_settings.
    - apply settings_mode, ReceiveDelete_settings.
    - unfold ClearMeasurementData. view_solve.
    - unfold ClearGUIObjects. view_solve. }
  unfold mode_view in Hview. by injection Hview.
Qed.

(** X6. The mode and the highlighting of the action buttons change only on
    a press of one of the three buttons, on a key press, or when the menu
    closes the tool: pointer presses and releases, frame ticks, sphere
    triggers and every message of the server leave them as they are. *)
Theorem X6_mode_changes_only_by_buttons_and_keys (s : State) (ev : SceneEvent) :
  mode_event ev = false →
  currentActionState (scene_step s ev) = currentActionState s
  ∧ measurementCreateButton (scene_step s ev) = measurementCreateButton s
  ∧ measurementDeleteButton (scene_step s ev) = measurementDeleteButton s.
Proof. exact (quiet_events_keep_the_mode s ev). Qed.

(** X6, witness: a pointer press on an endpoint in create mode starts a move
    and leaves the mode at [Add]. *)
Lemma X6_mode_changes_only_by_buttons_and_keys_witness :
  let s := step with3 CreateButtonDown in
  let ev := Controller (PointerDown leftButton overEndOf3) in
  currentActionState (scene_step s ev) = currentActionState s
  ∧ measurementCreateButton (scene_step s ev) = measurementCreateButton s
  ∧ measurementDeleteButton (scene_step s ev) = measurementDeleteButton s.
Proof.
  apply (X6_mode_changes_only_by_buttons_and_keys (step with3 CreateButtonDown)
           (Controller (PointerDown leftButton overEndOf3))).
  reflexivity.
Defined.






(** ** X7 to X14: the pointer protocol *)

Lemma clone_id v : Vector3.clone v = v.
Proof. by destruct v. Qed.

(** X7. A press is ignored entirely, the state is returned as it is, when
    the scene is not set, when it comes from a mouse button other than the
    left one, or when the pick hits nothing or has no point. A release is
    ignored entirely when the scene is not set, when it comes from another
    mouse button, or when neither a move nor a create-drag is in progress. *)
Theorem X7_presses_and_releases_without_effect (e : IPointerEvent) (pick : PickingInfo)
    (s : State) :
  (scene s = false ∨ non_left_mouse e = true ∨ hit pick = false ∨ pickedPoint pick = None →
   HandlePointerDown e pick s = s)
  ∧ (scene s = false ∨ non_left_mouse e = true
     ∨ ((isMovingPoint s = false ∨ selectedPlateObject s = None ∨ selectedPointType s = None)
        ∧ (isDraggingMeasurement s = false ∨ startPoint s = None)) →
     HandlePointerUp e pick s = s).
Proof.
  split.
  - intros H. unfold HandlePointerDown.
    destruct (scene s); simpl; [|done]. destruct (non_left_mouse e); [done|].
    destruct (hit pick); [|done]. destruct (pickedPoint pick); [|done].
    destruct H as [|[|[|]]]; done.
  - intros H. unfold HandlePointerUp.
    destruct (scene s); simpl; [|done]. destruct (non_left_mouse e); [done|].
    destruct H as [|[|[Hm Hd]]]; [done..|].
    destruct (isMovingPoint s), (selectedPlateObject s), (selectedPointType s),
      (isDraggingMeasurement s), (startPoint s);
      try done; destruct Hm as [|[|]]; destruct Hd; done.
Qed.

(** X7, witness: a right-button press over an endpoint in the open tool, and
    a release while nothing is in progress. *)
Lemma X7_presses_and_releases_without_effect_witness :
  HandlePointerDown (mkIPointerEvent "mouse" 2) overEndOf3 with3 = with3
  ∧ HandlePointerUp leftButton overGround with3 = with3.
Proof.
  split.
  - apply (proj1 (X7_presses_and_releases_without_effect
                    (mkIPointerEvent "mouse" 2) overEndOf3 with3)).
    right. left. reflexivity.
  - apply (proj2 (X7_presses_and_releases_without_effect leftButton overGround with3)).
    right. right. split; left; reflexivity.
Defined.

(** X8. In delete mode a press that hits something sends one delete request
    for the hovered measurement when there is one, and does nothing when
    there is none. In both cases it starts neither a move nor a
    create-drag, whatever is under the pointer, and it leaves both maps and
    every plate object as they are. *)
Theorem X8_press_in_delete_mode (e : IPointerEvent) (pick : PickingInfo) (p : Vector3)
    (s : State) :
  currentActionState s = ActionStates.Remove →
  scene s = true → non_left_mouse e = false →
  hit pick = true → pickedPoint pick = Some p →
  let s' := HandlePointerDown e pick s in
  sent s' = sent s ++ (if bool_decide (hoveredMeasurementId s ≠ -1)
                       then [EditServer_ClientRequest_DeleteMeasurementObject
                               (hoveredMeasurementId s)]
                       else [])
  ∧ (hoveredMeasurementId s = -1 → s' = s)
  ∧ interaction s' = interaction s
  ∧ core s' = core s.
Proof.
  intros Hmode Hscene Hleft Hhit Hp. unfold HandlePointerDown.
  rewrite Hscene, Hleft, Hhit, Hp, Hmode. simpl.
  case_bool_decide as Hh; simpl.
  - unfold DeleteMeasurement, SendDeleteMeasurementRequestToServer, SendData.
    rewrite (bool_decide_eq_false_2 _ Hh). destruct s; simpl in *.
    destruct socketThrows0; simpl; split_and!; done.
  - rewrite app_nil_r. done.
Qed.

(** X8, witness: delete mode, measurement 3 hovered, then a click. *)
Lemma X8_press_in_delete_mode_witness :
  let s := run with3 [DeleteButtonDown; BeforeRender overEndOf3] in
  let s' := HandlePointerDown leftButton overEndOf3 s in
  sent s' = sent s ++ (if bool_decide (hoveredMeasurementId s ≠ -1)
                       then [EditServer_ClientRequest_DeleteMeasurementObject
                               (hoveredMeasurementId s)]
                       else [])
  ∧ (hoveredMeasurementId s = -1 → s' = s)
  ∧ interaction s' = interaction s
  ∧ core s' = core s.
Proof.
  apply (X8_press_in_delete_mode leftButton overEndOf3 east1
           (run with3 [DeleteButtonDown; BeforeRender overEndOf3])); reflexivity.
Defined.

(** The press on an endpoint sphere, outside delete mode. *)
Lemma HandlePointerDown_on_endpoint (e : IPointerEvent) (pick : PickingInfo) (p : Vector3)
    (r : Ref) (pt : PointType) (id : Z) (o : MeasurementPlateObject.t) (s : State) :
  currentActionState s ≠ ActionStates.Remove →
  scene s = true → non_left_mouse e = false →
  hit pick = true → pickedPoint pick = Some p →
  picked_metadata pick ≫= endpoint_metadata = Some (r, pt, id) →
  heap s !! r = Some o →
  let s' := HandlePointerDown e pick s in
  isMovingPoint s' = true
  ∧ selectedPlateObject s' = Some r
  ∧ selectedPointType s' = Some pt
  ∧ selectedMeasurementId s' = id
  ∧ fixedPoint s' = Some (match pt with
                          | PStart => MeasurementPlateObject.endPoint o
                          | PEnd => MeasurementPlateObject.startPoint o
                          end)
  ∧ heap s' = <[r := MeasurementPlateObject.ClearGUI o]> (heap s)
  ∧ measurementsList s' = measurementsList s
  ∧ plateObjects s' = plateObjects s
  ∧ sent s' = sent s
  ∧ isDraggingMeasurement s' = isDraggingMeasurement s
  ∧ startPoint s' = startPoint s
  ∧ lastValidPickedPoint s' = lastValidPickedPoint s.
Proof.
  intros Hmode Hscene Hleft Hhit Hp Hmeta Ho. unfold HandlePointerDown.
  rewrite Hscene, Hleft, Hhit, Hp, Hmeta. simpl.
  rewrite (bool_decide_eq_false_2 _ Hmode). simpl.
  unfold StartMovingPoint, modify_plate, log. destruct s; simpl in *. rewrite Ho. simpl.
  split_and!; try reflexivity.
  rewrite list_alter_alter_eq. apply list_eq. intros i.
  destruct (decide (i = r)) as [->|Hne].
  - rewrite list_lookup_alter_eq, Ho, list_lookup_insert_eq by (by eapply lookup_lt_Some).
    by destruct o.
  - by rewrite list_lookup_alter_ne, list_lookup_insert_ne.
Qed.

(** X9. Outside delete mode, a press on an endpoint sphere starts a move of
    that endpoint: the other endpoint of the plate becomes the fixed point,
    the plate, endpoint and id of the metadata become the selection, and the
    visuals of the plate are cleared. Nothing is sent, no create-drag is
    started even in create mode, and this happens also while a create-drag
    or another move is in progress: the press has no guard for them. *)
Theorem X9_press_on_an_endpoint (e : IPointerEvent) (pick : PickingInfo) (p : Vector3)
    (r : Ref) (pt : PointType) (id : Z) (o : MeasurementPlateObject.t) (s : State) :
  currentActionState s ≠ ActionStates.Remove →
  scene s = true → non_left_mouse e = false →
  hit pick = true → pickedPoint pick = Some p →
  picked_metadata pick ≫= endpoint_metadata = Some (r, pt, id) →
  heap s !! r = Some o →
  let s' := HandlePointerDown e pick s in
  isMovingPoint s' = true
  ∧ selectedPlateObject s' = Some r
  ∧ selectedPointType s' = Some pt
  ∧ selectedMeasurementId s' = id
  ∧ fixedPoint s' = Some (match pt with
                          | PStart => MeasurementPlateObject.endPoint o
                          | PEnd => MeasurementPlateObject.startPoint o
                          end)
  ∧ heap s' = <[r := MeasurementPlateObject.ClearGUI o]> (heap s)
  ∧ measurementsList s' = measurementsList s
  ∧ plateObjects s' = plateObjects s
  ∧ sent s' = sent s
  ∧ isDraggingMeasurement s' = isDraggingMeasurement s
  ∧ startPoint s' = startPoint s
  ∧ lastValidPickedPoint s' = lastValidPickedPoint s.
Proof. exact (HandlePointerDown_on_endpoint e pick p r pt id o s). Qed.

(** X9, witness: the press on the end point of measurement 3, in create
    mode. *)
Lemma X9_press_on_an_endpoint_witness :
  let s := step with3 CreateButtonDown in
  let o := MeasurementPlateObject.InitPlate (dashedLines s) 0
             (MeasurementPlateObject.constructor 3 origin east1 1%float) in
  let s' := HandlePointerDown leftButton overEndOf3 s in
  isMovingPoint s' = true
  ∧ selectedPlateObject s' = Some 0%nat
  ∧ selectedPointType s' = Some PEnd
  ∧ selectedMeasurementId s' = 3
  ∧ fixedPoint s' = Some (MeasurementPlateObject.startPoint o)
  ∧ heap s' = <[0%nat := MeasurementPlateObject.ClearGUI o]> (heap s)
  ∧ measurementsList s' = measurementsList s
  ∧ plateObjects s' = plateObjects s
  ∧ sent s' = sent s
  ∧ isDraggingMeasurement s' = isDraggingMeasurement s
  ∧ startPoint s' = startPoint s
  ∧ lastValidPickedPoint s' = lastValidPickedPoint s.
Proof.
  apply (X9_press_on_an_endpoint leftButton overEndOf3 east1 0%nat PEnd 3
           (MeasurementPlateObject.InitPlate (dashedLines (step with3 CreateButtonDown)) 0
              (MeasurementPlateObject.constructor 3 origin east1 1%float))
           (step with3 CreateButtonDown)); try reflexivity.
  vm_compute. discriminate.
Defined.

(** X10. In create mode, a press on anything but an endpoint sphere starts a
    create-drag when no drag and no move is in progress: the picked point
    is remembered as the start point, a zero-length preview line is made
    there and the drag flag is set; nothing is sent and the Registry is not
    touched. While a drag or a move is in progress the same press changes
    nothing at all. *)
Theorem X10_starting_a_create_drag (e : IPointerEvent) (pick : PickingInfo) (p : Vector3)
    (s : State) :
  currentActionState s = ActionStates.Add →
  scene s = true → non_left_mouse e = false →
  hit pick = true → pickedPoint pick = Some p →
  picked_metadata pick ≫= endpoint_metadata = None →
  let s' := HandlePointerDown e pick s in
  (isDraggingMeasurement s = false → isMovingPoint s = false →
   isDraggingMeasurement s' = true
   ∧ startPoint s' = Some p
   ∧ currentLine s' = Some (mkLinesMesh p p EngineDefault worldSpace false false false)
   ∧ sent s' = sent s
   ∧ core s' = core s
   ∧ isMovingPoint s' = false)
  ∧ (isDraggingMeasurement s = true ∨ isMovingPoint s = true → s' = s).
Proof.
  intros Hmode Hscene Hleft Hhit Hp Hmeta. unfold HandlePointerDown.
  rewrite Hscene, Hleft, Hhit, Hp, Hmeta, Hmode. simpl. split.
  - intros Hd Hm. rewrite Hd, Hm. simpl. unfold StartNewMeasurement. rewrite !clone_id.
    destruct s; simpl in *. subst. split_and!; reflexivity.
  - intros [-> | ->]; simpl; [done|]. by rewrite andb_false_r.
Qed.

(** X10, witness: the first press of a drag, and a second press while the
    drag is in progress. *)
Lemma X10_starting_a_create_drag_witness :
  (let s := step opened CreateButtonDown in
   let s' := HandlePointerDown leftButton overOrigin s in
   isDraggingMeasurement s' = true
   ∧ startPoint s' = Some origin
   ∧ currentLine s' = Some (mkLinesMesh origin origin EngineDefault worldSpace false false false)
   ∧ sent s' = sent s
   ∧ core s' = core s
   ∧ isMovingPoint s' = false)
  ∧ HandlePointerDown leftButton overGround dragging = dragging.
Proof.
  split.
  - apply (proj1 (X10_starting_a_create_drag leftButton overOrigin origin
                    (step opened CreateButtonDown)
                    eq_refl eq_refl eq_refl eq_refl eq_refl eq_refl)); reflexivity.
  - apply (proj2 (X10_starting_a_create_drag leftButton overGround p340 dragging
                    eq_refl eq_refl eq_refl eq_refl eq_refl eq_refl)).
    left. reflexivity.
Defined.

(** X11. Releasing the pointer during a create-drag, with no move in
    progress, always ends the drag: the flag, the start point, the preview
    line and the preview label are cleared and the Registry is not touched.
    The end point is the picked point, or, when the pick misses, the last
    point a frame tick picked; with such a point one create request is sent,
    from the start point to it, with the placeholder id [-1] and their
    Euclidean distance, and [selectedMeasurementId] becomes [-1]. With no
    such point nothing is sent. *)
Theorem X11_releasing_a_create_drag (e : IPointerEvent) (pick : PickingInfo) (sp : Vector3)
    (s : State) :
  scene s = true → non_left_mouse e = false →
  isMovingPoint s = false →
  isDraggingMeasurement s = true → startPoint s = Some sp →
  let s' := HandlePointerUp e pick s in
  let endPoint := match hit pick, pickedPoint pick with
                  | true, Some p => Some p
                  | _, _ => lastValidPickedPoint s
                  end in
  isDraggingMeasurement s' = false
  ∧ startPoint s' = None
  ∧ currentLine s' = None
  ∧ dynamicTextMesh s' = None
  ∧ core s' = core s
  ∧ match endPoint with
    | Some p =>
        sent s' = sent s ++ [EditServer_ClientRequest_CreateMeasurementObject
                               (mkSendData (-1) sp p (Vector3.Distance sp p))]
        ∧ selectedMeasurementId s' = -1
    | None => sent s' = sent s ∧ selectedMeasurementId s' = selectedMeasurementId s
    end.
Proof.
  intros Hscene Hleft Hmove Hdrag Hsp. unfold HandlePointerUp.
  rewrite Hscene, Hleft, Hmove, Hdrag, Hsp. simpl.
  change (match hit pick with
          | true => match pickedPoint pick with Some p => Some p
                    | None => lastValidPickedPoint s end
          | false => lastValidPickedPoint s end) with (pointToUse pick s).
  destruct (pointToUse pick s) as [p|].
  - unfold CompleteMeasurement, SendCreateNewMeasurementRequestToServer, SendData.
    rewrite Hsp. destruct s; simpl in *. destruct socketThrows0; split_and!; reflexivity.
  - unfold CancelMeasurementCreation. destruct s; simpl in *. split_and!; reflexivity.
Qed.

(** X11, witness: the drag from the origin is released off the surface,
    after a frame tick has picked (3,4,0). *)
Lemma X11_releasing_a_create_drag_witness :
  let s := step dragging (BeforeRender overGround) in
  let pick := mkPickingInfo false None None in
  let s' := HandlePointerUp leftButton pick s in
  isDraggingMeasurement s' = false
  ∧ startPoint s' = None
  ∧ currentLine s' = None
  ∧ dynamicTextMesh s' = None
  ∧ core s' = core s
  ∧ sent s' = sent s ++ [EditServer_ClientRequest_CreateMeasurementObject
                           (mkSendData (-1) origin p340 (Vector3.Distance origin p340))]
    ∧ selectedMeasurementId s' = -1.
Proof.
  apply (X11_releasing_a_create_drag leftButton (mkPickingInfo false None None) origin
           (step dragging (BeforeRender overGround))); reflexivity.
Defined.

(** X12. Moving an endpoint, from press to release. Outside delete mode, a
    press on an endpoint sphere of a stored measurement followed by a
    release with a point available rewrites the stored entity at once: the
    grabbed endpoint becomes that point, the other endpoint is kept, the
    distance is recomputed, and the plate is what [InitPlate] makes of a
    new plate with these data: two new spheres, and a dashed line and a
    label when the engine builds the dashed line for these data; when it
    does not, the plate has neither line nor label, the press having
    removed the old ones. One update request with these values is sent,
    and the move selection is cleared. *)
Theorem X12_moving_an_endpoint (e1 e2 : IPointerEvent) (pick1 pick2 : PickingInfo)
    (p1 p : Vector3) (r : Ref) (pt : PointType) (k : Z) (o : MeasurementPlateObject.t)
    (s : State) :
  currentActionState s ≠ ActionStates.Remove →
  scene s = true → non_left_mouse e1 = false → non_left_mouse e2 = false →
  plateObjects s !! k = Some r → measurementsList s !! k = Some r →
  heap s !! r = Some o → MeasurementPlateObject.measurement_instance_id o = k →
  hit pick1 = true → pickedPoint pick1 = Some p1 →
  picked_metadata pick1 ≫= endpoint_metadata = Some (r, pt, k) →
  pointToUse pick2 s = Some p →
  let s' := HandlePointerUp e2 pick2 (HandlePointerDown e1 pick1 s) in
  let newStart := match pt with PStart => p | PEnd => MeasurementPlateObject.startPoint o end in
  let newEnd := match pt with PStart => MeasurementPlateObject.endPoint o | PEnd => p end in
  let d := Vector3.Distance newStart newEnd in
  let built := dashedLines s newStart newEnd d in
  stored plateObjects s' k
  = Some (MeasurementPlateObject.InitPlate (dashedLines s) r
            (MeasurementPlateObject.constructor k newStart newEnd d))
  ∧ stored plateObjects s' k
    = Some (MeasurementPlateObject.mk k newStart newEnd d
              (if built
               then Some (mkLinesMesh newStart newEnd EngineDefault worldSpace false true false)
               else None)
              (if built then Some (mkTextMesh d (midPoint newStart newEnd) false) else None)
              (Some (mkCollider newStart true worldSpace colors_point_default
                       (mkColliderMetadata r PStart k)))
              (Some (mkCollider newEnd true worldSpace colors_point_default
                       (mkColliderMetadata r PEnd k))))
  ∧ stored measurementsList s' k = stored plateObjects s' k
  ∧ sent s' = sent s ++ [EditServer_ClientRequest_UpdateMeasurementObject
                           (mkSendData k newStart newEnd (Vector3.Distance newStart newEnd))]
  ∧ isMovingPoint s' = false
  ∧ selectedPlateObject s' = None
  ∧ selectedPointType s' = None
  ∧ selectedMeasurementId s' = -1
  ∧ fixedPoint s' = None
  ∧ movePreviewLine s' = None
  ∧ movePreviewText s' = None.
Proof.
  intros Hmode Hscene Hl1 Hl2 Hp Hm Ho Hid Hhit Hp1 Hmeta Hpoint s'.
  destruct (HandlePointerDown_on_endpoint e1 pick1 p1 r pt k o s Hmode Hscene Hl1 Hhit Hp1 Hmeta Ho)
    as (Hmv & Hsel & Hty & Hsid & Hfix & Hheap & Hml & Hpo & Hsent & _ & _ & Hlast).
  pose proof (HandlePointerDown_settings e1 pick1 s) as Hset. unfold settings in Hset.
  assert (scene (HandlePointerDown e1 pick1 s) = true) as Hscene' by congruence.
  assert (socketThrows (HandlePointerDown e1 pick1 s) = socketThrows s) as Hsock by congruence.
  assert (dashedLines (HandlePointerDown e1 pick1 s) = dashedLines s) as Hdl by congruence.
  clear Hset.
  revert s' Hmv Hsel Hty Hsid Hfix Hheap Hml Hpo Hsent Hlast Hscene' Hsock Hdl.
  generalize (HandlePointerDown e1 pick1 s). intros t.
  intros s' Hmv Hsel Hty Hsid Hfix Hheap Hml Hpo Hsent Hlast Hscene' Hsock Hdl. subst s'.
  assert (pointToUse pick2 t = Some p) as Hpoint' by (unfold pointToUse in *; by rewrite Hlast).
  unfold HandlePointerUp. rewrite Hscene', Hl2, Hmv, Hsel, Hty, Hpoint'. simpl.
  unfold CompleteMove. rewrite Hsel, Hty, Hfix, Hsid.
  unfold UpdateExistingMeasurement, SendUpdateMeasurementRequestToServer, SendData, stored,
    ClearMovePreview, modify_plate.
  destruct t; simpl in *. subst.
  assert (r < length (heap s))%nat as Hr by (by eapply lookup_lt_Some).
  destruct pt; simpl; rewrite Hp, Hm; simpl;
    destruct (socketThrows s); simpl; rewrite Hp, ?Hm; simpl;
    rewrite !list_lookup_alter_eq, list_lookup_insert_eq by done; simpl;
    (split_and!; try reflexivity); destruct o; plate_cases; reflexivity.
Qed.

(** X12, witness: over the engine that builds lines up to 1000, the end
    point of measurement 3 is dragged to (2^1000,0,0). The plate has the new
    data and two new spheres, and neither line nor label. *)
Lemma X12_moving_an_endpoint_witness :
  let s' := HandlePointerUp leftButton overFar
              (HandlePointerDown leftButton overEndOf3 with3_limited) in
  let d := Vector3.Distance origin far in
  stored plateObjects s' 3
  = Some (MeasurementPlateObject.InitPlate limited 0
            (MeasurementPlateObject.constructor 3 origin far d))
  ∧ stored plateObjects s' 3
    = Some (MeasurementPlateObject.mk 3 origin far d None None
              (Some (mkCollider origin true worldSpace colors_point_default
                       (mkColliderMetadata 0 PStart 3)))
              (Some (mkCollider far true worldSpace colors_point_default
                       (mkColliderMetadata 0 PEnd 3))))
  ∧ stored measurementsList s' 3 = stored plateObjects s' 3
  ∧ sent s' = sent with3_limited ++ [EditServer_ClientRequest_UpdateMeasurementObject
                                       (mkSendData 3 origin far d)]
  ∧ isMovingPoint s' = false
  ∧ selectedPlateObject s' = None
  ∧ selectedPointType s' = None
  ∧ selectedMeasurementId s' = -1
  ∧ fixedPoint s' = None
  ∧ movePreviewLine s' = None
  ∧ movePreviewText s' = None.
Proof.
  apply (X12_moving_an_endpoint leftButton leftButton overEndOf3 overFar east1 far
           0%nat PEnd 3
           (MeasurementPlateObject.InitPlate limited 0
              (MeasurementPlateObject.constructor 3 origin east1 1%float))
           with3_limited); try reflexivity.
  vm_compute. discriminate.
Defined.

(** Over the engine that builds every line, dragging the end point of
    measurement 3 to (3,4,0) gives the plate a new line and a new label. *)
Example moving_an_endpoint_rebuilds_the_plate :
  let s' := HandlePointerUp leftButton overGround
              (HandlePointerDown leftButton overEndOf3 with3) in
  let d := Vector3.Distance origin p340 in
  stored plateObjects s' 3
  = Some (MeasurementPlateObject.mk 3 origin p340 d
            (Some (mkLinesMesh origin p340 EngineDefault worldSpace false true false))
            (Some (mkTextMesh d (midPoint origin p340) false))
            (Some (mkCollider origin true worldSpace colors_point_default
                     (mkColliderMetadata 0 PStart 3)))
            (Some (mkCollider p340 true worldSpace colors_point_default
                     (mkColliderMetadata 0 PEnd 3)))).
Proof. vm_compute. reflexivity. Qed.

(** X13. Releasing the pointer during a move when no point is available
    (the pick misses and no frame tick has ever picked a point) cancels the
    move: [InitPlate] runs on the selected plate, which gives it two new
    spheres at its endpoints and, when the engine builds the dashed line
    for its data, a new line and label; when it does not, the line and the
    label of the plate stay as they were. No other plate changes, the data
    of every entity and both maps are left as they are, nothing is sent,
    and the move selection and the preview are cleared. *)
Theorem X13_cancelling_a_move (e : IPointerEvent) (pick : PickingInfo) (r : Ref)
    (pt : PointType) (s : State) :
  scene s = true → non_left_mouse e = false →
  isMovingPoint s = true → selectedPlateObject s = Some r → selectedPointType s = Some pt →
  pointToUse pick s = None →
  let s' := HandlePointerUp e pick s in
  heap s' = alter (MeasurementPlateObject.InitPlate (dashedLines s) r) r (heap s)
  ∧ (∀ o, heap s !! r = Some o →
       let built := dashedLines s (MeasurementPlateObject.startPoint o)
                      (MeasurementPlateObject.endPoint o)
                      (MeasurementPlateObject.distanceMeasured o) in
       heap s' !! r
       = Some (MeasurementPlateObject.mk
                 (MeasurementPlateObject.measurement_instance_id o)
                 (MeasurementPlateObject.startPoint o) (MeasurementPlateObject.endPoint o)
                 (MeasurementPlateObject.distanceMeasured o)
                 (if built
                  then Some (mkLinesMesh (MeasurementPlateObject.startPoint o)
                               (MeasurementPlateObject.endPoint o)
                               EngineDefault worldSpace false true false)
                  else MeasurementPlateObject.line o)
                 (if built
                  then Some (mkTextMesh (MeasurementPlateObject.distanceMeasured o)
                               (midPoint (MeasurementPlateObject.startPoint o)
                                  (MeasurementPlateObject.endPoint o)) false)
                  else MeasurementPlateObject.textMesh o)
                 (Some (mkCollider (MeasurementPlateObject.startPoint o) true worldSpace
                          colors_point_default
                          (mkColliderMetadata r PStart
                             (MeasurementPlateObject.measurement_instance_id o))))
                 (Some (mkCollider (MeasurementPlateObject.endPoint o) true worldSpace
                          colors_point_default
                          (mkColliderMetadata r PEnd
                             (MeasurementPlateObject.measurement_instance_id o))))))
  ∧ registry s' = registry s
  ∧ sent s' = sent s
  ∧ isMovingPoint s' = false
  ∧ selectedPlateObject s' = None
  ∧ selectedPointType s' = None
  ∧ selectedMeasurementId s' = -1
  ∧ fixedPoint s' = None
  ∧ movePreviewLine s' = None
  ∧ movePreviewText s' = None.
Proof.
  intros Hscene Hleft Hmv Hsel Hty Hpoint s'. subst s'. unfold HandlePointerUp.
  rewrite Hscene, Hleft, Hmv, Hsel, Hty, Hpoint. simpl.
  assert (heap (CancelMoveOperation s)
          = alter (MeasurementPlateObject.InitPlate (dashedLines s) r) r (heap s)) as Hheap.
  { unfold CancelMoveOperation. rewrite Hsel. by destruct s. }
  split; [exact Hheap|]. split; [|split; [auto with frame|]].
  - intros o Ho. rewrite Hheap, list_lookup_alter_eq, Ho. simpl. f_equal.
    destruct o. plate_cases; reflexivity.
  - unfold CancelMoveOperation. rewrite Hsel. destruct s; simpl. split_and!; reflexivity.
Qed.

(** X13, witness: over the engine that builds lines up to 1000, the end
    point of measurement 3 has been moved to (2^1000,0,0) by an update
    broadcast. It is grabbed before any frame tick and released off the
    surface: the plate gets its spheres back, and neither line nor label. *)
Lemma X13_cancelling_a_move_witness :
  let s := step stretched3 (PointerDown leftButton overFarEndOf3) in
  let s' := HandlePointerUp leftButton (mkPickingInfo false None None) s in
  heap s' = alter (MeasurementPlateObject.InitPlate limited 0) 0%nat (heap s)
  ∧ heap s' !! 0%nat
    = Some (MeasurementPlateObject.mk 3 origin far (Vector3.Distance origin far) None None
              (Some (mkCollider origin true worldSpace colors_point_default
                       (mkColliderMetadata 0 PStart 3)))
              (Some (mkCollider far true worldSpace colors_point_default
                       (mkColliderMetadata 0 PEnd 3))))
  ∧ registry s' = registry s
  ∧ sent s' = sent s
  ∧ isMovingPoint s' = false
  ∧ selectedPlateObject s' = None
  ∧ selectedPointType s' = None
  ∧ selectedMeasurementId s' = -1
  ∧ fixedPoint s' = None
  ∧ movePreviewLine s' = None
  ∧ movePreviewText s' = None.
Proof.
  pose proof (X13_cancelling_a_move leftButton (mkPickingInfo false None None) 0%nat PEnd
                (step stretched3 (PointerDown leftButton overFarEndOf3))
                eq_refl eq_refl eq_refl eq_refl eq_refl eq_refl) as (H1 & H2 & H3).
  split; [exact H1|]. split; [|exact H3].
  exact (H2 (MeasurementPlateObject.mk 3 origin far (Vector3.Distance origin far) None None
               None None) eq_refl).
Defined.

(** Over the engine that builds every line, a press on the end point of
    measurement 3 followed by a cancelled move gives back the heap as it was
    before the press: the plate loses and regains exactly its visuals. *)
Example press_and_cancel_restores_the_plate :
  heap (HandlePointerUp leftButton (mkPickingInfo false None None)
          (step with3 (PointerDown leftButton overEndOf3))) = heap with3.
Proof. vm_compute. reflexivity. Qed.

(** X14. A frame tick during a move or a create-drag, outside delete mode,
    only redraws the preview: with a point available (the picked one, or
    the last one picked when the pick misses) the move preview is a line
    from the fixed point to it with their distance as label, and the drag
    preview is the line from the start point to it with their distance as
    label. The hover bookkeeping, both maps, every plate object and the
    requests sent are left as they are, and the point picked, if any, is
    remembered as the last valid one. A move takes precedence over a drag. *)
Theorem X14_frame_tick_during_an_interaction (pick : PickingInfo) (p : Vector3) (s : State) :
  scene s = true → currentActionState s ≠ ActionStates.Remove →
  pointToUse pick s = Some p →
  let s' := HandlePointerMove pick s in
  (∀ r pt fp,
     isMovingPoint s = true → selectedPlateObject s = Some r →
     selectedPointType s = Some pt → fixedPoint s = Some fp →
     movePreviewLine s' = Some (mkLinesMesh fp p colors_hover worldSpace false false false)
     ∧ movePreviewText s' = Some (mkTextMesh (Vector3.Distance fp p) (midPoint fp p) false)
     ∧ currentLine s' = currentLine s)
  ∧ (∀ sp l,
       isMovingPoint s = false → isDraggingMeasurement s = true →
       startPoint s = Some sp → currentLine s = Some l →
       currentLine s' = Some (mkLinesMesh sp p (line_color l) (line_renderingGroupId l)
                                (line_isPickable l) (line_dashed l) (line_isDisposed l))
       ∧ dynamicTextMesh s' = Some (mkTextMesh (Vector3.Distance sp p) (midPoint sp p) false))
  ∧ (isMovingPoint s = true ∨ isDraggingMeasurement s = true →
     hoveredMeasurementId s' = hoveredMeasurementId s
     ∧ hoveredPointType s' = hoveredPointType s
     ∧ core s' = core s
     ∧ sent s' = sent s
     ∧ lastValidPickedPoint s' = match hit pick, pickedPoint pick with
                                 | true, Some q => Some q
                                 | _, _ => lastValidPickedPoint s
                                 end).
Proof.
  intros Hscene Hmode Hpoint s'. subst s'. unfold HandlePointerMove.
  rewrite Hscene, (bool_decide_eq_false_2 _ Hmode). simpl. cbv zeta.
  assert (∀ t, lastValidPickedPoint t
               = match hit pick, pickedPoint pick with
                 | true, Some q => Some q
                 | _, _ => lastValidPickedPoint s
                 end →
               pointToUse pick t = Some p) as Hpoint'.
  { intros t Ht. unfold pointToUse in *. rewrite Ht.
    destruct (hit pick), (pickedPoint pick); done. }
  split_and!.
  - intros r pt fp Hmv Hsel Hty Hfix. rewrite Hmv. simpl.
    rewrite Hpoint'; [|destruct s, (hit pick), (pickedPoint pick); by rewrite ?clone_id].
    unfold UpdateMovePreview, ClearMovePreview.
    destruct s, (hit pick), (pickedPoint pick); simpl in *; subst; done.
  - intros sp l Hmv Hdrag Hsp Hline. rewrite Hmv, Hdrag. simpl.
    rewrite Hpoint'; [|destruct s, (hit pick), (pickedPoint pick); by rewrite ?clone_id].
    unfold UpdateMeasuringDisplay.
    destruct s, (hit pick), (pickedPoint pick); simpl in *; subst; done.
  - intros Hbusy.
    assert (negb (isMovingPoint s) && negb (isDraggingMeasurement s) = false) as ->.
    { destruct Hbusy as [-> | ->]; [done|by rewrite andb_false_r]. }
    rewrite Hpoint'; [|destruct s, (hit pick), (pickedPoint pick); by rewrite ?clone_id].
    unfold UpdateMovePreview, UpdateMeasuringDisplay, ClearMovePreview.
    destruct s, (hit pick), (pickedPoint pick); simpl in *;
      repeat case_match; simpl; rewrite ?clone_id; done.
Qed.

(** X14, witness: a tick over (3,4,0) while the end point of measurement 3
    is moved, and one while a measurement is dragged from the origin. *)
Lemma X14_frame_tick_during_an_interaction_witness :
  (let s' := HandlePointerMove overGround moving3 in
   movePreviewLine s' = Some (mkLinesMesh origin p340 colors_hover worldSpace false false false)
   ∧ movePreviewText s' = Some (mkTextMesh (Vector3.Distance origin p340)
                                  (midPoint origin p340) false)
   ∧ currentLine s' = currentLine moving3)
  ∧ (let s' := HandlePointerMove overGround dragging in
     currentLine s' = Some (mkLinesMesh origin p340 EngineDefault worldSpace false false false)
     ∧ dynamicTextMesh s' = Some (mkTextMesh (Vector3.Distance origin p340)
                                    (midPoint origin p340) false))
  ∧ (let s' := HandlePointerMove overGround moving3 in
     hoveredMeasurementId s' = hoveredMeasurementId moving3
     ∧ hoveredPointType s' = hoveredPointType moving3
     ∧ core s' = core moving3
     ∧ sent s' = sent moving3
     ∧ lastValidPickedPoint s' = Some p340).
Proof.
  assert (currentActionState moving3 ≠ ActionStates.Remove) as Hm by (vm_compute; discriminate).
  assert (currentActionState dragging ≠ ActionStates.Remove) as Hd by (vm_compute; discriminate).
  split_and!.
  - apply (proj1 (X14_frame_tick_during_an_interaction overGround p340 moving3
                    eq_refl Hm eq_refl) 0%nat PEnd origin); reflexivity.
  - apply (proj1 (proj2 (X14_frame_tick_during_an_interaction overGround p340 dragging
                           eq_refl Hd eq_refl)) origin
             (mkLinesMesh origin origin EngineDefault worldSpace false false false)); reflexivity.
  - apply (proj2 (proj2 (X14_frame_tick_during_an_interaction overGround p340 moving3
                           eq_refl Hm eq_refl))). left. reflexivity.
Defined.

(** ** X15, X16: decoding the points of a message *)

(** X15. The inbound create and update handlers do not depend on how a
    point is spelled: a [Vector3] instance, a record with [x], [y], [z] and
    a record with [_x], [_y], [_z] holding the same coordinates give the
    same result. Where a record has both spellings of a coordinate the
    underscored one is taken, and a coordinate that is missing under both
    is read as [0]. *)
Theorem X15_point_spellings :
  (∀ s id dist v w a b,
     a ∈ spellings v → b ∈ spellings w →
     TryAddMeasurementObject (mkMeasurementJson id a b dist) s
     = TryAddMeasurementObject (mkMeasurementJson id (IsVector3 v) (IsVector3 w) dist) s
     ∧ ReceiveUpdateMeasurementRequestFromServer (mkMeasurementJson id a b dist) s
       = ReceiveUpdateMeasurementRequestFromServer
           (mkMeasurementJson id (IsVector3 v) (IsVector3 w) dist) s)
  ∧ (∀ x x' y y' z z',
       decodePoint (IsRecord (mkLoosePoint (Some x) x' (Some y) y' (Some z) z'))
       = Some (mkVector3 x y z))
  ∧ decodePoint (IsRecord (mkLoosePoint None None None None None None)) = Some Vector3.Zero.
Proof.
  split_and!; [|done..].
  intros s id dist v w a b Ha Hb.
  assert (∀ u c, c ∈ spellings u → decodePoint c = Some u) as Hdec.
  { intros [x y z] c Hc. unfold spellings in Hc.
    repeat (apply elem_of_cons in Hc as [->|Hc]; [reflexivity|]).
    by apply elem_of_nil in Hc. }
  unfold TryAddMeasurementObject, ReceiveUpdateMeasurementRequestFromServer. simpl.
  by rewrite (Hdec v a Ha), (Hdec w b Hb).
Qed.

(** X15, witness: measurement 9 arrives with its start point as a plain
    record and its end point as a serialised [Vector3]. *)
Lemma X15_point_spellings_witness :
  TryAddMeasurementObject
    (mkMeasurementJson 9 (plain_record origin) (underscored_record p340) 5%float) with3
  = TryAddMeasurementObject
      (mkMeasurementJson 9 (IsVector3 origin) (IsVector3 p340) 5%float) with3
  ∧ ReceiveUpdateMeasurementRequestFromServer
      (mkMeasurementJson 9 (plain_record origin) (underscored_record p340) 5%float) with3
    = ReceiveUpdateMeasurementRequestFromServer
        (mkMeasurementJson 9 (IsVector3 origin) (IsVector3 p340) 5%float) with3.
Proof.
  apply (proj1 X15_point_spellings with3 9 5%float origin p340).
  - unfold spellings. apply list_elem_of_further, list_elem_of_here.
  - unfold spellings. do 2 apply list_elem_of_further. apply list_elem_of_here.
Defined.

(** X16. A message whose start or end point is [undefined] or [null]. The
    create handler catches the error of the decoding: for a new id it
    prints one error line and changes nothing else. The update handler has
    no such guard: for an id that is in both maps it raises, with the state
    as it was; nothing has been written by then. *)
Theorem X16_missing_points :
  (∀ s d,
     instance s = true →
     measurementsList s !! measurement_instance_id d = None →
     json_startPoint d = IsNullish ∨ json_endPoint d = IsNullish →
     TryAddMeasurementObject d s = error ErrorAddingMeasurementObject s)
  ∧ (∀ s d,
       is_Some (plateObjects s !! measurement_instance_id d) →
       is_Some (measurementsList s !! measurement_instance_id d) →
       json_startPoint d = IsNullish ∨ json_endPoint d = IsNullish →
       ReceiveUpdateMeasurementRequestFromServer d s = Throws s).
Proof.
  split.
  - intros s d Hi Hm Hnull. unfold TryAddMeasurementObject. rewrite Hi, Hm. simpl.
    destruct Hnull as [-> | ->]; simpl; [done|].
    by destruct (decodePoint (json_startPoint d)).
  - intros s d [rp Hp] [rm Hm] Hnull. unfold ReceiveUpdateMeasurementRequestFromServer.
    rewrite Hp, Hm. destruct Hnull as [-> | ->]; simpl; [done|].
    by destruct (decodePoint (json_startPoint d)).
Qed.

(** X16, witness: a create for the new id 9 and an update for the stored id
    3, both without end point. *)
Lemma X16_missing_points_witness :
  TryAddMeasurementObject (mkMeasurementJson 9 (IsVector3 origin) IsNullish 1%float) with3
  = error ErrorAddingMeasurementObject with3
  ∧ ReceiveUpdateMeasurementRequestFromServer
      (mkMeasurementJson 3 (IsVector3 origin) IsNullish 1%float) with3
    = Throws with3.
Proof.
  split.
  - apply (proj1 X16_missing_points with3
             (mkMeasurementJson 9 (IsVector3 origin) IsNullish 1%float)).
    + reflexivity.
    + vm_compute. reflexivity.
    + right. reflexivity.
  - apply (proj2 X16_missing_points with3
             (mkMeasurementJson 3 (IsVector3 origin) IsNullish 1%float)).
    + vm_compute. eexists. reflexivity.
    + vm_compute. eexists. reflexivity.
    + right. reflexivity.
Defined.

(** ** X17: a message about one id and the other measurements *)

Lemma refs_differ (h : list MeasurementPlateObject.t) (r r' : Ref) (k k' : Z) :
  MeasurementPlateObject.measurement_instance_id <$> h !! r = Some k →
  MeasurementPlateObject.measurement_instance_id <$> h !! r' = Some k' →
  k ≠ k' → r ≠ r'.
Proof. intros Hr Hr' Hk ->. rewrite Hr in Hr'. by injection Hr'. Qed.

Lemma stored_frame (m : State → gmap Z Ref) (s s' : State) (k : Z) :
  m s' !! k = m s !! k →
  (∀ r, m s !! k = Some r → heap s' !! r = heap s !! r) →
  stored m s' k = stored m s k.
Proof.
  intros Hm Hh. unfold stored. rewrite Hm.
  destruct (m s !! k) as [r|] eqn:Hr; simpl; [by apply Hh|done].
Qed.

Lemma process_entry_stored s e k o :
  wf s →
  stored measurementsList s k = Some o →
  stored measurementsList (process_entry s e) k = Some o
  ∧ stored plateObjects (process_entry s e) k = stored plateObjects s k.
Proof.
  intros (H1 & H2 & H3) Hk. unfold process_entry. destruct (valid_entry e) as [d|].
  - destruct (TryAddMeasurementObject_cases d s)
      as [(Hreg & _ & Hh & _)|(p1 & p2 & _ & Hnew & _ & _ & Hm & Hp & Hh & _)].
    + unfold registry in Hreg. injection Hreg as Hm Hp _. unfold stored in *.
      rewrite Hm, Hp, Hh. by split.
    + unfold stored in *. rewrite Hm, Hp, Hh.
      destruct (measurementsList s !! k) as [r|] eqn:Hr; [|done]. simpl in Hk.
      assert (measurement_instance_id d ≠ k) as Hne by (intros <-; congruence).
      rewrite !lookup_insert_ne by done. rewrite Hr. simpl. split.
      * by rewrite lookup_app_l by (by eapply H1).
      * destruct (plateObjects s !! k) as [r'|] eqn:Hr'; simpl; [|done].
        by rewrite lookup_app_l by (by eapply H2).
  - by destruct s.
Qed.

(** X17. A message of the server about one id leaves every other
    measurement as it is, points, distance, colours and visuals: an update
    or a delete for [id] changes nothing of what the two maps hold under a
    different id [k], and no create message, whatever ids its entries
    carry, changes a measurement that [measurementsList] has already. *)
Theorem X17_messages_leave_the_other_measurements (s : State) (k : Z) :
  consistent s →
  (∀ d, measurement_instance_id d ≠ k →
     let s' := state_of (ReceiveUpdateMeasurementRequestFromServer d s) in
     stored measurementsList s' k = stored measurementsList s k
     ∧ stored plateObjects s' k = stored plateObjects s k)
  ∧ (∀ id, id ≠ k →
       let s' := ReceiveDeleteMeasurementRequestFromServer id s in
       stored measurementsList s' k = stored measurementsList s k
       ∧ stored plateObjects s' k = stored plateObjects s k)
  ∧ (∀ a o, stored measurementsList s k = Some o →
       let s' := ReceiveCreateNewMeasurementRequestFromServer a s in
       stored measurementsList s' k = Some o
       ∧ stored plateObjects s' k = stored plateObjects s k).
Proof.
  intros (Hwf & (Hm & Hp) & _). split_and!.
  - intros d Hne. unfold ReceiveUpdateMeasurementRequestFromServer.
    destruct (plateObjects s !! measurement_instance_id d) as [rp|] eqn:Hrp;
      [destruct (measurementsList s !! measurement_instance_id d) as [rm|] eqn:Hrm|];
      [|by destruct s..].
    destruct (decodePoint (json_startPoint d)) as [p1|]; [|done].
    destruct (decodePoint (json_endPoint d)) as [p2|]; [|done].
    apply Hp in Hrp as Hidp. apply Hm in Hrm as Hidm.
    assert (∀ r, MeasurementPlateObject.measurement_instance_id <$> heap s !! r = Some k →
                 r ≠ rp ∧ r ≠ rm) as Hother.
    { intros r Hr. split; eapply refs_differ; eauto. }
    cbv zeta. simpl state_of.
    split; apply stored_frame; try (by destruct s);
      intros r Hr; [apply Hm in Hr|apply Hp in Hr];
      destruct (Hother r Hr) as [? ?]; destruct s; cbn in *;
      by rewrite !list_lookup_alter_ne by done.
  - intros id Hne. unfold ReceiveDeleteMeasurementRequestFromServer.
    destruct (plateObjects s !! id) as [rp|] eqn:Hrp; [|by destruct s].
    apply Hp in Hrp as Hidp. cbv zeta.
    split; apply stored_frame;
      try (destruct s; cbn in *; case_bool_decide; cbn; by rewrite lookup_delete_ne);
      intros r Hr; [apply Hm in Hr|apply Hp in Hr];
      assert (r ≠ rp) by (eapply refs_differ; eauto);
      destruct s; cbn in *; case_bool_decide; cbn;
      by rewrite list_lookup_alter_ne by done.
  - intros [|entries] o Hk; cbv zeta; [by destruct s|].
    unfold ReceiveCreateNewMeasurementRequestFromServer.
    assert (wf (log (ReceivedMeasurements (length entries)) s)) as Hlog
      by (revert Hwf; apply wf_shape; frame_solve).
    assert (stored plateObjects (log (ReceivedMeasurements (length entries)) s) k
            = stored plateObjects s k) as <- by (by destruct s).
    assert (stored measurementsList (log (ReceivedMeasurements (length entries)) s) k = Some o)
      as Hk' by (by destruct s).
    revert Hlog Hk'. generalize (log (ReceivedMeasurements (length entries)) s).
    induction entries as [|e es IH]; intros t Ht Hs; simpl; [done|].
    destruct (process_entry_stored t e k o Ht Hs) as [Ha Hb].
    rewrite <-Hb. apply IH; [by apply process_entry_wf|done].
Qed.


Lemma consistent_opened : consistent opened.
Proof. apply EnableMeasuring_consistent, consistent_Init. Qed.

Lemma consistent_with3 : consistent with3.
Proof. apply step_consistent, consistent_opened. Qed.

Lemma consistent_with3_limited : consistent with3_limited.
Proof.
  apply step_consistent, EnableMeasuring_consistent, consistent_Init_engine.
Qed.

Lemma consistent_with3and5 : consistent with3and5.
Proof. apply step_consistent, consistent_with3. Qed.

(** X17, witness: the Registry holds the measurements 3 and 5. An update
    broadcast moves the end point of 5, a delete broadcast removes 5, and a
    create broadcast brings 7 and, again, 3: each time measurement 3 is
    stored as before, while the message does change the Registry. *)
Lemma X17_messages_leave_the_other_measurements_witness :
  let moved := mkMeasurementJson 5 (IsVector3 origin) (IsVector3 east1) 1%float in
  let batch := IsArray [EntryObject (IdNumber 7) (IsVector3 origin) (IsVector3 p340) 5%float;
                        EntryObject (IdNumber 3) (IsVector3 p340) (IsVector3 origin) 5%float] in
  let s1 := state_of (ReceiveUpdateMeasurementRequestFromServer moved with3and5) in
  let s2 := ReceiveDeleteMeasurementRequestFromServer 5 with3and5 in
  let s3 := ReceiveCreateNewMeasurementRequestFromServer batch with3and5 in
  consistent with3and5
  ∧ (stored measurementsList s1 3 = stored measurementsList with3and5 3
     ∧ stored plateObjects s1 3 = stored plateObjects with3and5 3)
  ∧ (MeasurementPlateObject.endPoint <$> stored measurementsList with3and5 5) = Some p340
  ∧ (MeasurementPlateObject.endPoint <$> stored measurementsList s1 5) = Some east1
  ∧ (stored measurementsList s2 3 = stored measurementsList with3and5 3
     ∧ stored plateObjects s2 3 = stored plateObjects with3and5 3)
  ∧ is_Some (stored plateObjects with3and5 5)
  ∧ stored plateObjects s2 5 = None
  ∧ (stored measurementsList s3 3
     = Some (MeasurementPlateObject.InitPlate (dashedLines opened) 0
               (MeasurementPlateObject.constructor 3 origin east1 1%float))
     ∧ stored plateObjects s3 3 = stored plateObjects with3and5 3)
  ∧ stored measurementsList with3and5 7 = None
  ∧ is_Some (stored measurementsList s3 7).
Proof.
  intros moved batch s1 s2 s3.
  pose proof (X17_messages_leave_the_other_measurements with3and5 3 consistent_with3and5)
    as (Hupdate & Hdelete & Hcreate).
  split; [exact consistent_with3and5|].
  split; [apply (Hupdate moved); discriminate|].
  split; [vm_compute; reflexivity|].
  split; [vm_compute; reflexivity|].
  split; [apply (Hdelete 5); discriminate|].
  split; [vm_compute; eexists; reflexivity|].
  split; [vm_compute; reflexivity|].
  split; [apply (Hcreate batch); vm_compute; reflexivity|].
  split; [vm_compute; reflexivity|].
  vm_compute. eexists. reflexivity.
Defined.

(** ** X18, X19, X20: the two resets of the session *)

Lemma ClearGUI_twice o :
  MeasurementPlateObject.ClearGUI (MeasurementPlateObject.ClearGUI o)
  = MeasurementPlateObject.ClearGUI o.
Proof. by destruct o. Qed.

Lemma clear_all_lookup (rs : list Ref) (h : list MeasurementPlateObject.t) (r : Ref) :
  foldl (λ h r, alter MeasurementPlateObject.ClearGUI r h) h rs !! r
  = if decide (r ∈ rs) then MeasurementPlateObject.ClearGUI <$> h !! r else h !! r.
Proof.
  revert h. induction rs as [|a rs IH]; intros h.
  - destruct (decide (r ∈ [])) as [Hin|]; [by apply elem_of_nil in Hin|done].
  - change (foldl (λ h r, alter MeasurementPlateObject.ClearGUI r h) h (a :: rs))
      with (foldl (λ h r, alter MeasurementPlateObject.ClearGUI r h)
              (alter MeasurementPlateObject.ClearGUI a h) rs).
    rewrite IH. destruct (decide (a = r)) as [->|Hne].
    + rewrite list_lookup_alter.
      destruct (decide (r ∈ r :: rs)) as [_|Hn]; [|destruct Hn; by left].
      destruct (decide (r = r)); [|done]. destruct (decide (r ∈ rs)); [|done].
      destruct (h !! r); simpl; [|done]. by rewrite ClearGUI_twice.
    + rewrite list_lookup_alter_ne by done.
      destruct (decide (r ∈ rs)) as [Hin|Hin], (decide (r ∈ a :: rs)) as [Hin'|Hin'];
        try done.
      * destruct Hin'. by right.
      * apply elem_of_cons in Hin' as [->|?]; done.
Qed.

(** X18. [ClearGUIObjects] disposes the visuals of every plate that
    [plateObjects] holds and empties that map; it leaves [measurementsList],
    the data of every measurement and every other plate as they are. With
    [ClearMeasurementData] it commutes, and the two together empty both
    maps. *)
Theorem X18_clearing_the_visuals (s : State) :
  let s' := ClearGUIObjects s in
  plateObjects s' = ∅
  ∧ measurementsList s' = measurementsList s
  ∧ entity <$> heap s' = entity <$> heap s
  ∧ (∀ k r, plateObjects s !! k = Some r →
       heap s' !! r = MeasurementPlateObject.ClearGUI <$> heap s !! r)
  ∧ (∀ r, (∀ k, plateObjects s !! k ≠ Some r) → heap s' !! r = heap s !! r)
  ∧ ClearMeasurementData s' = ClearGUIObjects (ClearMeasurementData s)
  ∧ measurementsList (ClearMeasurementData s') = ∅
  ∧ plateObjects (ClearMeasurementData s') = ∅.
Proof.
  cbv zeta. split_and!; try (by destruct s).
  - destruct s; cbn. apply list_eq. intros i. rewrite !list_lookup_fmap, clear_all_lookup.
    destruct (decide _); [|done]. by destruct (heap0 !! i) as [[]|].
  - intros k r Hk. destruct s; cbn in *. rewrite clear_all_lookup.
    rewrite decide_True; [done|].
    apply list_elem_of_fmap. exists (k, r). split; [done|]. by apply elem_of_map_to_list.
  - intros r Hr. destruct s; cbn in *. rewrite clear_all_lookup.
    rewrite decide_False; [done|].
    intros ([k r'] & -> & Hin)%list_elem_of_fmap. apply elem_of_map_to_list in Hin.
    by apply (Hr k).
Qed.

(** X18, witness: the plate of measurement 3 loses its line. *)
Lemma X18_clearing_the_visuals_witness :
  plateObjects with3 !! 3 = Some 0%nat
  ∧ heap (ClearGUIObjects with3) !! 0%nat
    = MeasurementPlateObject.ClearGUI <$> heap with3 !! 0%nat.
Proof.
  assert (plateObjects with3 !! 3 = Some 0%nat) as H by (vm_compute; reflexivity).
  split; [exact H|].
  exact (proj1 (proj2 (proj2 (proj2 (X18_clearing_the_visuals with3)))) 3 0%nat H).
Defined.


Lemma hidden_shape k r s s' : shape s' = shape s → hidden k r s → hidden k r s'.
Proof. unfold shape, hidden. by intros [= -> -> _]. Qed.

Lemma process_entry_hidden k r s e : hidden k r s → hidden k r (process_entry s e).
Proof.
  intros [Hm Hp]. unfold process_entry. destruct (valid_entry e) as [d|].
  - destruct (TryAddMeasurementObject_cases d s)
      as [(Hreg & _)|(p1 & p2 & _ & Hnew & _ & _ & Hm' & Hp' & _)].
    + apply (hidden_shape k r s); [by apply shape_of_registry|done].
    + assert (measurement_instance_id d ≠ k) as Hne by (intros <-; congruence).
      unfold hidden. by rewrite Hm', Hp', !lookup_insert_ne.
  - by destruct s.
Qed.

Lemma step_hidden k r s ev : ev ≠ ClearData → hidden k r s → hidden k r (step s ev).
Proof.
  intros Hev Hh. pose proof (step_shape s ev) as Hshape.
  destruct ev as [| | | | |key|e pick|e pick|pick|a|d|id| |];
    try (by apply (hidden_shape k r s)); try done.
  - destruct a as [|entries]; simpl; [by destruct s|].
    assert (hidden k r (log (ReceivedMeasurements (length entries)) s)) as Hlog
      by (by destruct s).
    revert Hlog. generalize (log (ReceivedMeasurements (length entries)) s).
    induction entries as [|e es IH]; intros t Ht; simpl; [done|].
    by apply IH, process_entry_hidden.
  - destruct Hh as [Hm Hp]. simpl. unfold ReceiveDeleteMeasurementRequestFromServer.
    destruct (plateObjects s !! id) as [rp|] eqn:Hrp; [|by destruct s].
    assert (id ≠ k) as Hne by (intros <-; congruence).
    unfold hidden. destruct s; cbn in *. case_bool_decide; cbn; by rewrite !lookup_delete_ne.
  - destruct Hh as [Hm Hp]. unfold hidden. by destruct s.
Qed.

(** X19. A measurement that is in [measurementsList] and not in
    [plateObjects], as every measurement is after [ClearGUIObjects] alone,
    stays so whatever happens, short of [ClearMeasurementData]: a create
    broadcast for its id is taken for a duplicate, an update or a delete for
    it is taken for an unknown id, and nothing local adds to the maps. This
    is about the two maps, not about the meshes of its plate. *)
Theorem X19_hidden_measurements_stay_hidden (s : State) (evs : list SceneEvent)
    (k : Z) (r : Ref) :
  measurementsList s !! k = Some r →
  Forall (λ ev, ev ≠ Controller ClearData) evs →
  (plateObjects s !! k = None → hidden k r (scene_run s evs))
  ∧ hidden k r (scene_run (ClearGUIObjects s) evs).
Proof.
  intros Hm Hevs.
  assert (∀ t, hidden k r t → hidden k r (scene_run t evs)) as Hrun.
  { induction Hevs as [|ev evs Hev _ IH]; intros t Ht; simpl; [done|].
    apply IH. destruct ev as [ev|r' pt|r' pt]; simpl.
    - apply step_hidden; [congruence|done].
    - unfold fire_trigger. case_match; [|done]. by destruct t.
    - unfold fire_trigger. case_match; [|done]. by destruct t. }
  split; [intros Hp|]; apply Hrun; [done|]. unfold hidden. by destruct s.
Qed.

(** X19, witness: the visuals are cleared, then the server broadcasts
    measurement 3 again and the user hovers where its end point was. *)
Lemma X19_hidden_measurements_stay_hidden_witness :
  hidden 3 0%nat
    (scene_run (ClearGUIObjects with3)
       [Controller (ServerCreate (IsArray [EntryObject (IdNumber 3) (IsVector3 origin)
                                             (IsVector3 east1) 1%float]));
        Controller (BeforeRender overEndOf3)]).
Proof.
  apply (X19_hidden_measurements_stay_hidden with3).
  - vm_compute. reflexivity.
  - repeat constructor; discriminate.
Defined.


(** The meshes of a hidden measurement can come back: the visuals are
    cleared while the end point of measurement 3 is being moved, and the
    pointer is released off the surface before any frame has picked a point.
    The cancelled move redraws the plate, which [plateObjects] still does
    not hold. *)
Example hidden_plate_is_redrawn_by_a_cancelled_move :
  let s := run with3 [PointerDown leftButton overEndOf3; ClearGUI;
                      PointerUp leftButton (mkPickingInfo false None None)] in
  hidden 3 0%nat s
  ∧ heap s !! 0%nat
    = Some (MeasurementPlateObject.InitPlate (dashedLines with3) 0
              (MeasurementPlateObject.constructor 3 origin east1 1%float)).
Proof. vm_compute. split; [split|]; reflexivity. Qed.

(** X20. [ClearMeasurementData] alone forgets the data and keeps the
    visuals. A create broadcast that then names a measurement still shown
    is not taken for a duplicate: a second plate object is allocated,
    [InitPlate] runs on it, and both maps point to it. It has its two
    spheres, and a dashed line and a label when the engine builds the dashed
    line for its data, neither of them otherwise. The first plate is
    disposed by none of this, it keeps its line, label and spheres, and no
    key of either map refers to it any more. *)
Theorem X20_create_after_clearing_the_data_only (s : State) (d : MeasurementJson)
    (r : Ref) (o : MeasurementPlateObject.t) (p1 p2 : Vector3) :
  consistent s →
  instance s = true →
  plateObjects s !! measurement_instance_id d = Some r →
  heap s !! r = Some o →
  decodePoint (json_startPoint d) = Some p1 →
  decodePoint (json_endPoint d) = Some p2 →
  let s' := TryAddMeasurementObject d (ClearMeasurementData s) in
  let r' := length (heap s) in
  r' ≠ r
  ∧ measurementsList s' !! measurement_instance_id d = Some r'
  ∧ plateObjects s' !! measurement_instance_id d = Some r'
  ∧ heap s' !! r = Some o
  ∧ heap s' !! r' = Some (MeasurementPlateObject.InitPlate (dashedLines s) r'
                            (MeasurementPlateObject.constructor
                               (measurement_instance_id d) p1 p2 (distanceMeasured d)))
  ∧ (let built := dashedLines s p1 p2 (distanceMeasured d) in
     heap s' !! r'
     = Some (MeasurementPlateObject.mk (measurement_instance_id d) p1 p2 (distanceMeasured d)
               (if built then Some (mkLinesMesh p1 p2 EngineDefault worldSpace false true false)
                else None)
               (if built then Some (mkTextMesh (distanceMeasured d) (midPoint p1 p2) false)
                else None)
               (Some (mkCollider p1 true worldSpace colors_point_default
                        (mkColliderMetadata r' PStart (measurement_instance_id d))))
               (Some (mkCollider p2 true worldSpace colors_point_default
                        (mkColliderMetadata r' PEnd (measurement_instance_id d))))))
  ∧ (∀ k, measurementsList s' !! k ≠ Some r ∧ plateObjects s' !! k ≠ Some r).
Proof.
  intros ((H1 & H2 & H3) & (Hm & Hp) & _) Hi Hr Ho Hd1 Hd2. cbv zeta.
  assert (r < length (heap s))%nat as Hlt by (by eapply H2).
  unfold TryAddMeasurementObject, ClearMeasurementData.
  destruct s; cbn in *. subst. cbn. rewrite Hd1, Hd2, lookup_empty.
  rewrite bool_decide_eq_false_2 by (by intros [? ?]). cbn.
  rewrite !lookup_insert_eq. split_and!; try done.
  - lia.
  - by rewrite lookup_app_l.
  - by rewrite lookup_app_r, Nat.sub_diag by lia.
  - rewrite lookup_app_r, Nat.sub_diag by lia. simpl. f_equal. plate_cases; reflexivity.
  - intros k. split.
    + destruct (decide (k = measurement_instance_id d)) as [->|Hne].
      * rewrite lookup_insert_eq. intros [= ?]. lia.
      * by rewrite lookup_insert_ne, lookup_empty.
    + destruct (decide (k = measurement_instance_id d)) as [->|Hne].
      * rewrite lookup_insert_eq. intros [= ?]. lia.
      * rewrite lookup_insert_ne by done. intros Hk.
        apply Hp in Hk. apply Hp in Hr. rewrite Hk in Hr. by injection Hr.
Qed.

(** X20, witness: the data is cleared while measurement 3 is shown, then
    the server broadcasts it again, this time from the origin to
    (2^1000,0,0) with the distance 2^1000, over the engine that builds lines
    up to 1000. The second
    plate has its spheres and neither line nor label; the first one keeps
    its line. *)
Lemma X20_create_after_clearing_the_data_only_witness :
  let s' := TryAddMeasurementObject
              (mkMeasurementJson 3 (IsVector3 origin) (IsVector3 far) 0x1p+1000%float)
              (ClearMeasurementData with3_limited) in
  plateObjects s' !! 3 = Some 1%nat
  ∧ heap s' !! 1%nat
    = Some (MeasurementPlateObject.mk 3 origin far 0x1p+1000 None None
              (Some (mkCollider origin true worldSpace colors_point_default
                       (mkColliderMetadata 1 PStart 3)))
              (Some (mkCollider far true worldSpace colors_point_default
                       (mkColliderMetadata 1 PEnd 3))))
  ∧ (MeasurementPlateObject.line <$> heap s' !! 0%nat)
    = (MeasurementPlateObject.line <$> heap with3_limited !! 0%nat)
  ∧ is_Some (heap with3_limited !! 0%nat ≫= MeasurementPlateObject.line).
Proof.
  destruct (heap with3_limited !! 0%nat) as [o|] eqn:Ho; [|vm_compute in Ho; discriminate Ho].
  destruct (X20_create_after_clearing_the_data_only with3_limited
              (mkMeasurementJson 3 (IsVector3 origin) (IsVector3 far) 0x1p+1000%float)
              0%nat o origin far consistent_with3_limited)
    as (_ & _ & Hp & Hh & _ & Hnew & _); try reflexivity; try exact Ho.
  cbv zeta. split; [exact Hp|]. split; [exact Hnew|]. split; [by rewrite Hh|].
  vm_compute in Ho. injection Ho as <-. vm_compute. eexists. reflexivity.
Defined.

(** ** X21, X22, X23: opening and closing the tool *)

Lemma wiring_environment s s' : wiring s' = wiring s → environment s' = environment s.
Proof. unfold wiring, environment. intros [= ? ? ? ? ? ? ? ? ?]. congruence. Qed.

Lemma settings_wiring s s' : settings s' = settings s → wiring s' = wiring s.
Proof. unfold wiring, settings. intros [= ? ? ? ? ? ? ? ? ? ? ? ?]. congruence. Qed.

Lemma SetActionState_wiring a s : wiring (SetActionState a s) = wiring s.
Proof.
  unfold SetActionState, UpdateActionButtonStates, SetMeasurementColor. view_solve.
Qed.

Lemma SetActionState_mode a s : currentActionState (SetActionState a s) = a.
Proof.
  unfold SetActionState, UpdateActionButtonStates, SetMeasurementColor, modify_plate, log.
  destruct s, a; cbn; repeat case_match; reflexivity.
Qed.

Lemma ToggleDeleteMode_wiring s : wiring (ToggleDeleteMode s) = wiring s.
Proof. apply SetActionState_wiring. Qed.

Lemma SetActionState_environment a s : environment (SetActionState a s) = environment s.
Proof. apply wiring_environment, SetActionState_wiring. Qed.

#[export] Hint Resolve SetActionState_environment : quiet.

Lemma ToggleDeleteMode_environment s : environment (ToggleDeleteMode s) = environment s.
Proof. apply SetActionState_environment. Qed.

#[export] Hint Resolve ToggleDeleteMode_environment : quiet.

Lemma DisableMeasuring_environment s : environment (DisableMeasuring s) = environment s.
Proof. unfold DisableMeasuring. view_solve. Qed.

#[export] Hint Resolve DisableMeasuring_environment : quiet.

Lemma onKeyDown_environment key s : environment (onKeyDown key s) = environment s.
Proof.
  unfold onKeyDown, DeleteMeasurement, SendDeleteMeasurementRequestToServer, ClearMovePreview.
  view_solve.
Qed.

Lemma onKeyDown_Escape key s :
  key = "Escape" →
  onKeyDown key s
  = if bool_decide (currentActionState s ≠ ActionStates.None)
    then SetActionState ActionStates.None s else DisableMeasuring s.
Proof.
  intros ->. unfold onKeyDown.
  rewrite (bool_decide_eq_true_2 ("Escape" = "Escape")) by done.
  rewrite (bool_decide_eq_false_2 ("Escape" = "x")) by done.
  by rewrite (bool_decide_eq_false_2 ("Escape" = "X")) by done.
Qed.


Lemma iter_environment (f : State → State) n s :
  (∀ t, environment (f t) = environment t) →
  environment (Nat.iter n f s) = environment s.
Proof. intros Hf. induction n as [|n IH]; simpl; [done|]. by rewrite Hf. Qed.

Lemma scene_step_environment s ev :
  opens ev = false → environment (scene_step s ev) = environment s.
Proof.
  intros Hev. destruct ev as [ev|r pt|r pt]; unfold scene_step.
  - destruct ev; unfold step; try discriminate Hev; auto with quiet.
    + apply iter_environment, onKeyDown_environment.
    + destruct (onPointerObservable s); [done|].
      apply wiring_environment, settings_wiring, HandlePointerDown_settings.
    + destruct (onPointerObservable s); [done|].
      apply wiring_environment, settings_wiring, HandlePointerUp_settings.
    + destruct (onBeforeRenderObservable s); [done|].
      apply wiring_environment, settings_wiring, HandlePointerMove_settings.
    + apply wiring_environment, settings_wiring, ReceiveCreate_settings.
    + apply wiring_environment, settings_wiring, ReceiveUpdate_settings.
    + apply wiring_environment, settings_wiring, ReceiveDelete_settings.
    + by destruct s.
    + by destruct s.
  - unfold fire_trigger. case_match; [|done]. by destruct s.
  - unfold fire_trigger. case_match; [|done]. by destruct s.
Qed.

(** X21. Every time the menu opens the tool one more [keydown] listener is
    on the window, and no event of the controller takes one away, closing
    the tool neither (only the disposal of the scene removes them): after
    any sequence of events the number of listeners has grown by the number
    of times the tool was opened. *)
Theorem X21_keydown_listeners_accumulate (s : State) (evs : list SceneEvent) :
  scene s = true →
  scene (scene_run s evs) = true
  ∧ keydownListeners (scene_run s evs)
    = (keydownListeners s + length (filter (λ ev, opens ev) evs))%nat.
Proof.
  revert s. induction evs as [|ev evs IH]; intros s Hs.
  - split; [done|]. simpl. lia.
  - change (scene_run s (ev :: evs)) with (scene_run (scene_step s ev) evs).
    destruct (opens ev) eqn:Hev.
    + rewrite filter_cons_True by (by rewrite Hev).
      destruct ev as [[]| |]; try discriminate Hev.
      change (scene_step s (Controller MenuEnabled)) with (EnableMeasuring s).
      assert (scene (EnableMeasuring s) = true
              ∧ keydownListeners (EnableMeasuring s) = S (keydownListeners s)) as [Ha Hb].
      { unfold EnableMeasuring. rewrite Hs. by destruct s. }
      destruct (IH (EnableMeasuring s) Ha) as [H1 H2].
      split; [done|]. rewrite H2, Hb. simpl. lia.
    + rewrite filter_cons_False by (rewrite Hev; exact id).
      pose proof (scene_step_environment s ev Hev) as Henv.
      unfold environment in Henv. injection Henv as Hsc Hk _ _.
      destruct (IH (scene_step s ev)) as [H1 H2]; [congruence|].
      split; [done|]. by rewrite H2, Hk.
Qed.

(** X21, witness: the tool is opened, closed and opened again. *)
Lemma X21_keydown_listeners_accumulate_witness :
  keydownListeners
    (scene_run (Init true true constructor)
       [Controller MenuEnabled; Controller MenuDisabled; Controller MenuEnabled])
  = 2%nat.
Proof.
  apply (X21_keydown_listeners_accumulate (Init true true constructor)
           [Controller MenuEnabled; Controller MenuDisabled; Controller MenuEnabled]).
  reflexivity.
Defined.


Lemma wiring_observers s s' :
  wiring s' = wiring s →
  pointerObserver s' = pointerObserver s ∧ beforeRenderObserver s' = beforeRenderObserver s.
Proof. unfold wiring. intros [= ? ? ? ? ? ? ? ? ?]. by split. Qed.

Lemma wiring_observables s s' :
  wiring s' = wiring s →
  onPointerObservable s' = onPointerObservable s
  ∧ onBeforeRenderObservable s' = onBeforeRenderObservable s.
Proof. unfold wiring. intros [= ? ? ? ? ? ? ? ? ?]. by split. Qed.

Lemma environment_scene s s' : environment s' = environment s → scene s' = scene s.
Proof. unfold environment. intros [= ? ? ? ? ?]. done. Qed.

(** What closing the tool does to the two observables: the observer a field
    holds is removed, which leaves the others, and the field is cleared. *)
Lemma DisableMeasuring_observers s :
  scene s = true →
  closed (DisableMeasuring s)
  ∧ onPointerObservable (DisableMeasuring s)
    = (if pointerObserver s then Nat.pred (onPointerObservable s) else onPointerObservable s)
  ∧ onBeforeRenderObservable (DisableMeasuring s)
    = (if beforeRenderObserver s then Nat.pred (onBeforeRenderObservable s)
       else onBeforeRenderObservable s).
Proof.
  intros Hs. unfold DisableMeasuring. rewrite Hs. cbn [negb]. cbv zeta.
  set (s0 := if pointerObserver s then _ else s).
  set (s1 := if beforeRenderObserver s0 then _ else s0).
  assert (pointerObserver s1 = false ∧ beforeRenderObserver s1 = false
          ∧ onPointerObservable s1
            = (if pointerObserver s then Nat.pred (onPointerObservable s)
               else onPointerObservable s)
          ∧ onBeforeRenderObservable s1
            = (if beforeRenderObserver s then Nat.pred (onBeforeRenderObservable s)
               else onBeforeRenderObservable s)) as (Hp & Hb & Hnp & Hnb).
  { subst s1 s0. destruct s; cbn. by destruct pointerObserver0, beforeRenderObserver0. }
  rewrite <-Hnp, <-Hnb. clearbody s1. clear s0.
  set (s2 := if bool_decide (currentActionState s1 ≠ ActionStates.None)
             then SetActionState ActionStates.None s1 else s1).
  assert (currentActionState s2 = ActionStates.None ∧ wiring s2 = wiring s1) as [Hm Hw].
  { subst s2. case_bool_decide as Hmode.
    - split; [apply SetActionState_mode|apply SetActionState_wiring].
    - split; [|done]. by destruct (decide (currentActionState s1 = ActionStates.None)). }
  destruct (wiring_observers _ _ Hw) as [Hp2 Hb2].
  destruct (wiring_observables _ _ Hw) as [Hnp2 Hnb2].
  rewrite <-Hnp2, <-Hnb2. rewrite Hp in Hp2. rewrite Hb in Hb2.
  clearbody s2. unfold closed. destruct s2; simpl in *. by subst.
Qed.

Lemma DisableMeasuring_closed s : scene s = true → closed (DisableMeasuring s).
Proof. intros Hs. by destruct (DisableMeasuring_observers s Hs). Qed.

(** An observable without observer calls nothing, and one with an observer
    calls the handler. *)
Lemma step_without_observer s :
  (onPointerObservable s = 0%nat →
     ∀ e pick, step s (PointerDown e pick) = s ∧ step s (PointerUp e pick) = s)
  ∧ (onBeforeRenderObservable s = 0%nat → ∀ pick, step s (BeforeRender pick) = s).
Proof. split; intros H; intros; unfold step; by rewrite H. Qed.

Lemma step_with_an_observer s :
  (onPointerObservable s ≠ 0%nat →
     ∀ e pick, step s (PointerDown e pick) = HandlePointerDown e pick s
               ∧ step s (PointerUp e pick) = HandlePointerUp e pick s)
  ∧ (onBeforeRenderObservable s ≠ 0%nat →
       ∀ pick, step s (BeforeRender pick) = HandlePointerMove pick s).
Proof.
  split; intros H; intros; unfold step.
  - by destruct (onPointerObservable s).
  - by destruct (onBeforeRenderObservable s).
Qed.

(** Escape with two or more listeners: the first one leaves the mode, the
    second one closes the tool, and the others find it closed. *)
Lemma escape_closes s n :
  scene s = true →
  currentActionState s ≠ ActionStates.None →
  let t := Nat.iter (S (S n)) (onKeyDown "Escape") s in
  scene t = true
  ∧ closed t
  ∧ onPointerObservable t
    = (if pointerObserver s then Nat.pred (onPointerObservable s) else onPointerObservable s)
  ∧ onBeforeRenderObservable t
    = (if beforeRenderObserver s then Nat.pred (onBeforeRenderObservable s)
       else onBeforeRenderObservable s).
Proof.
  intros Hs Hmode. cbv zeta. induction n as [|n (IHs & IHc & IHp & IHb)].
  - simpl. rewrite (onKeyDown_Escape "Escape" s eq_refl).
    rewrite bool_decide_eq_true_2 by done.
    pose proof (environment_scene _ _ (SetActionState_environment ActionStates.None s))
      as Hsc.
    rewrite Hs in Hsc.
    rewrite (onKeyDown_Escape "Escape" _ eq_refl).
    rewrite bool_decide_eq_false_2 by (by rewrite SetActionState_mode; intros []).
    destruct (DisableMeasuring_observers _ Hsc) as (Hc & Hp & Hb).
    destruct (wiring_observers _ _ (SetActionState_wiring ActionStates.None s)) as [Hfp Hfb].
    destruct (wiring_observables _ _ (SetActionState_wiring ActionStates.None s))
      as [Hnp Hnb].
    rewrite Hfp, Hnp in Hp. rewrite Hfb, Hnb in Hb.
    split_and!; try done.
    pose proof (environment_scene _ _
                  (DisableMeasuring_environment (SetActionState ActionStates.None s)))
      as Hsc'.
    congruence.
  - change (Nat.iter (S (S (S n))) (onKeyDown "Escape") s)
      with (onKeyDown "Escape" (Nat.iter (S (S n)) (onKeyDown "Escape") s)).
    generalize dependent (Nat.iter (S (S n)) (onKeyDown "Escape") s).
    intros t Ht Hc Hp Hb. rewrite (onKeyDown_Escape "Escape" t eq_refl).
    destruct Hc as (Hm & Hfp & Hfb & _).
    rewrite bool_decide_eq_false_2 by (by rewrite Hm; intros []).
    destruct (DisableMeasuring_observers _ Ht) as (Hc' & Hp' & Hb').
    rewrite Hfp in Hp'. rewrite Hfb in Hb'.
    split_and!; try done; try congruence.
    pose proof (environment_scene _ _ (DisableMeasuring_environment t)) as Hsc'.
    congruence.
Qed.

(** X22. With one [keydown] listener Escape in a mode other than [None]
    only leaves the mode. With more listeners, which the tool has once it
    has been opened more than once, they run one after the other on the
    same press: the first leaves the mode and the next one, finding no
    mode, closes the tool. Closing removes from each observable the
    observer that the controller's field holds, and no other. If that was
    the only observer on the observable, as it is when the tool was closed
    before it was opened again, the pointer is ignored until the menu opens
    the tool again. If an observer of an earlier opening is left, as it is
    when the tool was opened twice in a row, its handler still runs on
    every press, release and frame, on the closed tool. *)
Theorem X22_escape_with_several_listeners (s : State) (n : nat) :
  scene s = true →
  currentActionState s ≠ ActionStates.None →
  let t := step s (KeyDown "Escape") in
  (keydownListeners s = 1%nat →
     currentActionState t = ActionStates.None ∧ wiring t = wiring s)
  ∧ (keydownListeners s = S (S n) →
       closed t
       ∧ onPointerObservable t
         = (if pointerObserver s then Nat.pred (onPointerObservable s)
            else onPointerObservable s)
       ∧ onBeforeRenderObservable t
         = (if beforeRenderObserver s then Nat.pred (onBeforeRenderObservable s)
            else onBeforeRenderObservable s)
       ∧ (pointerObserver s = true → onPointerObservable s = 1%nat →
            ∀ e pick, step t (PointerDown e pick) = t ∧ step t (PointerUp e pick) = t)
       ∧ (beforeRenderObserver s = true → onBeforeRenderObservable s = 1%nat →
            ∀ pick, step t (BeforeRender pick) = t)
       ∧ ((2 ≤ onPointerObservable s)%nat →
            ∀ e pick, step t (PointerDown e pick) = HandlePointerDown e pick t
                      ∧ step t (PointerUp e pick) = HandlePointerUp e pick t)
       ∧ ((2 ≤ onBeforeRenderObservable s)%nat →
            ∀ pick, step t (BeforeRender pick) = HandlePointerMove pick t)).
Proof.
  intros Hs Hmode. cbv zeta.
  change (step s (KeyDown "Escape"))
    with (Nat.iter (keydownListeners s) (onKeyDown "Escape") s).
  split.
  - intros ->. simpl. rewrite (onKeyDown_Escape "Escape" s eq_refl).
    rewrite bool_decide_eq_true_2 by done.
    split; [apply SetActionState_mode|apply SetActionState_wiring].
  - intros ->. destruct (escape_closes s n Hs Hmode) as (_ & Hc & Hp & Hb).
    revert Hc Hp Hb. generalize (Nat.iter (S (S n)) (onKeyDown "Escape") s). intros t Hc Hp Hb.
    split_and!; try done.
    + intros Hf Hone. apply (proj1 (step_without_observer t)). by rewrite Hp, Hf, Hone.
    + intros Hf Hone. apply (proj2 (step_without_observer t)). by rewrite Hb, Hf, Hone.
    + intros Htwo. apply (proj1 (step_with_an_observer t)). rewrite Hp.
      destruct (pointerObserver s); lia.
    + intros Htwo. apply (proj2 (step_with_an_observer t)). rewrite Hb.
      destruct (beforeRenderObserver s); lia.
Qed.

(** X22, witness. The tool is opened, closed and opened again, create mode
    is entered and Escape is pressed once: the tool is closed, no observer
    is left and a press is ignored. The tool is opened twice in a row,
    create mode is entered and Escape is pressed once: the fields hold no
    observer, one observer is left on each observable, and a press still
    runs the handler. *)
Lemma X22_escape_with_several_listeners_witness :
  let reopened := run (Init true true constructor)
                    [MenuEnabled; MenuDisabled; MenuEnabled; CreateButtonDown] in
  let twice := run (Init true true constructor) [MenuEnabled; MenuEnabled; CreateButtonDown] in
  let t1 := step reopened (KeyDown "Escape") in
  let t2 := step twice (KeyDown "Escape") in
  (closed t1
   ∧ onPointerObservable t1 = 0%nat
   ∧ step t1 (PointerDown leftButton overOrigin) = t1)
  ∧ (closed t2
     ∧ onPointerObservable t2 = 1%nat
     ∧ onBeforeRenderObservable t2 = 1%nat
     ∧ step t2 (PointerDown leftButton overOrigin) = HandlePointerDown leftButton overOrigin t2
     ∧ step t2 (BeforeRender overOrigin) = HandlePointerMove overOrigin t2).
Proof.
  intros reopened twice t1 t2. split.
  - assert (scene reopened = true) as Hs by reflexivity.
    assert (currentActionState reopened ≠ ActionStates.None) as Hm
      by (vm_compute; discriminate).
    destruct (proj2 (X22_escape_with_several_listeners reopened 0%nat Hs Hm) eq_refl)
      as (Hc & Hp & _ & Hignored & _).
    split; [exact Hc|]. split; [exact Hp|].
    exact (proj1 (Hignored eq_refl eq_refl leftButton overOrigin)).
  - assert (scene twice = true) as Hs by reflexivity.
    assert (currentActionState twice ≠ ActionStates.None) as Hm
      by (vm_compute; discriminate).
    destruct (proj2 (X22_escape_with_several_listeners twice 0%nat Hs Hm) eq_refl)
      as (Hc & Hp & Hb & _ & _ & Hdown & Hframe).
    split; [exact Hc|]. split; [exact Hp|]. split; [exact Hb|]. split.
    + refine (proj1 (Hdown _ leftButton overOrigin)). vm_compute. lia.
    + refine (Hframe _ overOrigin). vm_compute. lia.
Defined.


Lemma DisableMeasuring_move_state s : move_state (DisableMeasuring s) = move_state s.
Proof.
  unfold DisableMeasuring, SetActionState, UpdateActionButtonStates, SetMeasurementColor.
  view_solve.
Qed.

Lemma move_state_target s s' : move_state s' = move_state s → move_target s' = move_target s.
Proof. unfold move_state, move_target. by intros [= -> -> _ _ _ _ _]. Qed.

(** X23. Closing the tool removes the observer held in each of the two
    fields from its observable and clears the field, leaves the mode and
    drops a create drag with its preview. It sends nothing, keeps the
    Registry and the [keydown] listeners, and does not cancel a move of a
    point: the move state is as before. The keyboard is still live: with a
    move in progress and one listener, X on the closed tool sends the
    delete request for the measurement being moved. *)
Theorem X23_closing_the_tool (s : State) :
  scene s = true →
  let t := step s MenuDisabled in
  closed t
  ∧ environment t = environment s
  ∧ registry t = registry s
  ∧ sent t = sent s
  ∧ move_state t = move_state s
  ∧ (∀ key,
       keydownListeners s = 1%nat → armed key s = true →
       sent (step t (KeyDown key))
       = sent s ++ [EditServer_ClientRequest_DeleteMeasurementObject (selectedMeasurementId s)])
  ∧ onPointerObservable t
    = (if pointerObserver s then Nat.pred (onPointerObservable s) else onPointerObservable s)
  ∧ onBeforeRenderObservable t
    = (if beforeRenderObserver s then Nat.pred (onBeforeRenderObservable s)
       else onBeforeRenderObservable s).
Proof.
  intros Hs. cbv zeta. change (step s MenuDisabled) with (DisableMeasuring s).
  destruct (DisableMeasuring_observers s Hs) as (_ & Hnp & Hnb).
  split_and!; [| | | | | |exact Hnp|exact Hnb].
  - by apply DisableMeasuring_closed.
  - apply DisableMeasuring_environment.
  - apply DisableMeasuring_registry.
  - apply DisableMeasuring_sent.
  - apply DisableMeasuring_move_state.
  - intros key Hk Harmed.
    pose proof (DisableMeasuring_environment s) as He.
    assert (keydownListeners (DisableMeasuring s) = 1%nat) as Hk'.
    { unfold environment in He. by injection He as _ -> _ _. }
    pose proof (move_state_target _ _ (DisableMeasuring_move_state s)) as Hmt.
    unfold step. rewrite Hk'. simpl.
    destruct (onKeyDown_armed key (DisableMeasuring s)) as [Hsent _].
    rewrite Hsent, (armed_move_target key s (DisableMeasuring s) Hmt), Harmed.
    rewrite DisableMeasuring_sent. do 3 f_equal.
    unfold move_target in Hmt. by injection Hmt.
Qed.

(** X23, witness: the tool is closed while the end point of measurement 3
    is being moved. *)
Lemma X23_closing_the_tool_witness :
  sent (step (step moving3 MenuDisabled) (KeyDown "x"))
  = sent moving3 ++ [EditServer_ClientRequest_DeleteMeasurementObject 3].
Proof.
  refine (proj1 (proj2 (proj2 (proj2 (proj2 (proj2 (X23_closing_the_tool moving3 _))))))
            "x" _ _); reflexivity.
Defined.

(** ** X28: the observers of the controller *)

Lemma wiring_the_observers s s' : wiring s' = wiring s → observers s' = observers s.
Proof.
  intros Hw. destruct (wiring_observers _ _ Hw) as [H1 H2].
  destruct (wiring_observables _ _ Hw) as [H3 H4]. unfold observers. congruence.
Qed.

Lemma EnableMeasuring_observers s :
  scene s = true →
  scene (EnableMeasuring s) = true
  ∧ observers (EnableMeasuring s)
    = (true, true, S (onPointerObservable s), S (onBeforeRenderObservable s)).
Proof. intros Hs. unfold EnableMeasuring. rewrite Hs. by destruct s. Qed.

Lemma scene_step_observers s ev :
  observer_event ev = false → observers (scene_step s ev) = observers s.
Proof.
  intros Hev. destruct ev as [ev|r pt|r pt]; unfold scene_step.
  - destruct ev; unfold step; try discriminate Hev.
    + apply wiring_the_observers, SetActionState_wiring.
    + apply wiring_the_observers, SetActionState_wiring.
    + apply wiring_the_observers, SetActionState_wiring.
    + destruct (onPointerObservable s); [done|].
      apply wiring_the_observers, settings_wiring, HandlePointerDown_settings.
    + destruct (onPointerObservable s); [done|].
      apply wiring_the_observers, settings_wiring, HandlePointerUp_settings.
    + destruct (onBeforeRenderObservable s); [done|].
      apply wiring_the_observers, settings_wiring, HandlePointerMove_settings.
    + apply wiring_the_observers, settings_wiring, ReceiveCreate_settings.
    + apply wiring_the_observers, settings_wiring, ReceiveUpdate_settings.
    + apply wiring_the_observers, settings_wiring, ReceiveDelete_settings.
    + by destruct s.
    + by destruct s.
  - unfold fire_trigger. case_match; [|done]. by destruct s.
  - unfold fire_trigger. case_match; [|done]. by destruct s.
Qed.

(** X28. The observers of the controller accumulate. Every time the menu
    opens the tool, one more observer is on the pointer observable and one
    more on the per-frame observable, and the two fields hold the new ones;
    the observers of the opening before are still registered, and no field
    holds them any more. Closing the tool removes the two that the fields
    hold. So after the tool has been opened twice in a row and closed, the
    tool is closed, the fields are empty, and one observer of each kind is
    still registered: its handler runs on every press, release and frame.
    No event but the menu and a key press changes what the fields hold or
    how many observers are registered. *)
Theorem X28_observers_accumulate (s : State) :
  scene s = true →
  let once := step s MenuEnabled in
  let twice := step once MenuEnabled in
  let t := step twice MenuDisabled in
  observers once = (true, true, S (onPointerObservable s), S (onBeforeRenderObservable s))
  ∧ observers twice
    = (true, true, S (S (onPointerObservable s)), S (S (onBeforeRenderObservable s)))
  ∧ closed t
  ∧ observers t = (false, false, S (onPointerObservable s), S (onBeforeRenderObservable s))
  ∧ (∀ e pick, step t (PointerDown e pick) = HandlePointerDown e pick t
               ∧ step t (PointerUp e pick) = HandlePointerUp e pick t)
  ∧ (∀ pick, step t (BeforeRender pick) = HandlePointerMove pick t)
  ∧ (∀ ev, observer_event ev = false → observers (scene_step s ev) = observers s).
Proof.
  intros Hs. cbv zeta.
  change (step s MenuEnabled) with (EnableMeasuring s).
  change (step (EnableMeasuring s) MenuEnabled) with (EnableMeasuring (EnableMeasuring s)).
  change (step (EnableMeasuring (EnableMeasuring s)) MenuDisabled)
    with (DisableMeasuring (EnableMeasuring (EnableMeasuring s))).
  destruct (EnableMeasuring_observers s Hs) as [Hs1 Ho1].
  destruct (EnableMeasuring_observers _ Hs1) as [Hs2 Ho2].
  destruct (DisableMeasuring_observers _ Hs2) as (Hc & Hp & Hb).
  unfold observers in Ho1, Ho2. injection Ho1 as Hf1 Hg1 Hn1 Hm1.
  injection Ho2 as Hf2 Hg2 Hn2 Hm2.
  rewrite Hf2, Hn2, Hn1 in Hp. rewrite Hg2, Hm2, Hm1 in Hb. simpl in Hp, Hb.
  assert (observers (DisableMeasuring (EnableMeasuring (EnableMeasuring s)))
          = (false, false, S (onPointerObservable s), S (onBeforeRenderObservable s))) as Ho.
  { destruct Hc as (_ & Hfp & Hfb & _). unfold observers. by rewrite Hfp, Hfb, Hp, Hb. }
  split_and!.
  - unfold observers. by rewrite Hf1, Hg1, Hn1, Hm1.
  - unfold observers. by rewrite Hf2, Hg2, Hn2, Hm2, Hn1, Hm1.
  - exact Hc.
  - exact Ho.
  - apply (proj1 (step_with_an_observer _)). by rewrite Hp.
  - apply (proj2 (step_with_an_observer _)). by rewrite Hb.
  - apply scene_step_observers.
Qed.

(** X28, witness: measurement 3 is broadcast, the tool is opened twice in a
    row and closed. It is closed, and a press on the end point of
    measurement 3 still starts a move. *)
Lemma X28_observers_accumulate_witness :
  let s := step (Init true true constructor)
             (ServerCreate (IsArray [EntryObject (IdNumber 3) (IsVector3 origin)
                                       (IsVector3 east1) 1%float])) in
  let t := step (step (step s MenuEnabled) MenuEnabled) MenuDisabled in
  closed t
  ∧ observers t = (false, false, 1%nat, 1%nat)
  ∧ step t (PointerDown leftButton overEndOf3) = HandlePointerDown leftButton overEndOf3 t
  ∧ isMovingPoint (HandlePointerDown leftButton overEndOf3 t) = true.
Proof.
  intros s t.
  destruct (X28_observers_accumulate s eq_refl) as (_ & _ & Hc & Ho & Hdown & _).
  split; [exact Hc|]. split; [exact Ho|]. split; [|vm_compute; reflexivity].
  exact (proj1 (Hdown leftButton overEndOf3)).
Defined.

(** ** X24: an update broadcast and the plate *)

(** X24. An update broadcast for a measurement of the Registry rewrites its
    plate from the id and the two received points: the plate gets these
    points, their Euclidean distance, and two new spheres on them in the
    default colour, whatever it showed before (a highlight, or no visuals at
    all during a move). When the engine builds the dashed line for these
    data the plate also gets a new line and a new label, and is then what a
    create of these points and this distance would have built. When it does
    not, the plate keeps the line and the label it had, both disposed. The
    received distance has no effect, no other plate is touched, nothing is
    sent and a move in progress is not cancelled. *)
Theorem X24_update_rebuilds_the_plate (s : State) (d : MeasurementJson) (r : Ref)
    (p1 p2 : Vector3) :
  consistent s →
  plateObjects s !! measurement_instance_id d = Some r →
  is_Some (measurementsList s !! measurement_instance_id d) →
  decodePoint (json_startPoint d) = Some p1 →
  decodePoint (json_endPoint d) = Some p2 →
  let dist := Vector3.Distance p1 p2 in
  let built := dashedLines s p1 p2 dist in
  ∃ s' o,
    ReceiveUpdateMeasurementRequestFromServer d s = Normal s'
    ∧ heap s !! r = Some o
    ∧ heap s' !! r
      = Some (MeasurementPlateObject.mk (measurement_instance_id d) p1 p2 dist
                (if built then Some (mkLinesMesh p1 p2 EngineDefault worldSpace false true false)
                 else dispose_line <$> MeasurementPlateObject.line o)
                (if built then Some (mkTextMesh dist (midPoint p1 p2) false)
                 else dispose_text <$> MeasurementPlateObject.textMesh o)
                (Some (mkCollider p1 true worldSpace colors_point_default
                         (mkColliderMetadata r PStart (measurement_instance_id d))))
                (Some (mkCollider p2 true worldSpace colors_point_default
                         (mkColliderMetadata r PEnd (measurement_instance_id d)))))
    ∧ (built = true →
         heap s' !! r
         = Some (MeasurementPlateObject.InitPlate (dashedLines s) r
                   (MeasurementPlateObject.constructor (measurement_instance_id d) p1 p2 dist)))
    ∧ (∀ r', r' ≠ r → heap s' !! r' = heap s !! r')
    ∧ shape s' = shape s
    ∧ sent s' = sent s
    ∧ move_state s' = move_state s.
Proof.
  intros ((H1 & H2 & H3) & (Hm & Hp) & _) Hr [rm Hrm] Hd1 Hd2.
  assert (rm = r) as -> by (by eapply H3).
  apply Hp in Hr as Hid.
  destruct (heap s !! r) as [o|] eqn:Ho; [|done]. simpl in Hid. injection Hid as Hid.
  unfold ReceiveUpdateMeasurementRequestFromServer. rewrite Hr, Hrm, Hd1, Hd2.
  cbv zeta. eexists _, o. split; [reflexivity|]. split; [reflexivity|].
  set (f := λ o, MeasurementPlateObject.set_collider_ids (measurement_instance_id d)
                   (MeasurementPlateObject.UpdateMeasurement (dashedLines s) r p1 p2
                      (MeasurementPlateObject.set_data p1 p2 (distanceMeasured d) o))).
  split_and!.
  - transitivity (Some (f o));
      [subst f; destruct s; cbn in *; by rewrite !list_lookup_alter_eq, Ho|].
    f_equal. subst f. destruct o; simpl in *. subst. plate_cases; reflexivity.
  - intros Hb. transitivity (Some (f o));
      [subst f; destruct s; cbn in *; by rewrite !list_lookup_alter_eq, Ho|].
    f_equal. subst f. destruct o; simpl in *. subst.
    plate_cases; first [reflexivity | discriminate Hb | congruence].
  - intros r' Hne. destruct s; cbn in *. by rewrite !list_lookup_alter_ne by done.
  - unfold shape. destruct s; cbn in *. by rewrite !length_alter.
  - by destruct s.
  - by destruct s.
Qed.

(** X24, witness. The end point of measurement 3 is being moved, its plate
    has no visuals, and an update to (3,4,0) arrives: the plate is rebuilt
    and the move goes on. Over the engine that builds lines up to 1000 an
    update to (2^1000,0,0) arrives: the plate keeps the line to (1,0,0) and
    its label, disposed, and has its spheres on the new points. *)
Lemma X24_update_rebuilds_the_plate_witness :
  (∃ s', ReceiveUpdateMeasurementRequestFromServer
           (mkMeasurementJson 3 (IsVector3 origin) (IsVector3 p340) 99%float) moving3
         = Normal s'
         ∧ heap s' !! 0%nat
           = Some (MeasurementPlateObject.InitPlate (dashedLines moving3) 0%nat
                     (MeasurementPlateObject.constructor 3 origin p340
                        (Vector3.Distance origin p340)))
         ∧ isMovingPoint s' = true)
  ∧ (∃ s', ReceiveUpdateMeasurementRequestFromServer
             (mkMeasurementJson 3 (IsVector3 origin) (IsVector3 far) 1%float) with3_limited
           = Normal s'
           ∧ heap s' !! 0%nat
             = Some (MeasurementPlateObject.mk 3 origin far (Vector3.Distance origin far)
                       (Some (mkLinesMesh origin east1 EngineDefault worldSpace false true true))
                       (Some (mkTextMesh 1 (midPoint origin east1) true))
                       (Some (mkCollider origin true worldSpace colors_point_default
                                (mkColliderMetadata 0 PStart 3)))
                       (Some (mkCollider far true worldSpace colors_point_default
                                (mkColliderMetadata 0 PEnd 3))))).
Proof.
  split.
  - destruct (X24_update_rebuilds_the_plate moving3
                (mkMeasurementJson 3 (IsVector3 origin) (IsVector3 p340) 99%float)
                0%nat origin p340)
      as (s' & o & Hs' & _ & _ & Hh & _ & _ & _ & Hmove).
    + apply step_consistent, step_consistent, consistent_with3.
    + vm_compute. reflexivity.
    + vm_compute. eexists. reflexivity.
    + reflexivity.
    + reflexivity.
    + exists s'. split_and!; [exact Hs'|exact (Hh eq_refl)|].
      unfold move_state in Hmove. injection Hmove as -> _ _ _ _ _ _. reflexivity.
  - destruct (X24_update_rebuilds_the_plate with3_limited
                (mkMeasurementJson 3 (IsVector3 origin) (IsVector3 far) 1%float)
                0%nat origin far)
      as (s' & o & Hs' & Ho & Hh & _).
    + exact consistent_with3_limited.
    + vm_compute. reflexivity.
    + vm_compute. eexists. reflexivity.
    + reflexivity.
    + reflexivity.
    + exists s'. split; [exact Hs'|]. rewrite Hh.
      vm_compute in Ho. injection Ho as <-. vm_compute. reflexivity.
Defined.

(** ** X25: the frame callback with the pointer at rest *)

Lemma hover_endpoint_fixpoint pick s :
  hoveredMeasurementId s
  = match (if hit pick then picked_metadata pick ≫= endpoint_metadata else None) with
    | Some (_, _, id) => id | None => -1 end →
  hoveredPointType s
  = match (if hit pick then picked_metadata pick ≫= endpoint_metadata else None) with
    | Some (_, pt, _) => Some pt | None => None end →
  hover_endpoint pick s = s.
Proof.
  intros H1 H2. unfold hover_endpoint. cbv zeta.
  rewrite <-H1, <-H2.
  rewrite bool_decide_eq_false_2 by (by intros []).
  by rewrite bool_decide_eq_false_2 by (by intros []).
Qed.

Lemma hover_endpoint_hovered pick s :
  hoveredMeasurementId (hover_endpoint pick s)
  = match (if hit pick then picked_metadata pick ≫= endpoint_metadata else None) with
    | Some (_, _, id) => id | None => -1 end
  ∧ hoveredPointType (hover_endpoint pick s)
    = match (if hit pick then picked_metadata pick ≫= endpoint_metadata else None) with
      | Some (_, pt, _) => Some pt | None => None end.
Proof.
  unfold hover_endpoint. cbv zeta.
  set (target := if hit pick then picked_metadata pick ≫= endpoint_metadata else None).
  destruct (bool_decide (match target with Some (_, _, id) => id | None => -1 end
                         ≠ hoveredMeasurementId s)) eqn:Ha;
  destruct (bool_decide (match target with Some (_, pt, _) => Some pt | None => None end
                         ≠ hoveredPointType s)) eqn:Hb; cbn [orb].
  4: { apply bool_decide_eq_false in Ha, Hb. split.
       - by destruct (decide (match target with Some (_, _, id) => id | None => -1 end
                         = hoveredMeasurementId s)).
       - by destruct (decide (match target with Some (_, pt, _) => Some pt | None => None end
                         = hoveredPointType s)). }
  all: match goal with |- context [set_hoveredPointType ?a (set_hoveredMeasurementId ?b ?t)] =>
         generalize t; by intros [] end.
Qed.

Lemma hover_in_delete_mode_fixpoint pick s :
  hoveredMeasurementId s
  = (if hit pick
     then match picked_metadata pick ≫= measurementId with Some id => id | None => -1 end
     else -1) →
  hover_in_delete_mode pick s = s.
Proof.
  intros H1. unfold hover_in_delete_mode. cbv zeta. rewrite <-H1.
  by rewrite bool_decide_eq_false_2 by (by intros []).
Qed.

Lemma hover_in_delete_mode_hovered pick s :
  hoveredMeasurementId (hover_in_delete_mode pick s)
  = (if hit pick
     then match picked_metadata pick ≫= measurementId with Some id => id | None => -1 end
     else -1).
Proof.
  unfold hover_in_delete_mode. cbv zeta.
  set (new := if hit pick then _ else _).
  case_bool_decide as Ha.
  - match goal with |- context [set_hoveredMeasurementId ?b ?t] =>
      generalize t; by intros [] end.
  - by destruct (decide (new = hoveredMeasurementId s)).
Qed.

Lemma hover_in_delete_mode_settings pick s :
  settings (hover_in_delete_mode pick s) = settings s.
Proof. unfold hover_in_delete_mode, SetMeasurementColor. view_solve. Qed.

Lemma hover_endpoint_settings pick s : settings (hover_endpoint pick s) = settings s.
Proof. unfold hover_endpoint. view_solve. Qed.

Lemma hover_endpoint_interaction pick s : interaction (hover_endpoint pick s) = interaction s.
Proof. unfold hover_endpoint. view_solve. Qed.

Lemma settings_scene_mode s s' :
  settings s' = settings s →
  scene s' = scene s ∧ currentActionState s' = currentActionState s.
Proof. unfold settings. intros [= H1 _ _ H2 _ _ _ _ _]. by split. Qed.

Lemma interaction_free s s' :
  interaction s' = interaction s →
  isMovingPoint s' = isMovingPoint s ∧ isDraggingMeasurement s' = isDraggingMeasurement s.
Proof. unfold interaction. intros [= H1 _ _ _ _ H2 _ _]. by split. Qed.

Lemma HandlePointerMove_free pick s :
  scene s = true → currentActionState s ≠ ActionStates.Remove →
  isMovingPoint s = false → isDraggingMeasurement s = false →
  HandlePointerMove pick s
  = match hit pick, pickedPoint pick with
    | true, Some p =>
        set_lastValidPickedPoint (Some (Vector3.clone p)) (hover_endpoint pick s)
    | _, _ => hover_endpoint pick s
    end.
Proof.
  intros Hscene Hmode Hmov Hdrag. unfold HandlePointerMove.
  rewrite Hscene, Hmov, Hdrag, (bool_decide_eq_false_2 _ Hmode). cbn [negb andb]. cbv zeta.
  destruct (interaction_free _ _ (hover_endpoint_interaction pick s)) as [H1 H2].
  rewrite Hmov in H1. rewrite Hdrag in H2.
  revert H1 H2. generalize (hover_endpoint pick s). intros h H1 H2.
  unfold pointToUse.
  destruct h, (hit pick), (pickedPoint pick); cbn in *; subst; cbn; by repeat case_match.
Qed.

Lemma HandlePointerMove_idempotent pick s :
  HandlePointerMove pick (HandlePointerMove pick s) = HandlePointerMove pick s.
Proof.
  destruct (scene s) eqn:Hscene.
  2: { assert (HandlePointerMove pick s = s) as Hid
         by (unfold HandlePointerMove; by rewrite Hscene).
       by rewrite !Hid. }
  destruct (decide (currentActionState s = ActionStates.Remove)) as [Hmode|Hmode].
  - assert (HandlePointerMove pick s = hover_in_delete_mode pick s) as ->.
    { unfold HandlePointerMove. rewrite Hscene. cbn [negb].
      by rewrite bool_decide_eq_true_2. }
    pose proof (hover_in_delete_mode_hovered pick s) as Hh.
    destruct (settings_scene_mode _ _ (hover_in_delete_mode_settings pick s)) as [Hs' Hm'].
    rewrite Hscene in Hs'. rewrite Hmode in Hm'.
    revert Hh Hs' Hm'. generalize (hover_in_delete_mode pick s). intros t Hh Hs' Hm'.
    unfold HandlePointerMove. rewrite Hs'. cbn [negb].
    rewrite bool_decide_eq_true_2 by done. by apply hover_in_delete_mode_fixpoint.
  - destruct (negb (isMovingPoint s) && negb (isDraggingMeasurement s)) eqn:Hfree.
    + apply andb_true_iff in Hfree as [Hmov%negb_true_iff Hdrag%negb_true_iff].
      rewrite (HandlePointerMove_free pick s) by done.
      destruct (settings_scene_mode _ _ (hover_endpoint_settings pick s)) as [Hs' Hm'].
      destruct (interaction_free _ _ (hover_endpoint_interaction pick s)) as [H1 H2].
      destruct (hover_endpoint_hovered pick s) as [Hh1 Hh2].
      rewrite Hscene in Hs'. rewrite Hmov in H1. rewrite Hdrag in H2.
      assert (currentActionState (hover_endpoint pick s) ≠ ActionStates.Remove) as Hm''
        by (by rewrite Hm').
      clear Hm'. revert Hs' Hm'' H1 H2 Hh1 Hh2. generalize (hover_endpoint pick s).
      intros h Hs' Hm' H1 H2 Hh1 Hh2.
      assert (hover_endpoint pick h = h) as Hfix by (by apply hover_endpoint_fixpoint).
      destruct (hit pick) eqn:Hhit, (pickedPoint pick) as [p|] eqn:Hpp;
        rewrite HandlePointerMove_free; rewrite ?Hhit, ?Hpp, ?Hfix; try done;
        try (by destruct h).
      rewrite hover_endpoint_fixpoint; [by destruct h|rewrite Hhit; by destruct h..].
    + remember (HandlePointerMove pick s) as t eqn:Ht.
      unfold HandlePointerMove in Ht. rewrite Hscene in Ht. cbn [negb] in Ht.
      rewrite (bool_decide_eq_false_2 _ Hmode), Hfree in Ht. cbv zeta in Ht.
      destruct s, pick as [[] [pp|] pm]; cbn in Hscene, Hfree, Hmode; subst scene0;
        unfold pointToUse, UpdateMovePreview, UpdateMeasuringDisplay, ClearMovePreview in Ht;
        cbn in Ht;
        repeat (match type of Ht with
                | context [match ?x with _ => _ end] => is_var x; destruct x; cbn in Ht
                end);
        subst t; unfold HandlePointerMove, pointToUse, UpdateMovePreview,
          UpdateMeasuringDisplay, ClearMovePreview; cbn;
        rewrite ?(bool_decide_eq_false_2 _ Hmode), ?Hfree; cbn;
        try reflexivity; try discriminate Hfree.
Qed.

(** X25. The frame callback is idempotent: a second frame with the same
    pick under the pointer changes nothing, in every mode and in the middle
    of a drag or of a move. Nothing is recoloured, printed or sent by it,
    and the hover bookkeeping, the last valid point and the previews stay
    as the first frame left them. *)
Theorem X25_frame_tick_is_idempotent (pick : PickingInfo) (s : State) :
  let t := step s (BeforeRender pick) in
  step t (BeforeRender pick) = t.
Proof.
  cbv zeta. unfold step.
  destruct (onBeforeRenderObservable s) as [|n] eqn:Hb; [by rewrite Hb|].
  destruct (wiring_observables _ _ (settings_wiring _ _ (HandlePointerMove_settings pick s)))
    as [_ Hb'].
  rewrite Hb', Hb. apply HandlePointerMove_idempotent.
Qed.

(** ** X26: the hover triggers of the spheres *)

(** X26. A trigger of a sphere moves the visuals of its own plate to
    another rendering group and does nothing else: the maps, the data of
    every measurement, every other plate, the controller's hover and
    interaction state, the console and the requests are as before (the
    [onHoverCallback] is never set). Pointer-over followed by pointer-out
    leaves what pointer-out alone leaves. *)
Theorem X26_sphere_triggers (s : State) (r : Ref) (pt : PointType) :
  let over := scene_step s (PointerOverCollider r pt) in
  let out := scene_step s (PointerOutCollider r pt) in
  (∀ t, t = over ∨ t = out →
     set_heap (heap s) t = s
     ∧ entity <$> heap t = entity <$> heap s
     ∧ ∀ r', r' ≠ r → heap t !! r' = heap s !! r')
  ∧ scene_step over (PointerOutCollider r pt) = out.
Proof.
  cbv zeta. unfold scene_step. split.
  - assert (∀ g t, t = s ∨ t = modify_plate r (MeasurementPlateObject.SetRenderingGroup g) s →
              set_heap (heap s) t = s
              ∧ entity <$> heap t = entity <$> heap s
              ∧ ∀ r', r' ≠ r → heap t !! r' = heap s !! r') as Hone.
    { intros g t [-> | ->]; [by destruct s|].
      destruct s; cbn. split_and!; [done| |by intros r' Hne; rewrite list_lookup_alter_ne].
      apply list_eq. intros i. rewrite !list_lookup_fmap.
      destruct (decide (i = r)) as [->|Hne]; [|by rewrite list_lookup_alter_ne].
      rewrite list_lookup_alter. destruct (decide (r = r)); [|done].
      by destruct (heap0 !! r) as [[]|]. }
    intros t [-> | ->]; unfold fire_trigger; case_match;
      first [apply (Hone highlights); auto; fail | apply (Hone worldSpace); auto].
  - unfold fire_trigger. destruct (heap s !! r) as [o|] eqn:Ho.
    + change (Some o ≫= collider_of pt) with (collider_of pt o).
      destruct (collider_of pt o) as [c|] eqn:Hc.
      * assert (heap (modify_plate r OnPointerOverTrigger s) !! r ≫= collider_of pt
                = Some (MeasurementPlateObject.set_group highlights c)) as ->.
        { destruct s; cbn in *. rewrite list_lookup_alter.
          destruct (decide (r = r)); [|done]. rewrite Ho. simpl.
          destruct pt, o; simpl in *; by rewrite Hc. }
        destruct s; cbn in *. f_equal. apply list_eq. intros i.
        destruct (decide (i = r)) as [->|Hne]; [|by rewrite !list_lookup_alter_ne].
        rewrite !list_lookup_alter. destruct (decide (r = r)); [|done].
        rewrite Ho. simpl. f_equal.
        by destruct o as [? ? ? ? [l|] ? [c1|] [c2|]].
      * cbv iota. rewrite Ho. change (Some o ≫= collider_of pt) with (collider_of pt o).
        by rewrite Hc.
    + change (None ≫= collider_of pt) with (@None Collider). cbv iota. by rewrite Ho.
Qed.

(** X26, witness: the pointer enters and leaves the end sphere of
    measurement 3. *)
Lemma X26_sphere_triggers_witness :
  scene_step (scene_step with3 (PointerOverCollider 0%nat PEnd)) (PointerOutCollider 0%nat PEnd)
  = scene_step with3 (PointerOutCollider 0%nat PEnd).
Proof. exact (proj2 (X26_sphere_triggers with3 0%nat PEnd)). Defined.

(** ** X27: the X key and the listeners *)

Lemma onKeyDown_x_idle key s :
  key = "x" ∨ key = "X" → armed key s = false →
  onKeyDown key s = ToggleDeleteMode s.
Proof.
  intros Hkey Harmed. unfold onKeyDown.
  assert (bool_decide (key = "Escape") = false) as ->
    by (destruct Hkey as [-> | ->]; by apply bool_decide_eq_false_2).
  assert (bool_decide (key = "x") || bool_decide (key = "X") = true) as Hx
    by (destruct Hkey as [-> | ->]; by vm_compute).
  unfold armed in Harmed. rewrite Hx in Harmed. cbn [andb] in Harmed.
  by rewrite Hx, Harmed.
Qed.

Lemma ToggleDeleteMode_mode s :
  currentActionState (ToggleDeleteMode s)
  = if bool_decide (currentActionState s = ActionStates.Remove)
    then ActionStates.None else ActionStates.Remove.
Proof. unfold ToggleDeleteMode. apply SetActionState_mode. Qed.

(** X27. With no move in progress the X key toggles delete mode, once per
    registered listener. With one listener it enters delete mode from the
    two other modes and leaves it to [None]. With two, after the tool has
    been reopened, one press toggles twice: delete mode is never entered by
    the key, create mode is lost, and delete mode is not left. *)
Theorem X27_x_key_toggles_per_listener (key : string) (s : State) :
  key = "x" ∨ key = "X" →
  armed key s = false →
  let t := step s (KeyDown key) in
  (keydownListeners s = 1%nat →
     currentActionState t
     = if bool_decide (currentActionState s = ActionStates.Remove)
       then ActionStates.None else ActionStates.Remove)
  ∧ (keydownListeners s = 2%nat →
       currentActionState t
       = if bool_decide (currentActionState s = ActionStates.Remove)
         then ActionStates.Remove else ActionStates.None)
  ∧ sent t = sent s.
Proof.
  intros Hkey Harmed. cbv zeta.
  change (step s (KeyDown key)) with (Nat.iter (keydownListeners s) (onKeyDown key) s).
  split_and!.
  - intros ->. simpl. rewrite onKeyDown_x_idle by done. apply ToggleDeleteMode_mode.
  - intros ->. simpl.
    rewrite (onKeyDown_x_idle key s) by done.
    rewrite onKeyDown_x_idle;
      [|done|by rewrite (armed_move_target key s _ (ToggleDeleteMode_move_target s))].
    rewrite !ToggleDeleteMode_mode. by repeat case_bool_decide.
  - by apply iter_onKeyDown_quiet.
Qed.

(** X27, witness: X in create mode, after the tool has been opened twice. *)
Lemma X27_x_key_toggles_per_listener_witness :
  currentActionState
    (step (run (Init true true constructor)
             [MenuEnabled; MenuDisabled; MenuEnabled; CreateButtonDown])
       (KeyDown "x"))
  = ActionStates.None.
Proof.
  refine (proj1 (proj2
            (X27_x_key_toggles_per_listener "x"
               (run (Init true true constructor)
                  [MenuEnabled; MenuDisabled; MenuEnabled; CreateButtonDown]) _ _)) _).
  - left. reflexivity.
  - reflexivity.
  - reflexivity.
Defined.
